(** * QAChat-bot: the conversation session controller

    A shallow embedding of [app.py], [gemini_functions.py] and
    [supabase_functions.py].  The Streamlit session state, the two manager
    objects and the two remote services (the Supabase table and the Gemini
    model) are explicit; every function of the source that touches them is a
    computation in a small state monad over one [State] record. *)

From Stdlib Require Import List String Ascii NArith PArith ZArith Arith Bool Lia.
From Stdlib Require Import DecimalString.
Import ListNotations.

Set Implicit Arguments.

(** ** Python values *)

(** A Python [str] is a sequence of code points: [len] counts code points
    and a slice cuts between them. *)
Definition char := N.
Definition str := list char.

(** A string literal of the source (ASCII only). *)
Definition lit (s : string) : str := map N_of_ascii (list_ascii_of_string s).

(** Truthiness of a [str]: only the empty string is falsy. *)
Definition truthy (s : str) : bool :=
  match s with
  | [] => false
  | _ :: _ => true
  end.

(** Truthiness of an optional value whose non-[None] values are all truthy. *)
Definition is_some {A : Type} (o : option A) : bool :=
  match o with
  | Some _ => true
  | None => false
  end.

(** [o is None] *)
Definition is_none {A : Type} (o : option A) : bool := negb (is_some o).

(** Truthiness of an [Optional[str]]. *)
Definition truthy_opt (o : option str) : bool :=
  match o with
  | Some s => truthy s
  | None => false
  end.

(** [len(s)] and [s[:n]]. *)
Definition len (s : str) : nat := List.length s.
Definition slice_to (n : nat) (s : str) : str := firstn n s.

(** [f"{n}"] for a non-negative [int]. *)
Definition format_int (n : nat) : str :=
  lit (NilZero.string_of_uint (Nat.to_uint n)).

(** The block cursor U+258C appended to the partial text while streaming. *)
Definition cursor : str := [9612%N].

(** ** Data model *)

(** [a == b] on two [str]. *)
Definition str_eqb (a b : str) : bool :=
  if list_eq_dec N.eq_dec a b then true else false.

(** Row identifiers are assigned by the backend: the value of the [id]
    column as the client returns it, an [int] for an identity column or a
    [str] for a uuid or text key.  The controller tests such a value for
    truthiness, compares it with [is None] and with [==]; the three are kept
    apart. *)
Inductive conv_id : Type :=
| IntKey (n : Z)
| StrKey (k : str).

Arguments IntKey n%_Z.

(** Truthiness of a key: [0] and the empty string are falsy. *)
Definition id_truthy (i : conv_id) : bool :=
  match i with
  | IntKey n => negb (Z.eqb n 0)
  | StrKey k => truthy k
  end.

(** [a == b] on two keys; an [int] never equals a [str]. *)
Definition id_eqb (a b : conv_id) : bool :=
  match a, b with
  | IntKey n, IntKey m => Z.eqb n m
  | StrKey k, StrKey l => str_eqb k l
  | _, _ => false
  end.

(** Truthiness of an [Optional] key: [None] and the falsy keys are falsy. *)
Definition truthy_id (o : option conv_id) : bool :=
  match o with
  | Some i => id_truthy i
  | None => false
  end.

(** [datetime.now().isoformat()], as a reading of a clock. *)
Definition time := nat.

(** [{"role": role, "content": content}] *)
Record Message : Type := mkMessage {
  role : str;
  content : str
}.

(** A row of the [conversations] table. *)
Record Row : Type := mkRow {
  row_id : conv_id;
  row_name : str;
  row_chat_history : list Message;
  row_created_at : time;
  row_updated_at : option time
}.

(** The response object of [generate_content(prompt, stream=True)]: iterating
    it yields a chunk, stops, or raises.  [Chunk text rest] is a chunk whose
    [.text] is [text] (the empty string for a falsy [.text]); [Fail e] is an
    exception [e] raised by the iteration, with [str(e) = e]. *)
Inductive Stream : Type :=
| Done
| Chunk (text : str) (rest : Stream)
| Fail (e : str).

(** ** The remote services *)

(** One round trip [self.client.table('conversations')....execute()]. *)
Inductive request : Type :=
| Insert (name : str) (chat_history : list Message) (created_at : time)
| SelectAll
| SelectEq (id : conv_id)
| UpdateHistory (id : conv_id) (chat_history : list Message) (updated_at : time)
| UpdateName (id : option conv_id) (name : str) (updated_at : time)
| Delete (id : conv_id).

(** [inr rows] is [result.data]; [inl e] is an exception with [str(e) = e]. *)
Definition response : Type := (str + list Row)%type.

(** The two services behind the adapters: the Supabase table and the Gemini
    model.  Both are arbitrary state machines; nothing is assumed of them. *)
Class External : Type := {
  Db : Type;
  Ai : Type;
  execute : Db -> request -> response * Db;
  generate_content : Ai -> str -> (str + Stream) * Ai
}.

(** ** Session state *)

Inductive Client : Type := SupabaseClient.
Inductive GenerativeModel : Type := Model (model_name : str).

Record GeminiManager : Type := mkGeminiManager {
  model : option GenerativeModel;
  api_key_configured : bool
}.

Record SupabaseManager : Type := mkSupabaseManager {
  client : option Client
}.

(** [st.session_state] *)
Record Session : Type := mkSession {
  chat_history : list Message;
  gemini_manager : GeminiManager;
  current_conversation_id : option conv_id;
  supabase_manager : SupabaseManager;
  conversations : list Row;
  needs_name_update : bool
}.

(** The calls the controller and the adapters make on the adapters. *)
Inductive adapter_call : Type :=
| CreateConversation (name : str)
| LoadConversations
| LoadConversation (id : conv_id)
| UpdateConversation (id : conv_id) (history : list Message)
| DeleteConversation (id : conv_id)
| GenerateConversationName (first_message : option str)
| UpdateConversationName (id : option conv_id) (new_name : str)
| GenerateResponse (prompt : str)
| DisplayStreamingResponse.

(** What an observer sees, in order of occurrence. *)
Inductive event : Type :=
| StError (msg : str)
| StMarkdown (text : str)
| StChatMessage (who : str) (text : str)
| Call (c : adapter_call)
| Remote (r : request)
| Generate (prompt : str).

Record State {E : External} : Type := mkState {
  session : Session;
  db : Db;
  ai : Ai;
  clock : time;
  trace : list event
}.

Arguments State : clear implicits.
Arguments mkState {E} _ _ _ _ _.

(** ** The monad of the embedding *)

Definition M {E : External} (A : Type) : Type := State E -> A * State E.

Definition ret {E : External} {A : Type} (a : A) : M A := fun s => (a, s).

Definition bind {E : External} {A B : Type} (c : M A) (k : A -> M B) : M B :=
  fun s => let (a, s') := c s in k a s'.

Declare Scope monad_scope.
Delimit Scope monad_scope with monad.
Notation "x <- c ;; k" := (bind c (fun x => k))
  (at level 61, c at next level, right associativity) : monad_scope.
Notation "c ;; k" := (bind c (fun _ => k))
  (at level 61, right associativity) : monad_scope.
Open Scope monad_scope.

Section Primitives.
Context {E : External}.

Definition gets {A : Type} (f : Session -> A) : M A :=
  fun s => (f (session s), s).

Definition modify (f : Session -> Session) : M unit :=
  fun s => (tt, mkState (f (session s)) (db s) (ai s) (clock s) (trace s)).

Definition emit (e : event) : M unit :=
  fun s => (tt, mkState (session s) (db s) (ai s) (clock s) (trace s ++ [e])).

(** [datetime.now().isoformat()] *)
Definition datetime_now : M time :=
  fun s => (clock s, mkState (session s) (db s) (ai s) (S (clock s)) (trace s)).

(** [....execute()] on the Supabase client. *)
Definition run_query (r : request) : M response :=
  fun s => let (res, d) := execute (db s) r in
           (res, mkState (session s) d (ai s) (clock s) (trace s ++ [Remote r])).

(** [self.model.generate_content(prompt, stream=True)] *)
Definition run_generate (prompt : str) : M (str + Stream) :=
  fun s => let (res, a) := generate_content (ai s) prompt in
           (res, mkState (session s) (db s) a (clock s) (trace s ++ [Generate prompt])).

(** [st.error(msg)] *)
Definition st_error (msg : str) : M unit := emit (StError msg).

Definition set_chat_history (h : list Message) (x : Session) : Session :=
  mkSession h (gemini_manager x) (current_conversation_id x)
            (supabase_manager x) (conversations x) (needs_name_update x).

Definition set_current_conversation_id (c : option conv_id) (x : Session) : Session :=
  mkSession (chat_history x) (gemini_manager x) c
            (supabase_manager x) (conversations x) (needs_name_update x).

Definition set_conversations (l : list Row) (x : Session) : Session :=
  mkSession (chat_history x) (gemini_manager x) (current_conversation_id x)
            (supabase_manager x) l (needs_name_update x).

Definition set_needs_name_update (b : bool) (x : Session) : Session :=
  mkSession (chat_history x) (gemini_manager x) (current_conversation_id x)
            (supabase_manager x) (conversations x) b.
End Primitives.

(** ** supabase_functions.py *)

Module Supabase.
Section Methods.
Context {E : External}.

(** [self.client] *)
Definition self_client : M (option Client) :=
  gets (fun x => client (supabase_manager x)).

Definition create_conversation (name : str) (history : option (list Message))
  : M (option Row) :=
  emit (Call (CreateConversation name)) ;;
  c <- self_client ;;
  if negb (is_some c) then ret None
  else
    now <- datetime_now ;;
    result <- run_query (Insert name
                           (match history with Some h => h | None => [] end)
                           now) ;;
    match result with
    | inr (r :: _) => ret (Some r)
    | inr [] => ret None
    | inl e => st_error (lit "Error creating conversation: " ++ e) ;; ret None
    end.

Definition load_conversations : M (list Row) :=
  emit (Call LoadConversations) ;;
  c <- self_client ;;
  if negb (is_some c) then ret []
  else
    result <- run_query SelectAll ;;
    match result with
    | inr data => ret data
    | inl e => st_error (lit "Error loading conversations: " ++ e) ;; ret []
    end.

Definition load_conversation (conversation_id : conv_id) : M (option Row) :=
  emit (Call (LoadConversation conversation_id)) ;;
  c <- self_client ;;
  if negb (is_some c) then ret None
  else
    result <- run_query (SelectEq conversation_id) ;;
    match result with
    | inr (r :: _) => ret (Some r)
    | inr [] => ret None
    | inl e => st_error (lit "Error loading conversation: " ++ e) ;; ret None
    end.

Definition update_conversation (conversation_id : conv_id)
    (history : list Message) : M bool :=
  emit (Call (UpdateConversation conversation_id history)) ;;
  c <- self_client ;;
  if negb (is_some c) then ret false
  else
    now <- datetime_now ;;
    result <- run_query (UpdateHistory conversation_id history now) ;;
    match result with
    | inr (_ :: _) => ret true
    | inr [] => ret false
    | inl e => st_error (lit "Error updating conversation: " ++ e) ;; ret false
    end.

Definition delete_conversation (conversation_id : conv_id) : M bool :=
  emit (Call (DeleteConversation conversation_id)) ;;
  c <- self_client ;;
  if negb (is_some c) then ret false
  else
    result <- run_query (Delete conversation_id) ;;
    match result with
    | inr _ => ret true
    | inl e => st_error (lit "Error deleting conversation: " ++ e) ;; ret false
    end.

Definition generate_conversation_name (first_message : option str) : M str :=
  emit (Call (GenerateConversationName first_message)) ;;
  if truthy_opt first_message then
    let m := match first_message with Some m => m | None => [] end in
    ret (if 30 <? len m then slice_to 30 m ++ lit "..." else m)
  else
    convs <- load_conversations ;;
    let count := List.length convs + 1 in
    ret (lit "New Chat " ++ format_int count).

Definition update_conversation_name (conversation_id : option conv_id)
    (new_name : str) : M bool :=
  emit (Call (UpdateConversationName conversation_id new_name)) ;;
  c <- self_client ;;
  if negb (is_some c) then ret false
  else
    now <- datetime_now ;;
    result <- run_query (UpdateName conversation_id new_name now) ;;
    match result with
    | inr (_ :: _) => ret true
    | inr [] => ret false
    | inl e => st_error (lit "Error updating conversation name: " ++ e) ;; ret false
    end.
End Methods.

(** [st.warning] and [st.error] raised while the manager is built, before
    any session exists. *)
Inductive notice : Type :=
| Warning (msg : str)
| Failure (msg : str).

(** [SupabaseManager()]: [__init__] and [initialize_client].  The two
    arguments are [os.getenv("SUPABASE_URL")] and [os.getenv("SUPABASE_KEY")];
    [create_client url key] is [inl e] when the library raises [e]. *)
Definition initialize_client (supabase_url supabase_key : option str)
    (create_client : str -> str -> str + Client)
  : SupabaseManager * list notice :=
  if truthy_opt supabase_url && truthy_opt supabase_key then
    match create_client (match supabase_url with Some u => u | None => [] end)
                        (match supabase_key with Some k => k | None => [] end) with
    | inr c => (mkSupabaseManager (Some c), [])
    | inl e => (mkSupabaseManager None,
                [Failure (lit "Error initializing Supabase: " ++ e)])
    end
  else
    (mkSupabaseManager None,
     [Warning (lit "Supabase credentials not found. Please set SUPABASE_URL and SUPABASE_KEY in your .env file.")]).
End Supabase.

(** ** gemini_functions.py *)

Module Gemini.
Section Methods.
Context {E : External}.

(** [GeminiManager()] *)
Definition init : GeminiManager := mkGeminiManager None false.

Definition generate_response (prompt : str) : M (option Stream * option str) :=
  emit (Call (GenerateResponse prompt)) ;;
  self <- gets gemini_manager ;;
  if negb (api_key_configured self) || negb (is_some (model self)) then
    ret (None, Some (lit "API key not configured"))
  else
    result <- run_generate prompt ;;
    match result with
    | inr response => ret (Some response, None)
    | inl e => ret (None, Some (lit "Error generating response: " ++ e))
    end.

(** The [for chunk in response_generator] loop under [try]: the text
    accumulated when the loop ends, and the exception that ended it, if
    one did. *)
Fixpoint consume (g : Stream) (full_response : str) : M (str * option str) :=
  match g with
  | Done => ret (full_response, None)
  | Fail e => ret (full_response, Some e)
  | Chunk text rest =>
      if truthy text then
        emit (StMarkdown ((full_response ++ text) ++ cursor)) ;;
        consume rest (full_response ++ text)
      else consume rest full_response
  end.

(** Iterating [None] raises a [TypeError] inside the [try]. *)
Definition iter (response_generator : option Stream) : Stream :=
  match response_generator with
  | Some g => g
  | None => Fail (lit "'NoneType' object is not iterable")
  end.

Definition display_streaming_response (response_generator : option Stream)
  : M str :=
  emit (Call DisplayStreamingResponse) ;;
  r <- consume (iter response_generator) [] ;;
  match snd r with
  | Some e =>
      st_error (lit "Error in streaming response: " ++ e) ;;
      ret (fst r)
  | None =>
      emit (StMarkdown (fst r)) ;;
      ret (fst r)
  end.
End Methods.

Section Configure.
Context {E : External}.

(** [genai.configure(api_key=api_key)] followed by
    [genai.GenerativeModel('gemini-2.0-flash')]: [Some e] when one of the two
    raises [e]. *)
Variable genai_setup : Ai -> str -> option str * Ai.

Definition run_setup (api_key : str) : M (option str) :=
  fun s => let (r, a) := genai_setup (ai s) api_key in
           (r, mkState (session s) (db s) a (clock s) (trace s)).

Definition set_gemini_manager (g : GeminiManager) (x : Session) : Session :=
  mkSession (chat_history x) g (current_conversation_id x)
            (supabase_manager x) (conversations x) (needs_name_update x).

Definition configure_api_key (api_key : str) : M (bool * str) :=
  raised <- run_setup api_key ;;
  match raised with
  | None =>
      modify (set_gemini_manager
                (mkGeminiManager (Some (Model (lit "gemini-2.0-flash"))) true)) ;;
      ret (true, lit "API Key configured successfully!")
  | Some e =>
      modify (fun x => set_gemini_manager
                         (mkGeminiManager (model (gemini_manager x)) false) x) ;;
      ret (false, lit "Error configuring API key: " ++ e)
  end.
End Configure.
End Gemini.

(** ** app.py *)

Module App.
Section Controller.
Context {E : External}.

Definition clear_chat_history : M unit :=
  modify (set_chat_history []).

Definition display_chat_message (who : str) (text : str) : M unit :=
  emit (StChatMessage who text).

Definition load_conversations : M unit :=
  l <- Supabase.load_conversations ;;
  modify (set_conversations l).

Definition save_conversation : M unit :=
  cid <- gets current_conversation_id ;;
  match cid with
  | Some id =>
      if id_truthy id then
        h <- gets chat_history ;;
        _ <- Supabase.update_conversation id h ;;
        ret tt
      else ret tt
  | None => ret tt
  end.

Definition add_message_to_history (who : str) (text : str) : M unit :=
  modify (fun x => set_chat_history (chat_history x ++ [mkMessage who text]) x) ;;
  cid <- gets current_conversation_id ;;
  if truthy_id cid then save_conversation else ret tt.

Definition create_new_conversation (first_message : option str) : M unit :=
  name <- Supabase.generate_conversation_name None ;;
  result <- Supabase.create_conversation name None ;;
  match result with
  | Some r =>
      modify (set_current_conversation_id (Some (row_id r))) ;;
      modify (set_chat_history []) ;;
      modify (set_needs_name_update true) ;;
      load_conversations
  | None => ret tt
  end.

Definition load_conversation (conversation_id : conv_id) : M unit :=
  result <- Supabase.load_conversation conversation_id ;;
  match result with
  | Some r =>
      modify (set_current_conversation_id (Some conversation_id)) ;;
      modify (set_chat_history (row_chat_history r))
  | None => ret tt
  end.

Definition delete_conversation (conversation_id : conv_id) : M unit :=
  ok <- Supabase.delete_conversation conversation_id ;;
  if ok then
    cid <- gets current_conversation_id ;;
    (match cid with
     | Some c =>
         if id_eqb c conversation_id then
           modify (set_current_conversation_id None) ;;
           modify (set_chat_history [])
         else ret tt
     | None => ret tt
     end) ;;
    load_conversations
  else ret tt.

(** The block under [with st.chat_message("assistant")]. *)
Definition respond (prompt : str) : M unit :=
  r <- Gemini.generate_response prompt ;;
  if truthy_opt (snd r) then
    let error := match snd r with Some e => e | None => [] end in
    st_error error ;;
    add_message_to_history (lit "assistant") error
  else
    full_response <- Gemini.display_streaming_response (fst r) ;;
    add_message_to_history (lit "assistant") full_response.

Definition handle_user_input (prompt : str) : M unit :=
  gm <- gets gemini_manager ;;
  if negb (api_key_configured gm) then
    st_error (lit "Please enter your Gemini API key in the sidebar first.")
  else
    cid <- gets current_conversation_id ;;
    (if is_none cid then create_new_conversation None else ret tt) ;;
    flag <- gets needs_name_update ;;
    (if flag && truthy prompt then
       new_name <- Supabase.generate_conversation_name (Some prompt) ;;
       cid' <- gets current_conversation_id ;;
       _ <- Supabase.update_conversation_name cid' new_name ;;
       modify (set_needs_name_update false) ;;
       load_conversations
     else ret tt) ;;
    add_message_to_history (lit "user") prompt ;;
    display_chat_message (lit "user") prompt ;;
    respond prompt.
End Controller.

(** The keys of [st.session_state] before and while it is initialised: a
    field is [None] while its key is absent. *)
Record SessionDict : Type := mkSessionDict {
  key_chat_history : option (list Message);
  key_gemini_manager : option GeminiManager;
  key_current_conversation_id : option (option conv_id);
  key_supabase_manager : option SupabaseManager;
  key_conversations : option (list Row);
  key_needs_name_update : option bool
}.

Definition or_default {A : Type} (present : option A) (default : A) : option A :=
  match present with
  | Some v => Some v
  | None => Some default
  end.

(** [initialize_session_state()]; [built] is what [SupabaseManager()]
    returns and reports if it is called.  The result carries the notices of
    the constructor when it ran. *)
Definition initialize_session_state
    (built : SupabaseManager * list Supabase.notice) (d : SessionDict)
  : SessionDict * list Supabase.notice :=
  (mkSessionDict
     (or_default (key_chat_history d) [])
     (or_default (key_gemini_manager d) Gemini.init)
     (or_default (key_current_conversation_id d) None)
     (or_default (key_supabase_manager d) (fst built))
     (or_default (key_conversations d) [])
     (or_default (key_needs_name_update d) false),
   match key_supabase_manager d with
   | Some _ => []
   | None => snd built
   end).

(** The session once every key is present. *)
Definition complete (d : SessionDict) : option Session :=
  match key_chat_history d, key_gemini_manager d, key_current_conversation_id d,
        key_supabase_manager d, key_conversations d, key_needs_name_update d with
  | Some h, Some g, Some c, Some m, Some l, Some b => Some (mkSession h g c m l b)
  | _, _, _, _, _, _ => None
  end.

Definition empty_dict : SessionDict := mkSessionDict None None None None None None.

(** What the widgets return in one run of the script.  A button returns
    [true] in the run its click triggered. *)
Record Widgets : Type := mkWidgets {
  new_conversation : bool;
  conv_button : conv_id -> bool;
  del_button : conv_id -> bool;
  api_key_input : str;
  clear_chat : bool;
  chat_input : option str
}.

Section Pages.
Context {E : External}.
Variable genai_setup : Ai -> str -> option str * Ai.

(** The rows of the sidebar, [for conv in st.session_state.conversations].
    The result is [true] when [st.rerun()] ended the run. *)
Fixpoint sidebar_rows (w : Widgets) (convs : list Row) : M bool :=
  match convs with
  | [] => ret false
  | conv :: rest =>
      if conv_button w (row_id conv) then
        load_conversation (row_id conv) ;; ret true
      else if del_button w (row_id conv) then
        delete_conversation (row_id conv) ;; ret true
      else sidebar_rows w rest
  end.

(** [render_sidebar()].  The fixed texts of the page (titles, rules, the
    help text, the success banner) are layout and leave no trace. *)
Definition render_sidebar (w : Widgets) : M bool :=
  if new_conversation w then
    create_new_conversation None ;; ret true
  else
    convs <- gets conversations ;;
    rerun <- sidebar_rows w convs ;;
    if rerun then ret true
    else
      gm <- gets gemini_manager ;;
      (if negb (api_key_configured gm) then
         if truthy (api_key_input w) then
           r <- Gemini.configure_api_key genai_setup (api_key_input w) ;;
           if fst r then ret tt else st_error (snd r)
         else ret tt
       else ret tt) ;;
      ret false.

(** [for message in st.session_state.chat_history] *)
Fixpoint display_history (h : list Message) : M unit :=
  match h with
  | [] => ret tt
  | m :: rest => display_chat_message (role m) (content m) ;; display_history rest
  end.

(** [render_chat_interface()] *)
Definition render_chat_interface (w : Widgets) : M bool :=
  gm <- gets gemini_manager ;;
  h <- gets chat_history ;;
  rerun <- (if api_key_configured gm && negb (Nat.eqb (List.length h) 0) then
              if clear_chat w then clear_chat_history ;; ret true else ret false
            else ret false) ;;
  if rerun then ret true
  else
    h' <- gets chat_history ;;
    display_history h' ;;
    (if truthy_opt (chat_input w) then
       handle_user_input (match chat_input w with Some p => p | None => [] end)
     else ret tt) ;;
    ret false.

(** One run of [main()] on a session whose keys are all present, where
    [initialize_session_state()] changes nothing. *)
Definition main (w : Widgets) : M bool :=
  load_conversations ;;
  rerun <- render_sidebar w ;;
  if rerun then ret true else render_chat_interface w.
End Pages.
End App.

(** ** A concrete pair of services

    An in-memory [conversations] table with an identity key, and a Gemini
    model that answers from a script.  Each round trip to the table first
    consumes one entry of [faults]: [Some e] makes it raise [e] and leave the
    table alone, [None] (or an exhausted list) lets it through. *)

Module Scripted.

Record TableDb : Type := mkTableDb {
  rows : list Row;
  next_key : Z;
  faults : list (option str)
}.

Definition has_id (id : conv_id) (r : Row) : bool := id_eqb (row_id r) id.

(** [.order('created_at', desc=True)] *)
Fixpoint insert_desc (r : Row) (l : list Row) : list Row :=
  match l with
  | [] => [r]
  | x :: l' =>
      if row_created_at x <? row_created_at r then r :: x :: l'
      else x :: insert_desc r l'
  end.

Definition order_desc (l : list Row) : list Row :=
  fold_right insert_desc [] l.

Definition touch_history (id : conv_id) (h : list Message) (u : time) (r : Row) : Row :=
  if has_id id r
  then mkRow (row_id r) (row_name r) h (row_created_at r) (Some u)
  else r.

Definition touch_name (id : conv_id) (n : str) (u : time) (r : Row) : Row :=
  if has_id id r
  then mkRow (row_id r) n (row_chat_history r) (row_created_at r) (Some u)
  else r.

(** The rows a request returns, and the table and next key it leaves. *)
Definition perform (t : list Row) (k : Z) (r : request)
  : list Row * (list Row * Z) :=
  match r with
  | Insert n h c =>
      let row := mkRow (IntKey k) n h c None in ([row], (t ++ [row], Z.succ k))
  | SelectAll => (order_desc t, (t, k))
  | SelectEq id => (filter (has_id id) t, (t, k))
  | UpdateHistory id h u =>
      let t' := map (touch_history id h u) t in (filter (has_id id) t', (t', k))
  | UpdateName (Some id) n u =>
      let t' := map (touch_name id n u) t in (filter (has_id id) t', (t', k))
  | UpdateName None _ _ => ([], (t, k))
  | Delete id =>
      (filter (has_id id) t, (filter (fun x => negb (has_id id x)) t, k))
  end.

Definition table_execute (d : TableDb) (r : request) : response * TableDb :=
  match faults d with
  | Some e :: fs => (inl e, mkTableDb (rows d) (next_key d) fs)
  | fs =>
      let p := perform (rows d) (next_key d) r in
      (inr (fst p), mkTableDb (fst (snd p)) (snd (snd p)) (tl fs))
  end.

Definition script_generate (a : list (str + Stream)) (prompt : str)
  : (str + Stream) * list (str + Stream) :=
  match a with
  | x :: a' => (x, a')
  | [] => (inl (lit "model unavailable"), [])
  end.

Definition services : External :=
  {| Db := TableDb;
     Ai := list (str + Stream);
     execute := table_execute;
     generate_content := script_generate |}.

(** [initialize_session_state()], with or without Supabase credentials and
    with or without a configured API key. *)
Definition fresh_session (with_client configured : bool) : Session :=
  mkSession []
    (if configured
     then mkGeminiManager (Some (Model (lit "gemini-2.0-flash"))) true
     else Gemini.init)
    None
    (mkSupabaseManager (if with_client then Some SupabaseClient else None))
    [] false.

Definition start (with_client configured : bool)
    (fs : list (option str)) (answers : list (str + Stream)) : State services :=
  mkState (E := services) (fresh_session with_client configured)
          (mkTableDb [] 1%Z fs) answers 0 [].


(** A [genai] library that accepts every key but the literal "bad". *)
Definition accept_setup (a : @Ai services) (api_key : str)
  : option str * @Ai services :=
  if list_eq_dec N.eq_dec api_key (lit "bad")
  then (Some (lit "API key not valid"), a)
  else (None, a).

(** No widget is touched. *)
Definition idle : App.Widgets :=
  App.mkWidgets false (fun _ => false) (fun _ => false) [] false None.

End Scripted.

Definition run {E : External} {A : Type} (c : M A) (s : State E) : State E := snd (c s).
Definition result {E : External} {A : Type} (c : M A) (s : State E) : A := fst (c s).

(** ** Streams built from fragment sequences *)

(** The stream that yields the given fragments and then stops. *)
Fixpoint stream_of (fragments : list str) : Stream :=
  match fragments with
  | [] => Done
  | f :: fs => Chunk f (stream_of fs)
  end.

(** The stream that yields the given fragments and then raises [e]. *)
Fixpoint failing_stream (fragments : list str) (e : str) : Stream :=
  match fragments with
  | [] => Fail e
  | f :: fs => Chunk f (failing_stream fs e)
  end.

(** ** Frame properties of computations *)

(** [c] leaves the view [f] of the session as it found it. *)
Definition preserves {E : External} {A B : Type} (f : Session -> B) (c : M A) : Prop :=
  forall s, f (session (run c s)) = f (session s).

(** [c] does not touch the Gemini model. *)
Definition keeps_ai {E : External} {A : Type} (c : M A) : Prop :=
  forall s, ai (run c s) = ai s.

(** [c] only adds to the trace. *)
Definition extends {E : External} {A : Type} (c : M A) : Prop :=
  forall s, exists evs, trace (run c s) = trace s ++ evs.

(** ** Views of states and traces used by the further properties *)

(** The session has no Supabase client. *)
Definition offline {E : External} (s : State E) : Prop :=
  client (supabase_manager (session s)) = None.

Definition is_remote (e : event) : bool :=
  match e with
  | Remote _ => true
  | _ => false
  end.

Definition is_generate (e : event) : bool :=
  match e with
  | Generate _ => true
  | _ => false
  end.

(** Every event of [evs] satisfies [ok]. *)
Definition all_events (ok : event -> bool) (evs : list event) : Prop :=
  forallb ok evs = true.

(** [c] keeps the invariant [I] of the session and the table, and adds
    only events that satisfy [ok]. *)
Definition maintains {E : External} {A : Type}
    (I : Session -> Db -> Prop) (ok : event -> bool) (c : M A) : Prop :=
  forall s, I (session s) (db s) ->
    I (session (run c s)) (db (run c s))
    /\ exists evs, trace (run c s) = trace s ++ evs /\ all_events ok evs.

(** A call of the adapter's [update_conversation], the write of a history. *)
Definition is_history_write (e : event) : bool :=
  match e with
  | Call (UpdateConversation _ _) => true
  | _ => false
  end.

(** The history an event hands to the adapter or sends to the table, if it
    carries one. *)
Definition carried_history (e : event) : option (list Message) :=
  match e with
  | Call (UpdateConversation _ h) => Some h
  | Remote (Insert _ h _) => Some h
  | Remote (UpdateHistory _ h _) => Some h
  | _ => None
  end.

(** The event carries no history, or an empty one. *)
Definition carries_no_message (e : event) : bool :=
  match carried_history e with
  | Some (_ :: _) => false
  | _ => true
  end.

(** The first two steps of [handle_user_input] once the key is known to be
    configured: the lazy creation of a conversation, and the renaming after
    the first message. *)
Definition ensure_conversation {E : External} : M unit :=
  cid <- gets current_conversation_id ;;
  if is_none cid then App.create_new_conversation None else ret tt.

Definition name_from_first_message {E : External} (prompt : str) : M unit :=
  flag <- gets needs_name_update ;;
  if flag && truthy prompt then
    new_name <- Supabase.generate_conversation_name (Some prompt) ;;
    cid' <- gets current_conversation_id ;;
    _ <- Supabase.update_conversation_name cid' new_name ;;
    modify (set_needs_name_update false) ;;
    App.load_conversations
  else ret tt.

(** A row of the sidebar one of whose two buttons was clicked. *)
Definition clicked (w : App.Widgets) (conv : Row) : bool :=
  App.conv_button w (row_id conv) || App.del_button w (row_id conv).

(** The manager never claims to be configured without holding a model. *)
Definition well_configured (g : GeminiManager) : Prop :=
  api_key_configured g = true -> model g <> None.

(** The name [generate_conversation_name] derives from a non-empty text. *)
Definition derived_name (m : str) : str :=
  if 30 <? len m then slice_to 30 m ++ lit "..." else m.

(** * Properties *)

Lemma str_eqb_spec (a b : str) : BoolSpec (a = b) (a <> b) (str_eqb a b).
Proof. unfold str_eqb. destruct (list_eq_dec N.eq_dec a b); constructor; assumption. Qed.

Lemma id_eqb_spec (a b : conv_id) : BoolSpec (a = b) (a <> b) (id_eqb a b).
Proof.
  destruct a as [ n | k ], b as [ m | l ]; cbn [id_eqb]; try (constructor; discriminate).
  - destruct (Z.eqb_spec n m); constructor; congruence.
  - destruct (str_eqb_spec k l); constructor; congruence.
Qed.

Lemma id_eqb_refl (a : conv_id) : id_eqb a a = true.
Proof. destruct (id_eqb_spec a a); congruence. Qed.

Section Laws.
Context {E : External}.

Lemma run_bind {A B : Type} (c : M A) (k : A -> M B) (s : State E) :
  run (bind c k) s = run (k (result c s)) (run c s).
Proof. unfold run, result, bind. destruct (c s); reflexivity. Qed.

Lemma result_bind {A B : Type} (c : M A) (k : A -> M B) (s : State E) :
  result (bind c k) s = result (k (result c s)) (run c s).
Proof. unfold run, result, bind. destruct (c s); reflexivity. Qed.

Lemma run_ret {A : Type} (a : A) (s : State E) : run (ret a) s = s.
Proof. reflexivity. Qed.

Lemma result_ret {A : Type} (a : A) (s : State E) : result (ret a) s = a.
Proof. reflexivity. Qed.

Lemma result_gets {A : Type} (f : Session -> A) (s : State E) :
  result (gets f) s = f (session s).
Proof. reflexivity. Qed.

Lemma run_gets {A : Type} (f : Session -> A) (s : State E) : run (gets f) s = s.
Proof. reflexivity. Qed.

Lemma session_modify (f : Session -> Session) (s : State E) :
  session (run (modify f) s) = f (session s).
Proof. reflexivity. Qed.

Lemma session_run_query (r : request) (s : State E) :
  session (run (run_query r) s) = session s.
Proof. unfold run, run_query. destruct (execute (db s) r); reflexivity. Qed.

Lemma session_run_generate (p : str) (s : State E) :
  session (run (run_generate p) s) = session s.
Proof. unfold run, run_generate. destruct (generate_content (ai s) p); reflexivity. Qed.

(** *** [preserves] *)

Lemma preserves_ret {A B : Type} (f : Session -> B) (a : A) : preserves f (ret a).
Proof. intros s; reflexivity. Qed.

Lemma preserves_bind {A B C : Type} (f : Session -> C) (c : M A) (k : A -> M B) :
  preserves f c -> (forall a, preserves f (k a)) -> preserves f (bind c k).
Proof. intros Hc Hk s. rewrite run_bind, Hk, Hc. reflexivity. Qed.

Lemma preserves_gets {A B : Type} (f : Session -> B) (g : Session -> A) :
  preserves f (gets g).
Proof. intros s; reflexivity. Qed.

Lemma preserves_emit {B : Type} (f : Session -> B) (e : event) : preserves f (emit e).
Proof. intros s; reflexivity. Qed.

Lemma preserves_st_error {B : Type} (f : Session -> B) (m : str) :
  preserves f (st_error m).
Proof. intros s; reflexivity. Qed.

Lemma preserves_datetime_now {B : Type} (f : Session -> B) : preserves f datetime_now.
Proof. intros s; reflexivity. Qed.

Lemma preserves_run_query {B : Type} (f : Session -> B) (r : request) :
  preserves f (run_query r).
Proof. intros s. rewrite session_run_query. reflexivity. Qed.

Lemma preserves_run_generate {B : Type} (f : Session -> B) (p : str) :
  preserves f (run_generate p).
Proof. intros s. rewrite session_run_generate. reflexivity. Qed.

Lemma preserves_modify {B : Type} (f : Session -> B) (g : Session -> Session) :
  (forall x, f (g x) = f x) -> preserves f (modify g).
Proof. intros H s. rewrite session_modify. apply H. Qed.

(** *** [keeps_ai] *)

Lemma keeps_ai_ret {A : Type} (a : A) : keeps_ai (ret a).
Proof. intros s; reflexivity. Qed.

Lemma keeps_ai_bind {A B : Type} (c : M A) (k : A -> M B) :
  keeps_ai c -> (forall a, keeps_ai (k a)) -> keeps_ai (bind c k).
Proof. intros Hc Hk s. rewrite run_bind, Hk, Hc. reflexivity. Qed.

Lemma keeps_ai_gets {A : Type} (g : Session -> A) : keeps_ai (gets g).
Proof. intros s; reflexivity. Qed.

Lemma keeps_ai_emit (e : event) : keeps_ai (emit e).
Proof. intros s; reflexivity. Qed.

Lemma keeps_ai_st_error (m : str) : keeps_ai (st_error m).
Proof. intros s; reflexivity. Qed.

Lemma keeps_ai_modify (g : Session -> Session) : keeps_ai (modify g).
Proof. intros s; reflexivity. Qed.

Lemma keeps_ai_datetime_now : keeps_ai datetime_now.
Proof. intros s; reflexivity. Qed.

Lemma keeps_ai_run_query (r : request) : keeps_ai (run_query r).
Proof. intros s. unfold run, run_query. destruct (execute (db s) r); reflexivity. Qed.

(** *** [extends] *)

Lemma extends_ret {A : Type} (a : A) : extends (ret a).
Proof. intros s. exists []. symmetry; apply app_nil_r. Qed.

Lemma extends_bind {A B : Type} (c : M A) (k : A -> M B) :
  extends c -> (forall a, extends (k a)) -> extends (bind c k).
Proof.
  intros Hc Hk s. rewrite run_bind.
  destruct (Hk (result c s) (run c s)) as [e2 H2].
  destruct (Hc s) as [e1 H1].
  exists (e1 ++ e2). rewrite H2, H1, app_assoc. reflexivity.
Qed.

Lemma extends_gets {A : Type} (g : Session -> A) : extends (gets g).
Proof. intros s. exists []. symmetry; apply app_nil_r. Qed.

Lemma extends_modify (g : Session -> Session) : extends (modify g).
Proof. intros s. exists []. symmetry; apply app_nil_r. Qed.

Lemma extends_datetime_now : extends datetime_now.
Proof. intros s. exists []. symmetry; apply app_nil_r. Qed.

Lemma extends_emit (e : event) : extends (emit e).
Proof. intros s. exists [e]. reflexivity. Qed.

Lemma extends_st_error (m : str) : extends (st_error m).
Proof. apply extends_emit. Qed.

Lemma extends_run_query (r : request) : extends (run_query r).
Proof.
  intros s. exists [Remote r]. unfold run, run_query.
  destruct (execute (db s) r); reflexivity.
Qed.

Lemma extends_run_generate (p : str) : extends (run_generate p).
Proof.
  intros s. exists [Generate p]. unfold run, run_generate.
  destruct (generate_content (ai s) p); reflexivity.
Qed.
End Laws.

Create HintDb frame discriminated.

#[export] Hint Resolve
  preserves_ret preserves_gets preserves_emit preserves_st_error
  preserves_datetime_now preserves_run_query preserves_run_generate
  keeps_ai_ret keeps_ai_gets keeps_ai_emit keeps_ai_st_error keeps_ai_modify
  keeps_ai_datetime_now keeps_ai_run_query
  extends_ret extends_gets extends_modify extends_datetime_now extends_emit
  extends_st_error extends_run_query extends_run_generate : frame.

(** Walks through a computation along its binds and its case distinctions,
    closing the leaves with the facts collected in [frame]. *)
Ltac frame_step :=
  match goal with
  | |- preserves _ (bind _ _) => apply preserves_bind; [ | intros ? ]
  | |- keeps_ai (bind _ _) => apply keeps_ai_bind; [ | intros ? ]
  | |- extends (bind _ _) => apply extends_bind; [ | intros ? ]
  | |- preserves _ (modify _) => apply preserves_modify; intros ?; reflexivity
  | |- _ (if ?b then _ else _) => destruct b
  | |- _ (match ?x with _ => _ end) => destruct x
  | |- _ => solve [ auto with frame ]
  end.

Ltac frame := repeat frame_step.

(** ** The adapters leave the session alone *)

Section AdapterFrames.
Context {E : External}.
Variables (B : Type) (f : Session -> B).

Lemma preserves_sb_create name h : preserves f (Supabase.create_conversation name h).
Proof. unfold Supabase.create_conversation, Supabase.self_client. frame. Qed.

Lemma preserves_sb_load_all : preserves f Supabase.load_conversations.
Proof. unfold Supabase.load_conversations, Supabase.self_client. frame. Qed.

Lemma preserves_sb_load id : preserves f (Supabase.load_conversation id).
Proof. unfold Supabase.load_conversation, Supabase.self_client. frame. Qed.

Lemma preserves_sb_update id h : preserves f (Supabase.update_conversation id h).
Proof. unfold Supabase.update_conversation, Supabase.self_client. frame. Qed.

Lemma preserves_sb_delete id : preserves f (Supabase.delete_conversation id).
Proof. unfold Supabase.delete_conversation, Supabase.self_client. frame. Qed.

Lemma preserves_sb_name m : preserves f (Supabase.generate_conversation_name m).
Proof.
  unfold Supabase.generate_conversation_name. frame.
  apply preserves_sb_load_all.
Qed.

Lemma preserves_sb_rename id n : preserves f (Supabase.update_conversation_name id n).
Proof. unfold Supabase.update_conversation_name, Supabase.self_client. frame. Qed.

Lemma preserves_gm_generate p : preserves f (Gemini.generate_response p).
Proof. unfold Gemini.generate_response. frame. Qed.

Lemma preserves_gm_consume g acc : preserves f (Gemini.consume g acc).
Proof.
  revert acc. induction g as [ | text rest IH | e ]; intros acc; cbn [Gemini.consume];
    frame.
Qed.

Lemma preserves_gm_display g : preserves f (Gemini.display_streaming_response g).
Proof.
  unfold Gemini.display_streaming_response. frame; apply preserves_gm_consume.
Qed.
End AdapterFrames.

Section AdapterEffects.
Context {E : External}.

Lemma keeps_ai_sb_create name h : keeps_ai (Supabase.create_conversation name h).
Proof. unfold Supabase.create_conversation, Supabase.self_client. frame. Qed.

Lemma keeps_ai_sb_load_all : keeps_ai Supabase.load_conversations.
Proof. unfold Supabase.load_conversations, Supabase.self_client. frame. Qed.

Lemma keeps_ai_sb_update id h : keeps_ai (Supabase.update_conversation id h).
Proof. unfold Supabase.update_conversation, Supabase.self_client. frame. Qed.

Lemma keeps_ai_sb_name m : keeps_ai (Supabase.generate_conversation_name m).
Proof.
  unfold Supabase.generate_conversation_name. frame.
  apply keeps_ai_sb_load_all.
Qed.

Lemma keeps_ai_sb_rename id n : keeps_ai (Supabase.update_conversation_name id n).
Proof. unfold Supabase.update_conversation_name, Supabase.self_client. frame. Qed.

Lemma extends_sb_create name h : extends (Supabase.create_conversation name h).
Proof. unfold Supabase.create_conversation, Supabase.self_client. frame. Qed.

Lemma extends_sb_load_all : extends Supabase.load_conversations.
Proof. unfold Supabase.load_conversations, Supabase.self_client. frame. Qed.

Lemma extends_sb_update id h : extends (Supabase.update_conversation id h).
Proof. unfold Supabase.update_conversation, Supabase.self_client. frame. Qed.

Lemma extends_sb_name m : extends (Supabase.generate_conversation_name m).
Proof.
  unfold Supabase.generate_conversation_name. frame.
  apply extends_sb_load_all.
Qed.

Lemma extends_sb_rename id n : extends (Supabase.update_conversation_name id n).
Proof. unfold Supabase.update_conversation_name, Supabase.self_client. frame. Qed.

Lemma extends_gm_consume g acc : extends (Gemini.consume g acc).
Proof.
  revert acc. induction g as [ | text rest IH | e ]; intros acc; cbn [Gemini.consume];
    frame.
Qed.
End AdapterEffects.

#[export] Hint Resolve
  preserves_sb_create preserves_sb_load_all preserves_sb_load preserves_sb_update
  preserves_sb_delete preserves_sb_name preserves_sb_rename preserves_gm_generate
  preserves_gm_consume preserves_gm_display
  keeps_ai_sb_create keeps_ai_sb_load_all keeps_ai_sb_update keeps_ai_sb_name
  keeps_ai_sb_rename
  extends_sb_create extends_sb_load_all extends_sb_update extends_sb_name
  extends_sb_rename extends_gm_consume : frame.

(** ** The Supabase adapter, method by method *)

Section SupabaseFacts.
Context {E : External}.

(** What [load_conversations] returns depends on the client and on the
    table only. *)
Lemma load_conversations_result (s : State E) :
  result Supabase.load_conversations s =
  match client (supabase_manager (session s)) with
  | None => []
  | Some _ =>
      match fst (execute (db s) SelectAll) with
      | inr data => data
      | inl _ => []
      end
  end.
Proof.
  unfold result, Supabase.load_conversations, Supabase.self_client,
    bind, emit, gets, run_query, ret, st_error, emit; cbn.
  destruct (client (supabase_manager (session s))); cbn; [ | reflexivity ].
  destruct (execute (db s) SelectAll) as [[e | data] d]; reflexivity.
Qed.

Lemma load_conversations_result_emit (e : event) (s : State E) :
  result Supabase.load_conversations (run (emit e) s)
  = result Supabase.load_conversations s.
Proof. rewrite !load_conversations_result. reflexivity. Qed.

Lemma generate_conversation_name_absent (s : State E) :
  result (Supabase.generate_conversation_name None) s =
  lit "New Chat " ++ format_int (List.length (result Supabase.load_conversations s) + 1).
Proof.
  unfold Supabase.generate_conversation_name. cbn [truthy_opt].
  rewrite !result_bind, result_ret, load_conversations_result_emit.
  reflexivity.
Qed.

Lemma generate_conversation_name_empty (s : State E) :
  result (Supabase.generate_conversation_name (Some [])) s =
  lit "New Chat " ++ format_int (List.length (result Supabase.load_conversations s) + 1).
Proof.
  unfold Supabase.generate_conversation_name. cbn [truthy_opt truthy].
  rewrite !result_bind, result_ret, load_conversations_result_emit.
  reflexivity.
Qed.

Lemma generate_conversation_name_given (c : char) (cs : str) (s : State E) :
  Supabase.generate_conversation_name (Some (c :: cs)) s =
  (if 30 <? len (c :: cs) then slice_to 30 (c :: cs) ++ lit "..." else c :: cs,
   run (emit (Call (GenerateConversationName (Some (c :: cs))))) s).
Proof. reflexivity. Qed.
End SupabaseFacts.

(** C3 (as stated, refuted): for the empty text the name is not the text but
    the numbered placeholder, here "New Chat 1" on an empty table. *)
Lemma generate_conversation_name_empty_text_counterexample :
  result (Supabase.generate_conversation_name (Some []))
         (Scripted.start true true [] []) = lit "New Chat 1"
  /\ result (Supabase.generate_conversation_name (Some []))
            (Scripted.start true true [] []) <> [].
Proof. split; [ reflexivity | discriminate ]. Qed.

(** C3 (amended): for every non-empty first message, the name is the first 30
    characters followed by "..." when the message is longer than 30
    characters, and the message itself otherwise (30 characters included);
    computing it touches neither the session nor the table.  The empty text
    counts as no message and yields the numbered placeholder.  So
    "Hello there, how are you today friend" gives
    "Hello there, how are you today..." and "Hi" gives "Hi". *)
Theorem generate_conversation_name_first_message
    {E : External} (s : State E) (m : str) :
  m <> [] ->
  (30 < len m ->
     result (Supabase.generate_conversation_name (Some m)) s
     = slice_to 30 m ++ lit "...")
  /\ (len m <= 30 ->
     result (Supabase.generate_conversation_name (Some m)) s = m)
  /\ session (run (Supabase.generate_conversation_name (Some m)) s) = session s
  /\ db (run (Supabase.generate_conversation_name (Some m)) s) = db s
  /\ result (Supabase.generate_conversation_name (Some [])) s
     = result (Supabase.generate_conversation_name None) s
  /\ result (Supabase.generate_conversation_name
               (Some (lit "Hello there, how are you today friend"))) s
     = lit "Hello there, how are you today..."
  /\ result (Supabase.generate_conversation_name (Some (lit "Hi"))) s = lit "Hi".
Proof.
  intros Hm. destruct m as [ | c cs ]; [ congruence | ].
  unfold result, run. rewrite generate_conversation_name_given.
  cbn [fst snd].
  repeat split.
  - intros H. apply Nat.ltb_lt in H. rewrite H. reflexivity.
  - intros H. apply Nat.ltb_ge in H. rewrite H. reflexivity.
  - fold (result (Supabase.generate_conversation_name (Some [])) s).
    fold (result (Supabase.generate_conversation_name None) s).
    rewrite generate_conversation_name_empty, generate_conversation_name_absent.
    reflexivity.
Qed.

Lemma generate_conversation_name_first_message_witness :
  lit "Hello, world" <> []
  /\ result (Supabase.generate_conversation_name (Some (lit "Hello, world")))
            (Scripted.start true true [] []) = lit "Hello, world".
Proof.
  split; [ discriminate | ].
  apply (generate_conversation_name_first_message
           (Scripted.start true true [] []) (m := lit "Hello, world")).
  - discriminate.
  - vm_compute. lia.
Defined.

(** C4: without a first message the name is "New Chat " followed by the
    decimal numeral of k+1, where k is the number of conversations
    [load_conversations] reports: "New Chat 1" on an empty table, and
    "New Chat 2" once one conversation has been created. *)
Theorem generate_conversation_name_placeholder {E : External} (s : State E) :
  result (Supabase.generate_conversation_name None) s
  = lit "New Chat "
    ++ format_int (List.length (result Supabase.load_conversations s) + 1)
  /\ format_int (0 + 1) = lit "1"
  /\ format_int (1 + 1) = lit "2"
  /\ format_int (41 + 1) = lit "42"
  /\ result (Supabase.generate_conversation_name None)
            (Scripted.start true true [] []) = lit "New Chat 1"
  /\ result (Supabase.generate_conversation_name None)
            (run (App.create_new_conversation None)
                 (Scripted.start true true [] [])) = lit "New Chat 2".
Proof.
  split; [ apply generate_conversation_name_absent | ].
  repeat split; reflexivity.
Qed.

(** ** The Gemini adapter *)

Section GeminiFacts.
Context {E : External}.

(** The loop over a stream that ends normally returns every fragment, in
    order, after what was accumulated before. *)
Lemma consume_stream_of (fragments : list str) :
  forall (acc : str) (s : State E),
    result (Gemini.consume (stream_of fragments) acc) s
    = (acc ++ List.concat fragments, None).
Proof.
  induction fragments as [ | f fs IH ]; intros acc s; cbn [stream_of Gemini.consume List.concat].
  - rewrite app_nil_r. reflexivity.
  - destruct f as [ | c cs ]; cbn [truthy].
    + rewrite IH. reflexivity.
    + rewrite result_bind, IH, <- app_assoc. reflexivity.
Qed.

(** The loop over a stream that raises returns what it had accumulated and
    the exception. *)
Lemma consume_failing_stream (fragments : list str) (e : str) :
  forall (acc : str) (s : State E),
    result (Gemini.consume (failing_stream fragments e) acc) s
    = (acc ++ List.concat fragments, Some e).
Proof.
  induction fragments as [ | f fs IH ]; intros acc s;
    cbn [failing_stream Gemini.consume List.concat].
  - rewrite app_nil_r. reflexivity.
  - destruct f as [ | c cs ]; cbn [truthy].
    + rewrite IH. reflexivity.
    + rewrite result_bind, IH, <- app_assoc. reflexivity.
Qed.

Lemma display_failing_stream (fragments : list str) (e : str) (s : State E) :
  result (Gemini.display_streaming_response (Some (failing_stream fragments e))) s
  = List.concat fragments
  /\ exists evs,
      trace (run (Gemini.display_streaming_response
                    (Some (failing_stream fragments e))) s)
      = trace s ++ evs ++ [StError (lit "Error in streaming response: " ++ e)].
Proof.
  unfold Gemini.display_streaming_response. cbn [Gemini.iter].
  rewrite !result_bind, !run_bind, !consume_failing_stream. cbn [fst snd app].
  split; [ reflexivity | ].
  destruct (extends_gm_consume (failing_stream fragments e) []
              (run (emit (Call DisplayStreamingResponse)) s)) as [evs Hevs].
  exists (Call DisplayStreamingResponse :: evs).
  rewrite !run_bind, run_ret. unfold st_error.
  change (trace (run (emit ?x) ?t)) with (trace t ++ [x]).
  rewrite Hevs. cbn [run emit snd trace].
  rewrite <- !app_assoc. reflexivity.
Qed.
End GeminiFacts.

(** C8: consuming a stream that yields a finite sequence of fragments and
    then stops returns the concatenation of the fragments in arrival order;
    the fragments "Hel", "lo, ", "world" assemble to "Hello, world". *)
Theorem display_streaming_response_concat
    {E : External} (fragments : list str) (s : State E) :
  result (Gemini.display_streaming_response (Some (stream_of fragments))) s
  = List.concat fragments
  /\ result (Gemini.display_streaming_response
               (Some (stream_of [lit "Hel"; lit "lo, "; lit "world"]))) s
     = lit "Hello, world".
Proof.
  assert (H : forall fr,
             result (Gemini.display_streaming_response (Some (stream_of fr))) s
             = List.concat fr).
  { intros fr. unfold Gemini.display_streaming_response. cbn [Gemini.iter].
    rewrite !result_bind, consume_stream_of. reflexivity. }
  split; [ apply H | rewrite H; reflexivity ].
Qed.

(** C2: when the API key is not configured, [handle_user_input] reports the
    missing key and does nothing else: the session (chat history, current
    conversation, name flag, cached list), the table and the model are as
    before, and the only new event is the error shown to the user, so no
    adapter method was called.  [generate_response] itself, called in that
    state, answers "API key not configured" without contacting the model. *)
Theorem handle_user_input_not_configured
    {E : External} (s : State E) (prompt : str) :
  api_key_configured (gemini_manager (session s)) = false ->
  App.handle_user_input prompt s
  = (tt, mkState (session s) (db s) (ai s) (clock s)
           (trace s ++ [StError (lit "Please enter your Gemini API key in the sidebar first.")]))
  /\ Gemini.generate_response prompt s
     = ((None, Some (lit "API key not configured")),
        mkState (session s) (db s) (ai s) (clock s)
          (trace s ++ [Call (GenerateResponse prompt)])).
Proof.
  intros H. split.
  - unfold App.handle_user_input, bind, gets. rewrite H. reflexivity.
  - unfold Gemini.generate_response, bind, gets, emit. cbn. rewrite H. reflexivity.
Qed.

Lemma handle_user_input_not_configured_witness :
  api_key_configured
    (gemini_manager (session (Scripted.start true false [] []))) = false
  /\ session (run (App.handle_user_input (lit "hi")) (Scripted.start true false [] []))
     = session (Scripted.start true false [] []).
Proof.
  split; [ reflexivity | ].
  unfold run.
  rewrite (proj1 (handle_user_input_not_configured
                    (Scripted.start true false [] []) (lit "hi") eq_refl)).
  reflexivity.
Defined.

(** ** The controller, function by function *)

Section ControllerFrames.
Context {E : External}.

Lemma preserves_save {B : Type} (f : Session -> B) : preserves f App.save_conversation.
Proof. unfold App.save_conversation. frame. Qed.

Lemma keeps_ai_save : keeps_ai App.save_conversation.
Proof. unfold App.save_conversation. frame. Qed.

Lemma extends_save : extends App.save_conversation.
Proof. unfold App.save_conversation. frame. Qed.

Lemma keeps_ai_load_conversations : keeps_ai App.load_conversations.
Proof. unfold App.load_conversations. frame. Qed.

Lemma extends_load_conversations : extends App.load_conversations.
Proof. unfold App.load_conversations. frame. Qed.

Lemma keeps_ai_add who text : keeps_ai (App.add_message_to_history who text).
Proof. unfold App.add_message_to_history. frame. apply keeps_ai_save. Qed.

Lemma extends_add who text : extends (App.add_message_to_history who text).
Proof. unfold App.add_message_to_history. frame. apply extends_save. Qed.

Lemma keeps_ai_create fm : keeps_ai (App.create_new_conversation fm).
Proof. unfold App.create_new_conversation. frame. apply keeps_ai_load_conversations. Qed.

Lemma extends_create fm : extends (App.create_new_conversation fm).
Proof. unfold App.create_new_conversation. frame. apply extends_load_conversations. Qed.

(** The session after [add_message_to_history]: one message more, the rest
    as before. *)
Lemma session_add who text (s : State E) :
  session (run (App.add_message_to_history who text) s)
  = set_chat_history (chat_history (session s) ++ [mkMessage who text]) (session s).
Proof.
  unfold App.add_message_to_history.
  rewrite run_bind, run_bind.
  match goal with
  | |- session (run (if ?b then _ else _) _) = _ => destruct b
  end.
  - rewrite (preserves_save (fun x => x)). reflexivity.
  - reflexivity.
Qed.

Lemma gemini_manager_load_conversations :
  preserves gemini_manager App.load_conversations.
Proof. unfold App.load_conversations. frame. Qed.

Lemma gemini_manager_create fm :
  preserves gemini_manager (App.create_new_conversation fm).
Proof.
  unfold App.create_new_conversation. frame.
  apply gemini_manager_load_conversations.
Qed.

Lemma needs_name_update_load_conversations :
  preserves needs_name_update App.load_conversations.
Proof. unfold App.load_conversations. frame. Qed.

Lemma session_respond (prompt : str) (s : State E) :
  exists text,
    session (run (App.respond prompt) s)
    = set_chat_history (chat_history (session s) ++ [mkMessage (lit "assistant") text])
                       (session s).
Proof.
  unfold App.respond. rewrite run_bind.
  pose proof (preserves_gm_generate (fun x => x) prompt s) as Hg. cbn beta in Hg.
  destruct (truthy_opt (snd (result (Gemini.generate_response prompt) s))).
  - eexists. rewrite run_bind, session_add.
    change (session (run (st_error ?m) ?t)) with (session t).
    rewrite Hg. reflexivity.
  - eexists. rewrite run_bind, session_add.
    rewrite (preserves_gm_display (fun x => x)). rewrite Hg. reflexivity.
Qed.
End ControllerFrames.

Section PersistenceFacts.
Context {E : External}.

(** [update_conversation] records its call and, with a client, issues
    exactly the write of the history it was given. *)
Lemma update_conversation_trace id h (s : State E) :
  exists evs,
    trace (run (Supabase.update_conversation id h) s)
    = trace s ++ Call (UpdateConversation id h) :: evs
    /\ (client (supabase_manager (session s)) = None -> evs = [])
    /\ (client (supabase_manager (session s)) <> None ->
        exists evs',
          evs = Remote (UpdateHistory id h (clock s)) :: evs'
          /\ forall e, In e evs' -> exists m, e = StError m).
Proof.
  unfold run, Supabase.update_conversation, Supabase.self_client,
    bind, emit, gets, datetime_now, run_query, st_error, emit, ret; cbn.
  destruct (client (supabase_manager (session s))) as [ c | ]; cbn.
  - destruct (execute (db s) (UpdateHistory id h (clock s))) as [[e | [ | r rs]] d]; cbn;
      eexists; (split; [ rewrite <- ?app_assoc; reflexivity | ]);
      (split; [ discriminate | ]); intros _; eexists; (split; [ reflexivity | ]);
      cbn; intros x Hx; try contradiction.
    destruct Hx as [ <- | [] ]. eexists; reflexivity.
  - exists []. repeat split; congruence.
Qed.

Lemma create_conversation_no_client name h (s : State E) :
  client (supabase_manager (session s)) = None ->
  result (Supabase.create_conversation name h) s = None.
Proof.
  intros Hc.
  unfold result, Supabase.create_conversation, Supabase.self_client, bind, emit, gets; cbn.
  rewrite Hc. reflexivity.
Qed.

Lemma load_conversation_no_client id (s : State E) :
  client (supabase_manager (session s)) = None ->
  result (Supabase.load_conversation id) s = None.
Proof.
  intros Hc.
  unfold result, Supabase.load_conversation, Supabase.self_client, bind, emit, gets; cbn.
  rewrite Hc. reflexivity.
Qed.

(** [delete_conversation] of the adapter answers [True] exactly when there
    is a client and the round trip does not raise. *)
Lemma delete_conversation_result id (s : State E) :
  result (Supabase.delete_conversation id) s = true
  <-> client (supabase_manager (session s)) <> None
      /\ exists data, fst (execute (db s) (Delete id)) = inr data.
Proof.
  unfold result, Supabase.delete_conversation, Supabase.self_client,
    bind, emit, gets, run_query, st_error, emit, ret; cbn.
  destruct (client (supabase_manager (session s))) as [ c | ]; cbn.
  - destruct (execute (db s) (Delete id)) as [[e | data] d]; cbn.
    + split; [ discriminate | intros [_ [x Hx]]; discriminate ].
    + split; [ intros _; split; [ discriminate | eexists; reflexivity ] | reflexivity ].
  - split; [ discriminate | intros [H _]; congruence ].
Qed.
End PersistenceFacts.

Section HistoryWrite.
Context {E : External}.

(** The table after the adapter's write: what the request leaves, or the
    table as it was when there is no client. *)
Lemma update_conversation_db id h (s : State E) :
  (client (supabase_manager (session s)) = None ->
     db (run (Supabase.update_conversation id h) s) = db s)
  /\ (client (supabase_manager (session s)) <> None ->
      db (run (Supabase.update_conversation id h) s)
      = snd (execute (db s) (UpdateHistory id h (clock s)))).
Proof.
  unfold run, Supabase.update_conversation, Supabase.self_client,
    bind, emit, gets, datetime_now, run_query, st_error, emit, ret; cbn.
  destruct (client (supabase_manager (session s))) as [ c | ]; cbn.
  - split; [ discriminate | intros _ ].
    destruct (execute (db s) (UpdateHistory id h (clock s))) as [[e | [ | r rs]] d];
      reflexivity.
  - split; [ reflexivity | congruence ].
Qed.

(** With a truthy current key, [add_message_to_history] is the append
    followed by the adapter's write of the new history. *)
Lemma add_message_to_history_truthy who text id (s : State E) :
  current_conversation_id (session s) = Some id ->
  id_truthy id = true ->
  run (App.add_message_to_history who text) s
  = run (Supabase.update_conversation id (chat_history (session s) ++ [mkMessage who text]))
        (run (modify (set_chat_history (chat_history (session s) ++ [mkMessage who text]))) s).
Proof.
  intros Hid Htr. unfold App.add_message_to_history, App.save_conversation.
  rewrite !run_bind, !result_gets, !run_gets.
  change (current_conversation_id (session (run (modify ?g) s)))
    with (current_conversation_id (session s)).
  rewrite Hid. cbn [truthy_id]. rewrite Htr.
  rewrite !run_bind, !result_gets, !run_gets.
  change (current_conversation_id (session (run (modify ?g) s)))
    with (current_conversation_id (session s)).
  rewrite Hid, Htr.
  rewrite !run_bind, !result_gets, !run_gets, run_ret.
  reflexivity.
Qed.

(** With no current key, or a falsy one, it is the append alone. *)
Lemma add_message_to_history_falsy who text (s : State E) :
  truthy_id (current_conversation_id (session s)) = false ->
  run (App.add_message_to_history who text) s
  = run (modify (set_chat_history (chat_history (session s) ++ [mkMessage who text]))) s.
Proof.
  intros Hf. unfold App.add_message_to_history.
  rewrite !run_bind, !result_gets, !run_gets.
  change (current_conversation_id (session (run (modify ?g) s)))
    with (current_conversation_id (session s)).
  rewrite Hf. reflexivity.
Qed.
End HistoryWrite.




(** C9: when the adapter's [create_conversation] returns no record,
    [create_new_conversation] leaves the whole session as it was: current
    conversation, chat history, name flag and cached list.  A missing
    Supabase client is one such case. *)
Theorem create_new_conversation_failure
    {E : External} (s : State E) (first_message : option str) :
  let name := result (Supabase.generate_conversation_name None) s in
  let s1 := run (Supabase.generate_conversation_name None) s in
  (result (Supabase.create_conversation name None) s1 = None ->
     session (run (App.create_new_conversation first_message) s) = session s)
  /\ (client (supabase_manager (session s)) = None ->
      result (Supabase.create_conversation name None) s1 = None).
Proof.
  intros name s1. split.
  - intros Hnone. unfold App.create_new_conversation.
    rewrite run_bind, run_bind. fold name. fold s1. rewrite Hnone.
    rewrite run_ret, (preserves_sb_create (fun x => x)).
    subst s1. rewrite (preserves_sb_name (fun x => x)). reflexivity.
  - intros Hc. apply create_conversation_no_client.
    subst s1. rewrite (preserves_sb_name (fun x => x)). exact Hc.
Qed.

Lemma create_new_conversation_failure_witness :
  let s := Scripted.start true true [None; Some (lit "timeout")] [] in
  result (Supabase.create_conversation
            (result (Supabase.generate_conversation_name None) s) None)
         (run (Supabase.generate_conversation_name None) s) = None
  /\ session (run (App.create_new_conversation None) s) = session s.
Proof.
  intros s. split; [ reflexivity | ].
  apply (create_new_conversation_failure s None). reflexivity.
Defined.

(** C10: when the adapter's [load_conversation] returns no record (unknown
    id, backend error, no client), [load_conversation] of the controller
    leaves the session, hence the current conversation and the chat history,
    unchanged; when it returns a record, the current conversation becomes the
    requested id and the chat history becomes the record's. *)
Theorem load_conversation_failure
    {E : External} (s : State E) (id : conv_id) :
  (result (Supabase.load_conversation id) s = None ->
     session (run (App.load_conversation id) s) = session s)
  /\ (forall r,
        result (Supabase.load_conversation id) s = Some r ->
        current_conversation_id (session (run (App.load_conversation id) s)) = Some id
        /\ chat_history (session (run (App.load_conversation id) s)) = row_chat_history r)
  /\ (client (supabase_manager (session s)) = None ->
      result (Supabase.load_conversation id) s = None).
Proof.
  split; [ | split ].
  - intros Hnone. unfold App.load_conversation.
    rewrite run_bind, Hnone, run_ret.
    apply (preserves_sb_load (fun x => x)).
  - intros r Hr. unfold App.load_conversation.
    rewrite run_bind, Hr, run_bind. split; reflexivity.
  - apply load_conversation_no_client.
Qed.

Lemma load_conversation_failure_witness :
  let s := run (App.create_new_conversation None) (Scripted.start true true [] []) in
  result (Supabase.load_conversation (IntKey 7)) s = None
  /\ current_conversation_id (session (run (App.load_conversation (IntKey 7)) s))
     = Some (IntKey 1).
Proof.
  intros s. split; [ reflexivity | ].
  rewrite (proj1 (load_conversation_failure s (IntKey 7)) eq_refl).
  reflexivity.
Defined.

Section ListRefresh.
Context {E : External}.

Lemma session_app_load_conversations (s : State E) :
  session (run App.load_conversations s)
  = set_conversations (result Supabase.load_conversations s) (session s).
Proof.
  unfold App.load_conversations.
  rewrite run_bind, session_modify, (preserves_sb_load_all (fun x => x)).
  reflexivity.
Qed.

Lemma app_load_conversations_trace (s : State E) :
  exists evs,
    trace (run App.load_conversations s) = trace s ++ Call LoadConversations :: evs.
Proof.
  unfold App.load_conversations, Supabase.load_conversations.
  rewrite run_bind.
  change (trace (run (modify ?g) ?t)) with (trace t).
  rewrite run_bind.
  match goal with
  | |- exists evs, trace (run ?c ?t) = _ =>
      assert (Hx : extends c) by (unfold Supabase.self_client; frame);
      destruct (Hx t) as [evs Hevs]
  end.
  exists evs. rewrite Hevs. cbn [run emit snd trace].
  rewrite <- app_assoc. reflexivity.
Qed.
End ListRefresh.

(** C6 (as stated, refuted): the conversation created first is active, the
    delete round trip raises, and the session is not reset; nor is the list
    reloaded: after the failed request there is only the error notice. *)
Lemma delete_conversation_failure_counterexample :
  let s := run (App.create_new_conversation None)
               (Scripted.start true true [None; None; None; Some (lit "down")] []) in
  let s' := run (App.delete_conversation (IntKey 1)) s in
  current_conversation_id (session s) = Some (IntKey 1)
  /\ current_conversation_id (session s') = Some (IntKey 1)
  /\ trace s' = trace s ++ [Call (DeleteConversation (IntKey 1));
                            Remote (Delete (IntKey 1));
                            StError (lit "Error deleting conversation: down")].
Proof. vm_compute. repeat split. Qed.

(** C6 (amended): when the adapter's delete succeeds (there is a client and
    the round trip does not raise), [delete_conversation] resets the session
    to Empty if the deleted id is the current conversation, leaves current
    conversation and history alone otherwise, and in both cases reloads the
    cached conversation list.  When the adapter's delete fails, the session
    is left as it was and the list is not reloaded. *)
Theorem delete_conversation_outcomes
    {E : External} (s : State E) (id : conv_id) :
  let ok := result (Supabase.delete_conversation id) s in
  let s1 := run (Supabase.delete_conversation id) s in
  let s' := run (App.delete_conversation id) s in
  (ok = true ->
     (current_conversation_id (session s) = Some id ->
        current_conversation_id (session s') = None
        /\ chat_history (session s') = [])
     /\ (current_conversation_id (session s) <> Some id ->
        current_conversation_id (session s') = current_conversation_id (session s)
        /\ chat_history (session s') = chat_history (session s))
     /\ conversations (session s') = result Supabase.load_conversations s1
     /\ exists evs, trace s' = trace s1 ++ Call LoadConversations :: evs)
  /\ (ok = false -> s' = s1 /\ session s' = session s)
  /\ (ok = true <->
      client (supabase_manager (session s)) <> None
      /\ exists data, fst (execute (db s) (Delete id)) = inr data).
Proof.
  intros ok s1 s'. split; [ | split ].
  - intros Hok. subst s'. unfold App.delete_conversation.
    rewrite run_bind. fold ok. fold s1. rewrite Hok.
    rewrite !run_bind, result_gets, run_gets.
    assert (Hs1 : session s1 = session s)
      by (subst s1; apply (preserves_sb_delete (fun x => x))).
    rewrite Hs1.
    set (reset := match current_conversation_id (session s) with
                  | Some c =>
                      if id_eqb c id
                      then modify (set_current_conversation_id None) ;;
                           modify (set_chat_history [])
                      else ret tt
                  | None => ret tt
                  end).
    assert (Hdb : db (run reset s1) = db s1 /\ trace (run reset s1) = trace s1
                  /\ supabase_manager (session (run reset s1))
                     = supabase_manager (session s1)).
    { subst reset. destruct (current_conversation_id (session s)) as [ c | ];
        [ destruct (id_eqb c id) | ]; repeat split. }
    destruct Hdb as (Hdb & Htr & Hsm).
    rewrite !session_app_load_conversations.
    cbn [set_conversations current_conversation_id chat_history conversations].
    split; [ | split; [ | split ] ].
    + intros Hcur. subst reset. rewrite Hcur, id_eqb_refl. split; reflexivity.
    + intros Hcur. subst reset.
      destruct (current_conversation_id (session s)) as [ c | ] eqn:Hc.
      * destruct (id_eqb_spec c id) as [ -> | Hne ]; [ congruence | ].
        rewrite run_ret, Hs1, Hc. split; reflexivity.
      * rewrite run_ret, Hs1, Hc. split; reflexivity.
    + rewrite !load_conversations_result, Hdb, Hsm. reflexivity.
    + destruct (app_load_conversations_trace (run reset s1)) as [evs Hevs].
      exists evs. rewrite Hevs, Htr. reflexivity.
  - intros Hok. subst s'. unfold App.delete_conversation.
    rewrite run_bind. fold ok. fold s1. rewrite Hok, run_ret.
    split; [ reflexivity | ].
    subst s1. apply (preserves_sb_delete (fun x => x)).
  - apply delete_conversation_result.
Qed.

Lemma delete_conversation_outcomes_witness :
  let s := run (App.create_new_conversation None) (Scripted.start true true [] []) in
  result (Supabase.delete_conversation (IntKey 1)) s = true
  /\ current_conversation_id (session s) = Some (IntKey 1)
  /\ current_conversation_id (session (run (App.delete_conversation (IntKey 1)) s)) = None
  /\ chat_history (session (run (App.delete_conversation (IntKey 1)) s)) = [].
Proof.
  intros s. split; [ reflexivity | ]. split; [ reflexivity | ].
  apply (delete_conversation_outcomes s (IntKey 1)); reflexivity.
Defined.


#[export] Hint Resolve
  keeps_ai_save extends_save keeps_ai_load_conversations extends_load_conversations
  keeps_ai_add extends_add keeps_ai_create extends_create
  gemini_manager_load_conversations gemini_manager_create
  needs_name_update_load_conversations : frame.

Section UserInput.
Context {E : External}.

(** With a configured key, [handle_user_input] reaches the assistant's
    block in a state where the prompt is the last message of the history,
    the Gemini manager and the model are as at the start, and, for a
    non-empty prompt, the name flag is down. *)
Lemma handle_user_input_configured (s : State E) (prompt : str) :
  api_key_configured (gemini_manager (session s)) = true ->
  exists s_d h,
    run (App.handle_user_input prompt) s = run (App.respond prompt) s_d
    /\ gemini_manager (session s_d) = gemini_manager (session s)
    /\ ai s_d = ai s
    /\ chat_history (session s_d) = h ++ [mkMessage (lit "user") prompt]
    /\ (prompt <> [] -> needs_name_update (session s_d) = false)
    /\ exists evs, trace s_d = trace s ++ evs.
Proof.
  intros Hcfg. unfold App.handle_user_input.
  rewrite run_bind, result_gets, run_gets, Hcfg. cbn [negb].
  rewrite run_bind, result_gets, run_gets.
  set (A := if is_none (current_conversation_id (session s))
            then App.create_new_conversation None else ret tt).
  rewrite run_bind. set (s_a := run A s).
  rewrite run_bind, result_gets, run_gets.
  rewrite run_bind.
  match goal with
  | |- context [run (if ?b then ?c else ret tt) s_a] =>
      set (B := if b then c else ret tt)
  end.
  set (s_b := run B s_a).
  rewrite run_bind. set (s_c := run (App.add_message_to_history (lit "user") prompt) s_b).
  rewrite run_bind. set (s_d := run (App.display_chat_message (lit "user") prompt) s_c).
  assert (HA : preserves gemini_manager A /\ keeps_ai A /\ extends A)
    by (subst A; repeat split; frame).
  assert (HB : preserves gemini_manager B /\ keeps_ai B /\ extends B)
    by (subst B; repeat split; frame).
  destruct HA as (HA1 & HA2 & HA3). destruct HB as (HB1 & HB2 & HB3).
  exists s_d, (chat_history (session s_b)).
  split; [ reflexivity | ].
  split; [ | split; [ | split; [ | split ] ] ].
  - subst s_d s_c. cbn [run App.display_chat_message emit snd session].
    fold (run (App.add_message_to_history (lit "user") prompt) s_b).
    rewrite session_add. cbn [set_chat_history gemini_manager].
    subst s_b s_a. rewrite HB1, HA1. reflexivity.
  - subst s_d s_c. cbn [run App.display_chat_message emit snd ai].
    fold (run (App.add_message_to_history (lit "user") prompt) s_b).
    rewrite keeps_ai_add. subst s_b s_a. rewrite HB2, HA2. reflexivity.
  - subst s_d s_c. cbn [run App.display_chat_message emit snd session].
    fold (run (App.add_message_to_history (lit "user") prompt) s_b).
    rewrite session_add. reflexivity.
  - intros Hp. subst s_d s_c. cbn [run App.display_chat_message emit snd session].
    fold (run (App.add_message_to_history (lit "user") prompt) s_b).
    rewrite session_add. cbn [set_chat_history needs_name_update].
    subst s_b B.
    destruct prompt as [ | c cs ]; [ congruence | ]. cbn [truthy].
    destruct (needs_name_update (session s_a)) eqn:Hflag; cbn [andb].
    + rewrite !run_bind. rewrite needs_name_update_load_conversations.
      reflexivity.
    + rewrite run_ret. exact Hflag.
  - destruct (HA3 s) as [e1 H1]. destruct (HB3 s_a) as [e2 H2].
    destruct (extends_add (lit "user") prompt s_b) as [e3 H3].
    exists (e1 ++ e2 ++ e3 ++ [StChatMessage (lit "user") prompt]).
    subst s_d. cbn [run App.display_chat_message emit snd trace].
    subst s_c. rewrite H3. subst s_b. rewrite H2. subst s_a. rewrite H1.
    rewrite <- !app_assoc. reflexivity.
Qed.
End UserInput.

Section Response.
Context {E : External}.

Lemma generate_response_configured (s : State E) (prompt : str)
      (res : str + Stream) (a : Ai) :
  api_key_configured (gemini_manager (session s)) = true ->
  model (gemini_manager (session s)) <> None ->
  generate_content (ai s) prompt = (res, a) ->
  result (Gemini.generate_response prompt) s
  = match res with
    | inr response => (Some response, None)
    | inl e => (None, Some (lit "Error generating response: " ++ e))
    end.
Proof.
  intros Hcfg Hm Hg.
  unfold result, Gemini.generate_response, bind, emit, gets, run_generate, ret; cbn.
  rewrite Hcfg. destruct (model (gemini_manager (session s))); [ | congruence ].
  cbn. rewrite Hg. destruct res; reflexivity.
Qed.

Lemma generate_response_frame (prompt : str) (s : State E) :
  session (run (Gemini.generate_response prompt) s) = session s
  /\ exists evs, trace (run (Gemini.generate_response prompt) s) = trace s ++ evs.
Proof.
  split; [ apply (preserves_gm_generate (fun x => x)) | ].
  assert (H : extends (Gemini.generate_response prompt))
    by (unfold Gemini.generate_response; frame).
  apply H.
Qed.

(** The assistant's block when the stream breaks after some fragments. *)
Lemma respond_failing_stream (s : State E) (prompt : str)
      (fragments : list str) (e : str) (a : Ai) :
  api_key_configured (gemini_manager (session s)) = true ->
  model (gemini_manager (session s)) <> None ->
  generate_content (ai s) prompt = (inr (failing_stream fragments e), a) ->
  chat_history (session (run (App.respond prompt) s))
  = chat_history (session s) ++ [mkMessage (lit "assistant") (List.concat fragments)]
  /\ exists evs evs',
      trace (run (App.respond prompt) s)
      = trace s ++ evs ++ StError (lit "Error in streaming response: " ++ e) :: evs'.
Proof.
  intros Hcfg Hm Hg. unfold App.respond.
  rewrite run_bind, (generate_response_configured s prompt Hcfg Hm Hg).
  cbn [snd fst truthy_opt].
  destruct (generate_response_frame prompt s) as (Hs & e1 & H1).
  set (s_e := run (Gemini.generate_response prompt) s) in *.
  rewrite run_bind.
  destruct (display_failing_stream fragments e s_e) as (Hres & e2 & H2).
  rewrite Hres.
  set (s_f := run (Gemini.display_streaming_response
                     (Some (failing_stream fragments e))) s_e) in *.
  split.
  - rewrite session_add. cbn [set_chat_history chat_history].
    subst s_f. rewrite (preserves_gm_display (fun x => x)), Hs. reflexivity.
  - destruct (extends_add (lit "assistant") (List.concat fragments) s_f) as [e3 H3].
    exists (e1 ++ e2), e3. rewrite H3, H2, H1.
    rewrite <- !app_assoc. reflexivity.
Qed.

(** The assistant's block when [generate_content] itself raises. *)
Lemma respond_generation_error (s : State E) (prompt : str) (e : str) (a : Ai) :
  api_key_configured (gemini_manager (session s)) = true ->
  model (gemini_manager (session s)) <> None ->
  generate_content (ai s) prompt = (inl e, a) ->
  chat_history (session (run (App.respond prompt) s))
  = chat_history (session s)
    ++ [mkMessage (lit "assistant") (lit "Error generating response: " ++ e)].
Proof.
  intros Hcfg Hm Hg. unfold App.respond.
  rewrite run_bind, (generate_response_configured s prompt Hcfg Hm Hg).
  cbn [snd fst truthy_opt truthy lit list_ascii_of_string map app].
  destruct (generate_response_frame prompt s) as (Hs & _).
  rewrite run_bind, session_add.
  change (session (run (st_error ?m) ?t)) with (session t).
  rewrite Hs. reflexivity.
Qed.
End Response.

(** C1 (as stated, refuted): the stream yields "Par" and "tial" and then
    raises "boom"; the assistant message appended is "Partial", which is not
    the error text; the error is shown as a separate notice. *)
Lemma mid_stream_failure_counterexample :
  let s := Scripted.start true true []
             [inr (failing_stream [lit "Par"; lit "tial"] (lit "boom"))] in
  let s' := run (App.handle_user_input (lit "hi")) s in
  chat_history (session s')
  = [mkMessage (lit "user") (lit "hi"); mkMessage (lit "assistant") (lit "Partial")]
  /\ In (StError (lit "Error in streaming response: boom")) (trace s')
  /\ lit "Partial" <> lit "Error in streaming response: boom"
  /\ lit "Partial" <> lit "boom".
Proof.
  vm_compute. split; [ reflexivity | ]. split; [ | split; discriminate ].
  repeat (first [ left; reflexivity | right ]).
Qed.

(** C1 (amended): with the key configured, when the stream raises after some
    fragments, the assistant message appended after the user's message has as
    content the text accumulated so far, that is the concatenation of the
    fragments received, and the error text is shown as a separate notice.
    The error text is the content of the assistant message when
    [generate_content] itself raises, before any stream exists. *)
Theorem mid_stream_failure_keeps_partial_text
    {E : External} (s : State E) (prompt : str) :
  api_key_configured (gemini_manager (session s)) = true ->
  model (gemini_manager (session s)) <> None ->
  (forall fragments e a,
     generate_content (ai s) prompt = (inr (failing_stream fragments e), a) ->
     (exists h,
        chat_history (session (run (App.handle_user_input prompt) s))
        = h ++ [mkMessage (lit "user") prompt;
                mkMessage (lit "assistant") (List.concat fragments)])
     /\ In (StError (lit "Error in streaming response: " ++ e))
           (trace (run (App.handle_user_input prompt) s)))
  /\ (forall e a,
        generate_content (ai s) prompt = (inl e, a) ->
        exists h,
          chat_history (session (run (App.handle_user_input prompt) s))
          = h ++ [mkMessage (lit "user") prompt;
                  mkMessage (lit "assistant") (lit "Error generating response: " ++ e)]).
Proof.
  intros Hcfg Hm.
  destruct (handle_user_input_configured s prompt Hcfg)
    as (s_d & h & Hrun & Hgm & Hai & Hh & _ & _).
  rewrite Hrun. rewrite <- Hgm in Hcfg, Hm. rewrite <- Hai.
  split.
  - intros fragments e a Hg.
    destruct (respond_failing_stream s_d prompt fragments e Hcfg Hm Hg)
      as (Hc & evs & evs' & Ht).
    split.
    + exists h. rewrite Hc, Hh, <- app_assoc. reflexivity.
    + rewrite Ht. apply in_or_app. right. apply in_or_app. right. left. reflexivity.
  - intros e a Hg. exists h.
    rewrite (respond_generation_error s_d prompt Hcfg Hm Hg), Hh, <- app_assoc.
    reflexivity.
Qed.

Lemma mid_stream_failure_keeps_partial_text_witness :
  let s := Scripted.start true true []
             [inr (failing_stream [lit "Par"; lit "tial"] (lit "boom"))] in
  api_key_configured (gemini_manager (session s)) = true
  /\ model (gemini_manager (session s)) <> None
  /\ generate_content (ai s) (lit "hi")
     = (inr (failing_stream [lit "Par"; lit "tial"] (lit "boom")), [])
  /\ exists h,
      chat_history (session (run (App.handle_user_input (lit "hi")) s))
      = h ++ [mkMessage (lit "user") (lit "hi");
              mkMessage (lit "assistant") (List.concat [lit "Par"; lit "tial"])].
Proof.
  intros s. split; [ reflexivity | ]. split; [ discriminate | ].
  split; [ reflexivity | ].
  assert (Hm : model (gemini_manager (session s)) <> None) by discriminate.
  destruct (mid_stream_failure_keeps_partial_text s (lit "hi") eq_refl Hm) as [H _].
  destruct (H [lit "Par"; lit "tial"] (lit "boom") [] eq_refl) as [Hh _].
  exact Hh.
Defined.

(** * Further properties of the adapters *)

Section Offline.
Context {E : External}.

(** A state with one more event in its trace. *)
Lemma run_emit (e : event) (s : State E) :
  run (emit e) s = mkState (session s) (db s) (ai s) (clock s) (trace s ++ [e]).
Proof. reflexivity. Qed.
End Offline.

(** X1: without a Supabase client every method of the adapter returns its
    failure value ([None], the empty list, [False]) and does nothing else:
    no round trip, the clock is not read, and the only new events are the
    records of the calls themselves.  The placeholder name is then always
    "New Chat 1". *)
Theorem supabase_without_client {E : External} (s : State E) :
  offline s ->
  (forall name h,
     Supabase.create_conversation name h s
     = (None, run (emit (Call (CreateConversation name))) s))
  /\ Supabase.load_conversations s = ([], run (emit (Call LoadConversations)) s)
  /\ (forall id,
        Supabase.load_conversation id s
        = (None, run (emit (Call (LoadConversation id))) s))
  /\ (forall id h,
        Supabase.update_conversation id h s
        = (false, run (emit (Call (UpdateConversation id h))) s))
  /\ (forall id,
        Supabase.delete_conversation id s
        = (false, run (emit (Call (DeleteConversation id))) s))
  /\ (forall id n,
        Supabase.update_conversation_name id n s
        = (false, run (emit (Call (UpdateConversationName id n))) s))
  /\ Supabase.generate_conversation_name None s
     = (lit "New Chat 1",
        run (emit (Call LoadConversations))
            (run (emit (Call (GenerateConversationName None))) s)).
Proof.
  unfold offline. intros Hc.
  unfold Supabase.create_conversation, Supabase.load_conversations,
    Supabase.load_conversation, Supabase.update_conversation,
    Supabase.delete_conversation, Supabase.update_conversation_name,
    Supabase.generate_conversation_name, Supabase.load_conversations,
    Supabase.self_client, bind, gets, emit, ret, run; cbn.
  rewrite Hc; cbn.
  repeat split.
Qed.

Lemma supabase_without_client_witness :
  offline (Scripted.start false true [] [])
  /\ result (Supabase.update_conversation (IntKey 1) [])
            (Scripted.start false true [] []) = false.
Proof.
  split; [ reflexivity | ].
  unfold result.
  destruct (supabase_without_client (s := Scripted.start false true [] []) eq_refl)
    as (_ & _ & _ & H & _).
  rewrite H. reflexivity.
Defined.

(** X2: the manager built at start-up has a client exactly when both
    credentials are set and non-empty and [create_client] returns one; then
    the client is the one returned and nothing is reported.  When
    [create_client] raises [e] there is no client and the one notice is the
    error "Error initializing Supabase: " followed by [e].  When a
    credential is missing or empty there is no client and the one notice is
    the warning that asks for SUPABASE_URL and SUPABASE_KEY. *)
Theorem initialize_client_outcomes
    (supabase_url supabase_key : option str)
    (create_client : str -> str -> str + Client) :
  let built := Supabase.initialize_client supabase_url supabase_key create_client in
  (client (fst built) <> None <->
     exists u k c, supabase_url = Some u /\ supabase_key = Some k
                   /\ u <> [] /\ k <> [] /\ create_client u k = inr c)
  /\ (forall u k c,
        supabase_url = Some u -> supabase_key = Some k -> u <> [] -> k <> [] ->
        create_client u k = inr c ->
        built = (mkSupabaseManager (Some c), []))
  /\ (forall u k e,
        supabase_url = Some u -> supabase_key = Some k -> u <> [] -> k <> [] ->
        create_client u k = inl e ->
        built = (mkSupabaseManager None,
                 [Supabase.Failure (lit "Error initializing Supabase: " ++ e)]))
  /\ (supabase_url = None \/ supabase_url = Some []
      \/ supabase_key = None \/ supabase_key = Some [] ->
      built = (mkSupabaseManager None,
               [Supabase.Warning (lit "Supabase credentials not found. Please set SUPABASE_URL and SUPABASE_KEY in your .env file.")]))
  /\ (client (fst built) <> None -> snd built = [])
  /\ (client (fst built) = None -> exists n, snd built = [n]).
Proof.
  intros built. subst built. unfold Supabase.initialize_client.
  destruct supabase_url as [ [ | a u ] | ]; destruct supabase_key as [ [ | b k ] | ];
    cbn [truthy_opt truthy andb fst snd client];
    try (split; [ split; [ congruence | intros (u' & k' & c & Hu & Hk & Hu' & Hk' & _); congruence ]
                | split; [ intros u' k' c Hu Hk Hu' Hk'; congruence
                         | split; [ intros u' k' c Hu Hk Hu' Hk'; congruence
                                  | split; [ intros _; reflexivity
                                           | split; [ congruence
                                                    | intros _; eexists; reflexivity ] ] ] ] ]).
  destruct (create_client (a :: u) (b :: k)) as [ e | c ] eqn:Hcc; cbn [fst snd client].
  - split; [ split; [ congruence | ] | ].
    + intros (u' & k' & c & Hu & Hk & _ & _ & Hc).
      injection Hu as <-. injection Hk as <-. congruence.
    + split; [ intros u' k' c Hu Hk _ _ Hc;
               injection Hu as <-; injection Hk as <-; congruence | ].
      split; [ intros u' k' e' Hu Hk _ _ He;
               injection Hu as <-; injection Hk as <-; congruence | ].
      split; [ intros [ H | [ H | [ H | H ] ] ]; discriminate | ].
      split; [ congruence | intros _; eexists; reflexivity ].
  - split; [ split; [ intros _ | discriminate ] | ].
    + exists (a :: u), (b :: k), c. repeat split; congruence.
    + split; [ intros u' k' c' Hu Hk _ _ Hc;
               injection Hu as <-; injection Hk as <-; congruence | ].
      split; [ intros u' k' e' Hu Hk _ _ He;
               injection Hu as <-; injection Hk as <-; congruence | ].
      split; [ intros [ H | [ H | [ H | H ] ] ]; discriminate | ].
      split; [ reflexivity | congruence ].
Qed.

Lemma initialize_client_outcomes_witness :
  Supabase.initialize_client (Some (lit "https://db")) None
    (fun _ _ => inr SupabaseClient)
  = (mkSupabaseManager None,
     [Supabase.Warning (lit "Supabase credentials not found. Please set SUPABASE_URL and SUPABASE_KEY in your .env file.")])
  /\ Supabase.initialize_client (Some (lit "https://db")) (Some (lit "key"))
       (fun _ _ => inl (lit "Invalid URL"))
     = (mkSupabaseManager None,
        [Supabase.Failure (lit "Error initializing Supabase: Invalid URL")]).
Proof.
  destruct (initialize_client_outcomes (Some (lit "https://db")) None
              (fun _ _ => inr SupabaseClient)) as (_ & _ & _ & Hwarn & _).
  destruct (initialize_client_outcomes (Some (lit "https://db")) (Some (lit "key"))
              (fun _ _ => inl (lit "Invalid URL"))) as (_ & _ & Herr & _).
  split.
  - apply Hwarn. right. right. left. reflexivity.
  - apply (Herr (lit "https://db") (lit "key") (lit "Invalid URL"));
      try reflexivity; discriminate.
Defined.

(** X3: when the round trip of a method raises [e], the method catches it:
    it returns its failure value, shows one error notice made of its own
    prefix and [e], and the state is the one the failed round trip left. *)
Theorem supabase_round_trip_raises {E : External} (s : State E) (e : str) (d : Db) :
  client (supabase_manager (session s)) <> None ->
  (forall name,
     execute (db s) (Insert name [] (clock s)) = (inl e, d) ->
     Supabase.create_conversation name None s
     = (None, mkState (session s) d (ai s) (S (clock s))
                (trace s ++ [Call (CreateConversation name);
                             Remote (Insert name [] (clock s));
                             StError (lit "Error creating conversation: " ++ e)])))
  /\ (execute (db s) SelectAll = (inl e, d) ->
      Supabase.load_conversations s
      = ([], mkState (session s) d (ai s) (clock s)
               (trace s ++ [Call LoadConversations; Remote SelectAll;
                            StError (lit "Error loading conversations: " ++ e)])))
  /\ (forall id,
        execute (db s) (SelectEq id) = (inl e, d) ->
        Supabase.load_conversation id s
        = (None, mkState (session s) d (ai s) (clock s)
                   (trace s ++ [Call (LoadConversation id); Remote (SelectEq id);
                                StError (lit "Error loading conversation: " ++ e)])))
  /\ (forall id h,
        execute (db s) (UpdateHistory id h (clock s)) = (inl e, d) ->
        Supabase.update_conversation id h s
        = (false, mkState (session s) d (ai s) (S (clock s))
                    (trace s ++ [Call (UpdateConversation id h);
                                 Remote (UpdateHistory id h (clock s));
                                 StError (lit "Error updating conversation: " ++ e)])))
  /\ (forall id,
        execute (db s) (Delete id) = (inl e, d) ->
        Supabase.delete_conversation id s
        = (false, mkState (session s) d (ai s) (clock s)
                    (trace s ++ [Call (DeleteConversation id); Remote (Delete id);
                                 StError (lit "Error deleting conversation: " ++ e)])))
  /\ (forall id n,
        execute (db s) (UpdateName id n (clock s)) = (inl e, d) ->
        Supabase.update_conversation_name id n s
        = (false, mkState (session s) d (ai s) (S (clock s))
                    (trace s ++ [Call (UpdateConversationName id n);
                                 Remote (UpdateName id n (clock s));
                                 StError (lit "Error updating conversation name: " ++ e)]))).
Proof.
  intros Hc.
  unfold Supabase.create_conversation, Supabase.load_conversations,
    Supabase.load_conversation, Supabase.update_conversation,
    Supabase.delete_conversation, Supabase.update_conversation_name,
    Supabase.self_client, bind, gets, emit, ret, run_query, datetime_now,
    st_error, emit; cbn.
  destruct (client (supabase_manager (session s))) as [ c | ]; [ | congruence ]. cbn.
  repeat split; intros; cbn;
    match goal with
    | H : execute _ _ = _ |- _ => rewrite H
    end; cbn; rewrite <- ?app_assoc; reflexivity.
Qed.

Lemma supabase_round_trip_raises_witness :
  let s := Scripted.start true true [Some (lit "timeout")] [] in
  client (supabase_manager (session s)) <> None
  /\ execute (db s) SelectAll
     = (inl (lit "timeout"), Scripted.mkTableDb [] 1%Z [])
  /\ result Supabase.load_conversations s = [].
Proof.
  intros s.
  assert (Hc : client (supabase_manager (session s)) <> None) by discriminate.
  split; [ exact Hc | ]. split; [ reflexivity | ].
  destruct (supabase_round_trip_raises s (lit "timeout")
              (Scripted.mkTableDb [] 1%Z []) Hc) as (_ & H & _).
  unfold result. rewrite (H eq_refl). reflexivity.
Defined.

(** X4: a round trip that succeeds with no row is not an error for any
    method, and no notice is shown: [create_conversation] and
    [load_conversation] return [None], both updates return [False], while
    [delete_conversation] returns [True] whatever rows come back, so
    deleting an unknown id succeeds. *)
Theorem supabase_empty_result {E : External} (s : State E) (d : Db) :
  client (supabase_manager (session s)) <> None ->
  (forall name,
     execute (db s) (Insert name [] (clock s)) = (inr [], d) ->
     Supabase.create_conversation name None s
     = (None, mkState (session s) d (ai s) (S (clock s))
                (trace s ++ [Call (CreateConversation name);
                             Remote (Insert name [] (clock s))])))
  /\ (forall id,
        execute (db s) (SelectEq id) = (inr [], d) ->
        Supabase.load_conversation id s
        = (None, mkState (session s) d (ai s) (clock s)
                   (trace s ++ [Call (LoadConversation id); Remote (SelectEq id)])))
  /\ (forall id h,
        execute (db s) (UpdateHistory id h (clock s)) = (inr [], d) ->
        Supabase.update_conversation id h s
        = (false, mkState (session s) d (ai s) (S (clock s))
                    (trace s ++ [Call (UpdateConversation id h);
                                 Remote (UpdateHistory id h (clock s))])))
  /\ (forall id n,
        execute (db s) (UpdateName id n (clock s)) = (inr [], d) ->
        Supabase.update_conversation_name id n s
        = (false, mkState (session s) d (ai s) (S (clock s))
                    (trace s ++ [Call (UpdateConversationName id n);
                                 Remote (UpdateName id n (clock s))])))
  /\ (forall id data,
        execute (db s) (Delete id) = (inr data, d) ->
        Supabase.delete_conversation id s
        = (true, mkState (session s) d (ai s) (clock s)
                   (trace s ++ [Call (DeleteConversation id); Remote (Delete id)]))).
Proof.
  intros Hc.
  unfold Supabase.create_conversation, Supabase.load_conversation,
    Supabase.update_conversation, Supabase.delete_conversation,
    Supabase.update_conversation_name,
    Supabase.self_client, bind, gets, emit, ret, run_query, datetime_now; cbn.
  destruct (client (supabase_manager (session s))) as [ c | ]; [ | congruence ]. cbn.
  repeat split; intros; cbn;
    match goal with
    | H : execute _ _ = _ |- _ => rewrite H
    end; cbn; rewrite <- ?app_assoc; reflexivity.
Qed.

Lemma supabase_empty_result_witness :
  let s := Scripted.start true true [] [] in
  client (supabase_manager (session s)) <> None
  /\ execute (db s) (Delete (IntKey 5)) = (inr [], Scripted.mkTableDb [] 1%Z [])
  /\ result (Supabase.delete_conversation (IntKey 5)) s = true.
Proof.
  intros s.
  assert (Hc : client (supabase_manager (session s)) <> None) by discriminate.
  split; [ exact Hc | ]. split; [ reflexivity | ].
  destruct (supabase_empty_result s
              (Scripted.mkTableDb [] 1%Z []) Hc) as (_ & _ & _ & _ & H).
  unfold result. rewrite (H (IntKey 5) [] eq_refl). reflexivity.
Defined.

Section Names.
Context {E : External}.

Lemma generate_conversation_name_derived (m : str) (s : State E) :
  m <> [] ->
  result (Supabase.generate_conversation_name (Some m)) s = derived_name m.
Proof.
  intros Hm. destruct m as [ | c cs ]; [ congruence | ].
  unfold result. rewrite generate_conversation_name_given. reflexivity.
Qed.

Lemma derived_name_nonempty (m : str) : m <> [] -> derived_name m <> [].
Proof.
  intros Hm. unfold derived_name.
  destruct (30 <? len m); [ | exact Hm ].
  destruct m as [ | c cs ]; [ congruence | ]. discriminate.
Qed.

Lemma derived_name_length (m : str) : len (derived_name m) <= 33.
Proof.
  unfold derived_name, len, slice_to.
  destruct (Nat.ltb_spec 30 (List.length m)) as [ H | H ].
  - rewrite length_app, firstn_length_le by lia. cbn. lia.
  - lia.
Qed.

Lemma derived_name_prefix (m : str) :
  slice_to 30 (derived_name m) = slice_to 30 m.
Proof.
  unfold derived_name, len, slice_to.
  destruct (Nat.ltb_spec 30 (List.length m)) as [ H | H ]; [ | reflexivity ].
  rewrite firstn_app, firstn_firstn, firstn_length_le by lia.
  replace (30 - 30) with 0 by lia. cbn [firstn Nat.min].
  rewrite app_nil_r. reflexivity.
Qed.

Lemma derived_name_idempotent (m : str) :
  derived_name (derived_name m) = derived_name m.
Proof.
  destruct (Nat.ltb_spec 30 (len m)) as [ H | H ].
  - assert (Hd : derived_name m = slice_to 30 m ++ lit "...").
    { unfold derived_name. apply Nat.ltb_lt in H. rewrite H. reflexivity. }
    assert (Hl : len (slice_to 30 m ++ lit "...") = 33).
    { unfold len, slice_to in *. rewrite length_app, firstn_length_le by lia.
      reflexivity. }
    rewrite Hd. unfold derived_name. rewrite Hl. cbn [Nat.ltb Nat.leb].
    unfold slice_to, len in *.
    rewrite firstn_app, firstn_firstn, firstn_length_le by lia.
    replace (30 - 30) with 0 by lia. cbn [firstn Nat.min].
    rewrite app_nil_r. reflexivity.
  - assert (Hd : derived_name m = m).
    { unfold derived_name. apply Nat.ltb_ge in H. rewrite H. reflexivity. }
    rewrite Hd. exact Hd.
Qed.
End Names.

(** X5: a name derived from a non-empty message is never empty and never
    longer than 33 characters, it agrees with the message on the first 30
    characters, and deriving a name from a derived name gives it back. *)
Theorem generate_conversation_name_bounds {E : External} (s : State E) (m : str) :
  m <> [] ->
  let name := result (Supabase.generate_conversation_name (Some m)) s in
  name <> []
  /\ len name <= 33
  /\ slice_to 30 name = slice_to 30 m
  /\ forall s', result (Supabase.generate_conversation_name (Some name)) s' = name.
Proof.
  intros Hm name. subst name. rewrite (generate_conversation_name_derived s Hm).
  split; [ apply derived_name_nonempty, Hm | ].
  split; [ apply derived_name_length | ].
  split; [ apply derived_name_prefix | ].
  intros s'.
  rewrite (generate_conversation_name_derived s' (derived_name_nonempty Hm)).
  apply derived_name_idempotent.
Qed.

Lemma generate_conversation_name_bounds_witness :
  lit "Hello there, how are you today friend" <> []
  /\ len (result (Supabase.generate_conversation_name
                     (Some (lit "Hello there, how are you today friend")))
                  (Scripted.start true true [] [])) <= 33.
Proof.
  split; [ discriminate | ].
  apply (generate_conversation_name_bounds (Scripted.start true true [] [])
           (m := lit "Hello there, how are you today friend")).
  discriminate.
Defined.

Section StreamEvents.
Context {E : External}.

(** A live update: some non-empty beginning of [final] followed by the
    cursor. *)
Lemma consume_partial_updates (fragments : list str) :
  forall (acc : str) (s : State E),
  exists evs,
    trace (run (Gemini.consume (stream_of fragments) acc) s) = trace s ++ evs
    /\ List.length evs = List.length (filter truthy fragments)
    /\ Forall (fun ev => exists p q,
                  ev = StMarkdown (p ++ cursor) /\ p <> []
                  /\ p ++ q = acc ++ List.concat fragments) evs.
Proof.
  induction fragments as [ | f fs IH ]; intros acc s;
    cbn [stream_of Gemini.consume List.concat filter].
  - exists []. rewrite app_nil_r. repeat split. constructor.
  - destruct f as [ | c cs ]; cbn [truthy].
    + destruct (IH acc s) as (evs & Ht & Hl & Hf). exists evs. repeat split; assumption.
    + rewrite run_bind.
      destruct (IH (acc ++ c :: cs) (run (emit (StMarkdown ((acc ++ c :: cs) ++ cursor))) s))
        as (evs & Ht & Hl & Hf).
      exists (StMarkdown ((acc ++ c :: cs) ++ cursor) :: evs).
      split; [ | split ].
      * rewrite Ht, run_emit. cbn [trace]. rewrite <- app_assoc. reflexivity.
      * cbn [List.length]. rewrite Hl. reflexivity.
      * constructor.
        -- exists (acc ++ c :: cs), (List.concat fs).
           split; [ reflexivity | ]. split.
           ++ destruct acc; discriminate.
           ++ rewrite <- app_assoc. reflexivity.
        -- eapply Forall_impl; [ | exact Hf ].
           intros ev (p & q & -> & Hp & Hpq). exists p, q.
           repeat split; [ exact Hp | rewrite Hpq, <- app_assoc; reflexivity ].
Qed.
End StreamEvents.

(** X6: while a stream that ends normally is consumed, the placeholder is
    updated once per non-empty fragment, each time with a non-empty
    beginning of the final text followed by the cursor, and once more at the
    end with the final text alone; nothing else is shown. *)
Theorem display_streaming_response_updates
    {E : External} (fragments : list str) (s : State E) :
  exists evs,
    trace (run (Gemini.display_streaming_response (Some (stream_of fragments))) s)
    = trace s ++ Call DisplayStreamingResponse :: evs
               ++ [StMarkdown (List.concat fragments)]
    /\ List.length evs = List.length (filter truthy fragments)
    /\ Forall (fun ev => exists p q,
                  ev = StMarkdown (p ++ cursor) /\ p <> []
                  /\ p ++ q = List.concat fragments) evs.
Proof.
  unfold Gemini.display_streaming_response. cbn [Gemini.iter].
  rewrite !run_bind, !consume_stream_of. cbn [fst snd app].
  destruct (consume_partial_updates fragments []
              (run (emit (Call DisplayStreamingResponse)) s)) as (evs & Ht & Hl & Hf).
  exists evs. split; [ | split; assumption ].
  rewrite !run_bind, run_ret, run_emit. cbn [trace].
  rewrite Ht, run_emit. cbn [trace]. rewrite <- !app_assoc. reflexivity.
Qed.

(** * Invariants along a computation *)

Section Maintains.
Context {E : External}.
Variables (I : Session -> Db -> Prop) (ok : event -> bool).

Lemma all_events_app (f : event -> bool) (l1 l2 : list event) :
  all_events f l1 -> all_events f l2 -> all_events f (l1 ++ l2).
Proof.
  unfold all_events. intros H1 H2. rewrite forallb_app, H1, H2. reflexivity.
Qed.

Lemma maintains_ret {A : Type} (a : A) : maintains I ok (ret a).
Proof.
  intros s Hs. split; [ exact Hs | ].
  exists []. split; [ symmetry; apply app_nil_r | reflexivity ].
Qed.

Lemma maintains_bind {A B : Type} (c : M A) (k : A -> M B) :
  maintains I ok c -> (forall a, maintains I ok (k a)) -> maintains I ok (bind c k).
Proof.
  intros Hc Hk s Hs. rewrite run_bind.
  destruct (Hc s Hs) as (H1 & e1 & Ht1 & Ho1).
  destruct (Hk (result c s) (run c s) H1) as (H2 & e2 & Ht2 & Ho2).
  split; [ exact H2 | ].
  exists (e1 ++ e2). split.
  - rewrite Ht2, Ht1, app_assoc. reflexivity.
  - apply all_events_app; assumption.
Qed.

(** The same when the invariant fixes what [c] returns. *)
Lemma maintains_bind_value {A B : Type} (c : M A) (k : A -> M B) (v : A) :
  (forall s, I (session s) (db s) -> result c s = v) ->
  maintains I ok c -> maintains I ok (k v) -> maintains I ok (bind c k).
Proof.
  intros Hv Hc Hk s Hs. rewrite run_bind, (Hv s Hs).
  destruct (Hc s Hs) as (H1 & e1 & Ht1 & Ho1).
  destruct (Hk (run c s) H1) as (H2 & e2 & Ht2 & Ho2).
  split; [ exact H2 | ].
  exists (e1 ++ e2). split.
  - rewrite Ht2, Ht1, app_assoc. reflexivity.
  - apply all_events_app; assumption.
Qed.

Lemma maintains_gets {A : Type} (f : Session -> A) : maintains I ok (gets f).
Proof.
  intros s Hs. split; [ exact Hs | ].
  exists []. split; [ symmetry; apply app_nil_r | reflexivity ].
Qed.

Lemma maintains_datetime_now : maintains I ok datetime_now.
Proof.
  intros s Hs. split; [ exact Hs | ].
  exists []. split; [ symmetry; apply app_nil_r | reflexivity ].
Qed.

Lemma maintains_emit (e : event) : ok e = true -> maintains I ok (emit e).
Proof.
  intros He s Hs. split; [ exact Hs | ].
  exists [e]. split; [ reflexivity | ]. unfold all_events. cbn. rewrite He. reflexivity.
Qed.

Lemma maintains_st_error (m : str) : ok (StError m) = true -> maintains I ok (st_error m).
Proof. apply maintains_emit. Qed.

Lemma maintains_modify (g : Session -> Session) :
  (forall x d, I x d -> I (g x) d) -> maintains I ok (modify g).
Proof.
  intros Hg s Hs. split; [ apply Hg, Hs | ].
  exists []. split; [ symmetry; apply app_nil_r | reflexivity ].
Qed.

Lemma maintains_run_generate (p : str) :
  ok (Generate p) = true -> maintains I ok (run_generate p).
Proof.
  intros He s Hs. unfold run, run_generate.
  destruct (generate_content (ai s) p) as [res a]. cbn.
  split; [ exact Hs | ].
  exists [Generate p]. split; [ reflexivity | ].
  unfold all_events. cbn. rewrite He. reflexivity.
Qed.

Lemma maintains_run_query (r : request) :
  (forall x d d', I x d -> I x d') ->
  ok (Remote r) = true -> maintains I ok (run_query r).
Proof.
  intros HI He s Hs. unfold run, run_query.
  destruct (execute (db s) r) as [res d]. cbn.
  split; [ eapply HI, Hs | ].
  exists [Remote r]. split; [ reflexivity | ].
  unfold all_events. cbn. rewrite He. reflexivity.
Qed.

Lemma maintains_consume (g : Stream) :
  (forall t, ok (StMarkdown t) = true) ->
  forall acc, maintains I ok (Gemini.consume g acc).
Proof.
  intros Hok. induction g as [ | text rest IH | e ]; intros acc; cbn [Gemini.consume].
  - apply maintains_ret.
  - destruct (truthy text); [ | apply IH ].
    apply maintains_bind; [ apply maintains_emit, Hok | intros _; apply IH ].
  - apply maintains_ret.
Qed.
End Maintains.

Create HintDb maintain discriminated.

(** Walks through a computation like [frame], for [maintains]. *)
Ltac maintain_step :=
  match goal with
  | |- maintains _ _ (bind _ _) => apply maintains_bind; [ | intros ? ]
  | |- maintains _ _ (ret _) => apply maintains_ret
  | |- maintains _ _ (gets _) => apply maintains_gets
  | |- maintains _ _ datetime_now => apply maintains_datetime_now
  | |- maintains _ _ (emit _) => apply maintains_emit; reflexivity
  | |- maintains _ _ (st_error _) => apply maintains_st_error; reflexivity
  | |- maintains _ _ (run_generate _) => apply maintains_run_generate; reflexivity
  | |- maintains _ _ (run_query _) =>
      apply maintains_run_query; [ intros ? ? ? ?; assumption | reflexivity ]
  | |- maintains _ _ (modify _) =>
      apply maintains_modify; intros ? ? ?; assumption
  | |- maintains _ _ (let _ := _ in _) => cbv zeta
  | |- maintains _ _ (if ?b then _ else _) => destruct b
  | |- maintains _ _ (match ?x with _ => _ end) => destruct x
  | |- _ => solve [ auto with maintain ]
  end.

Ltac maintain := repeat maintain_step.

Section Steps.
Context {E : External}.

(** [handle_user_input] with a configured key, step by step. *)
Lemma handle_user_input_steps (s : State E) (prompt : str) :
  api_key_configured (gemini_manager (session s)) = true ->
  run (App.handle_user_input prompt) s
  = run (App.respond prompt)
      (run (App.display_chat_message (lit "user") prompt)
         (run (App.add_message_to_history (lit "user") prompt)
            (run (name_from_first_message prompt)
               (run ensure_conversation s)))).
Proof.
  intros Hcfg. unfold App.handle_user_input, ensure_conversation, name_from_first_message.
  rewrite run_bind, result_gets, run_gets, Hcfg. cbn [negb].
  rewrite !run_bind, !result_gets, !run_gets. reflexivity.
Qed.

(** Without a current conversation, [add_message_to_history] is the append
    alone. *)
Lemma add_message_to_history_no_current who text (s : State E) :
  current_conversation_id (session s) = None ->
  run (App.add_message_to_history who text) s
  = run (modify (set_chat_history (chat_history (session s) ++ [mkMessage who text]))) s.
Proof.
  intros Hnone. apply add_message_to_history_falsy. rewrite Hnone. reflexivity.
Qed.

(** The assistant's block is some events of the Gemini adapter followed by
    one [add_message_to_history] of an assistant message. *)
Lemma respond_shape (prompt : str) (s : State E) :
  exists text s_x evs,
    run (App.respond prompt) s
    = run (App.add_message_to_history (lit "assistant") text) s_x
    /\ session s_x = session s
    /\ db s_x = db s
    /\ trace s_x = trace s ++ Call (GenerateResponse prompt) :: evs
    /\ all_events (fun e => negb (is_remote e) && negb (is_history_write e)) evs.
Proof.
  unfold App.respond, Gemini.generate_response.
  match goal with
  | |- context [bind (emit (Call (GenerateResponse prompt))) (fun _ => ?g)] =>
      set (G := g)
  end.
  assert (Hg : maintains (fun x d => x = session s /\ d = db s)
                 (fun e => negb (is_remote e) && negb (is_history_write e)) G)
    by (subst G; maintain).
  rewrite !run_bind, !result_bind.
  set (s_0 := run (emit (Call (GenerateResponse prompt))) s).
  destruct (Hg s_0 (conj eq_refl eq_refl)) as ((Hs1 & Hd1) & e1 & Ht1 & Ho1).
  set (s_g := run G s_0) in *.
  destruct (truthy_opt (snd (result G s_0))).
  - eexists _, (run (st_error _) s_g), (e1 ++ [StError _]).
    split; [ reflexivity | ].
    change (session (run (st_error ?m) ?t)) with (session t).
    change (db (run (st_error ?m) ?t)) with (db t).
    change (trace (run (st_error ?m) ?t)) with (trace t ++ [StError m]).
    split; [ exact Hs1 | ]. split; [ exact Hd1 | ].
    split.
    + rewrite Ht1. subst s_0. rewrite run_emit. cbn [trace].
      rewrite <- !app_assoc. reflexivity.
    + apply all_events_app; [ exact Ho1 | reflexivity ].
  - assert (Hd : maintains (fun x d => x = session s /\ d = db s)
                   (fun e => negb (is_remote e) && negb (is_history_write e))
                   (Gemini.display_streaming_response (fst (result G s_0)))).
    { unfold Gemini.display_streaming_response. maintain.
      apply maintains_consume. reflexivity. }
    destruct (Hd s_g (conj Hs1 Hd1)) as ((Hs2 & Hd2) & e2 & Ht2 & Ho2).
    rewrite run_bind.
    eexists _, _, (e1 ++ e2). split; [ reflexivity | ].
    split; [ exact Hs2 | ]. split; [ exact Hd2 | ]. split.
    + rewrite Ht2, Ht1. subst s_0. rewrite run_emit. cbn [trace].
      rewrite <- !app_assoc. reflexivity.
    + apply all_events_app; assumption.
Qed.
End Steps.

Section TwoPhase.
Context {E : External}.

Lemma all_events_weaken (f g : event -> bool) (l : list event) :
  (forall e, f e = true -> g e = true) -> all_events f l -> all_events g l.
Proof.
  unfold all_events. intros Hfg. induction l as [ | e l IH ]; cbn; [ reflexivity | ].
  intros H. apply andb_prop in H. destruct H as [He Hl].
  rewrite (Hfg e He), (IH Hl). reflexivity.
Qed.

(** The adapter's write: its call first, then no other call of a write. *)
Lemma update_conversation_events id h (s : State E) :
  exists evs,
    trace (run (Supabase.update_conversation id h) s)
    = trace s ++ Call (UpdateConversation id h) :: evs
    /\ all_events (fun e => negb (is_history_write e)) evs
    /\ session (run (Supabase.update_conversation id h) s) = session s.
Proof.
  unfold run, Supabase.update_conversation, Supabase.self_client,
    bind, emit, gets, datetime_now, run_query, st_error, emit, ret; cbn.
  destruct (client (supabase_manager (session s))) as [ c | ]; cbn.
  - destruct (execute (db s) (UpdateHistory id h (clock s))) as [[e | [ | r rs]] d]; cbn;
      eexists; (split; [ rewrite <- ?app_assoc; reflexivity | ]); split; reflexivity.
  - exists []. repeat split.
Qed.

Lemma ensure_conversation_current id (s : State E) :
  current_conversation_id (session s) = Some id ->
  run ensure_conversation s = s.
Proof.
  intros Hid. unfold ensure_conversation.
  rewrite run_bind, result_gets, run_gets, Hid. reflexivity.
Qed.

(** The renaming step writes no history and keeps history and current
    conversation. *)
Lemma name_from_first_message_keeps (prompt : str) (h : list Message) (c : option conv_id) :
  maintains (fun x d => chat_history x = h /\ current_conversation_id x = c)
            (fun e => negb (is_history_write e))
            (name_from_first_message prompt).
Proof.
  unfold name_from_first_message, Supabase.generate_conversation_name,
    Supabase.update_conversation_name, App.load_conversations,
    Supabase.load_conversations, Supabase.self_client.
  maintain.
Qed.
End TwoPhase.

(** X7: with the key configured and a current conversation whose key is
    truthy (not [0], not the empty string), [handle_user_input] adds exactly
    two messages to the history, the user's text and then one assistant
    message, keeps the conversation current, and asks the adapter to write
    the history exactly twice: once with the user's message appended, and
    later once more with both. *)
Theorem handle_user_input_two_writes
    {E : External} (s : State E) (prompt : str) (id : conv_id) :
  api_key_configured (gemini_manager (session s)) = true ->
  current_conversation_id (session s) = Some id ->
  id_truthy id = true ->
  let h := chat_history (session s) in
  let u := mkMessage (lit "user") prompt in
  let s' := run (App.handle_user_input prompt) s in
  exists text e1 e2 e3,
    chat_history (session s') = h ++ [u; mkMessage (lit "assistant") text]
    /\ current_conversation_id (session s') = Some id
    /\ trace s'
       = trace s ++ e1
         ++ Call (UpdateConversation id (h ++ [u])) :: e2
         ++ Call (UpdateConversation id (h ++ [u; mkMessage (lit "assistant") text])) :: e3
    /\ all_events (fun e => negb (is_history_write e)) (e1 ++ e2 ++ e3).
Proof.
  intros Hcfg Hid Htr h u s'. subst s'.
  rewrite (handle_user_input_steps s prompt Hcfg), (ensure_conversation_current s Hid).
  destruct (@name_from_first_message_keeps _ prompt h (Some id) s (conj eq_refl Hid))
    as ((Hh1 & Hc1) & e1 & Ht1 & Ho1).
  set (s_b := run (name_from_first_message prompt) s) in *.
  rewrite (add_message_to_history_truthy (lit "user") prompt s_b Hc1 Htr), Hh1. fold u.
  set (s_m := run (modify (set_chat_history (h ++ [u]))) s_b).
  destruct (update_conversation_events id (h ++ [u]) s_m) as (e2 & Ht2 & Ho2 & Hs2).
  set (s_c := run (Supabase.update_conversation id (h ++ [u])) s_m) in *.
  set (s_d := run (App.display_chat_message (lit "user") prompt) s_c).
  destruct (respond_shape prompt s_d) as (text & s_x & e3 & Hr & Hsx & _ & Htx & Hox).
  assert (Hsd : session s_d = set_chat_history (h ++ [u]) (session s_b)).
  { subst s_d. cbn [run App.display_chat_message emit snd session]. rewrite Hs2. reflexivity. }
  assert (Hcx : current_conversation_id (session s_x) = Some id)
    by (rewrite Hsx, Hsd; exact Hc1).
  assert (Hhx : chat_history (session s_x) = h ++ [u])
    by (rewrite Hsx, Hsd; reflexivity).
  rewrite Hr, (add_message_to_history_truthy (lit "assistant") text s_x Hcx Htr), Hhx.
  set (a := mkMessage (lit "assistant") text).
  replace ((h ++ [u]) ++ [a]) with (h ++ [u; a]) by (rewrite <- app_assoc; reflexivity).
  set (s_n := run (modify (set_chat_history (h ++ [u; a]))) s_x).
  destruct (update_conversation_events id (h ++ [u; a]) s_n) as (e4 & Ht4 & Ho4 & Hs4).
  exists text, e1,
    (e2 ++ StChatMessage (lit "user") prompt :: Call (GenerateResponse prompt) :: e3), e4.
  fold a. split; [ | split; [ | split ] ].
  - rewrite Hs4. reflexivity.
  - rewrite Hs4. subst s_n. cbn. exact Hcx.
  - rewrite Ht4. subst s_n. change (trace (run (modify ?g) ?t)) with (trace t).
    rewrite Htx. subst s_d. cbn [run App.display_chat_message emit snd trace].
    rewrite Ht2. subst s_m. change (trace (run (modify ?g) ?t)) with (trace t).
    rewrite Ht1. repeat (rewrite <- ?app_assoc; cbn [app]). reflexivity.
  - apply all_events_app; [ exact Ho1 | ].
    apply all_events_app; [ | exact Ho4 ].
    apply all_events_app; [ exact Ho2 | ].
    change (all_events (fun e => negb (is_history_write e)) e3).
    eapply all_events_weaken; [ | exact Hox ].
    intros e He. apply andb_prop in He. tauto.
Qed.

Lemma handle_user_input_two_writes_witness :
  let s := run (App.create_new_conversation None)
               (Scripted.start true true [] [inr (stream_of [lit "Hel"; lit "lo"])]) in
  api_key_configured (gemini_manager (session s)) = true
  /\ current_conversation_id (session s) = Some (IntKey 1)
  /\ id_truthy (IntKey 1) = true
  /\ exists text,
      chat_history (session (run (App.handle_user_input (lit "hi")) s))
      = [mkMessage (lit "user") (lit "hi"); mkMessage (lit "assistant") text].
Proof.
  intros s. split; [ reflexivity | ]. split; [ reflexivity | ]. split; [ reflexivity | ].
  destruct (handle_user_input_two_writes s (lit "hi") (id := (IntKey 1))
              eq_refl eq_refl eq_refl)
    as (text & e1 & e2 & e3 & Hh & _).
  exists text. exact Hh.
Defined.

Section Degraded.
Context {E : External}.

(** The invariant of a chat that runs in memory only: no client, no current
    conversation, the table as it was. *)
Let in_memory (d0 : Db) (h : list Message) : Session -> Db -> Prop :=
  fun x d => client (supabase_manager x) = None
             /\ current_conversation_id x = None
             /\ chat_history x = h
             /\ d = d0.

Let local_only : event -> bool :=
  fun e => negb (is_remote e) && negb (is_history_write e).

Lemma in_memory_offline_result {A : Type} (d0 : Db) (h : list Message)
      (c : M A) (v : A) :
  (forall s, offline s -> c s = (v, run c s)) ->
  forall s, in_memory d0 h (session s) (db s) -> result c s = v.
Proof.
  intros Hc s (Hoff & _). unfold result. rewrite (Hc s Hoff). reflexivity.
Qed.

Lemma create_conversation_offline name h (s : State E) :
  offline s ->
  Supabase.create_conversation name h s
  = (None, run (Supabase.create_conversation name h) s).
Proof.
  unfold offline. intros Hc.
  unfold run, Supabase.create_conversation, Supabase.self_client, bind, gets, emit; cbn.
  rewrite Hc. reflexivity.
Qed.

Lemma maintains_offline_create d0 h name hist :
  maintains (in_memory d0 h) local_only (Supabase.create_conversation name hist).
Proof.
  intros s Hs. pose proof Hs as (Hoff & Hcur & Hh & Hd).
  unfold run, Supabase.create_conversation, Supabase.self_client, bind, gets, emit; cbn.
  rewrite Hoff. cbn. split; [ exact Hs | ].
  exists [Call (CreateConversation name)]. split; reflexivity.
Qed.

Lemma maintains_offline_load_all d0 h :
  maintains (in_memory d0 h) local_only Supabase.load_conversations.
Proof.
  intros s Hs. pose proof Hs as (Hoff & Hcur & Hh & Hd).
  unfold run, Supabase.load_conversations, Supabase.self_client, bind, gets, emit; cbn.
  rewrite Hoff. cbn. split; [ exact Hs | ].
  exists [Call LoadConversations]. split; reflexivity.
Qed.

Lemma maintains_offline_rename d0 h id n :
  maintains (in_memory d0 h) local_only (Supabase.update_conversation_name id n).
Proof.
  intros s Hs. pose proof Hs as (Hoff & Hcur & Hh & Hd).
  unfold run, Supabase.update_conversation_name, Supabase.self_client, bind, gets, emit; cbn.
  rewrite Hoff. cbn. split; [ exact Hs | ].
  exists [Call (UpdateConversationName id n)]. split; reflexivity.
Qed.

Lemma maintains_offline_name d0 h m :
  maintains (in_memory d0 h) local_only (Supabase.generate_conversation_name m).
Proof.
  unfold Supabase.generate_conversation_name. maintain.
  apply maintains_offline_load_all.
Qed.

Lemma maintains_offline_app_load_all d0 h :
  maintains (in_memory d0 h) local_only App.load_conversations.
Proof.
  unfold App.load_conversations.
  apply maintains_bind; [ apply maintains_offline_load_all | intros l ].
  apply maintains_modify. intros x d Hx. exact Hx.
Qed.

Lemma maintains_offline_ensure d0 h :
  maintains (in_memory d0 h) local_only ensure_conversation.
Proof.
  unfold ensure_conversation, App.create_new_conversation.
  apply maintains_bind; [ apply maintains_gets | intros cid ].
  destruct (is_none cid); [ | apply maintains_ret ].
  apply maintains_bind; [ apply maintains_offline_name | intros name ].
  apply maintains_bind_value with (v := None).
  - apply in_memory_offline_result. intros s Hs. apply create_conversation_offline, Hs.
  - apply maintains_offline_create.
  - apply maintains_ret.
Qed.

Lemma maintains_offline_rename_step d0 h prompt :
  maintains (in_memory d0 h) local_only (name_from_first_message prompt).
Proof.
  unfold name_from_first_message.
  apply maintains_bind; [ apply maintains_gets | intros flag ].
  destruct (flag && truthy prompt); [ | apply maintains_ret ].
  apply maintains_bind; [ apply maintains_offline_name | intros name ].
  apply maintains_bind; [ apply maintains_gets | intros cid ].
  apply maintains_bind; [ apply maintains_offline_rename | intros _ ].
  apply maintains_bind; [ | intros _; apply maintains_offline_app_load_all ].
  apply maintains_modify. intros x d Hx. exact Hx.
Qed.

(** X8: with the key configured, no Supabase client and no current
    conversation, [handle_user_input] still carries the exchange in memory:
    the history gains the user's message and one assistant message, there is
    still no current conversation, the table is not contacted and no write
    of the history is attempted. *)
Theorem handle_user_input_in_memory (s : State E) (prompt : str) :
  api_key_configured (gemini_manager (session s)) = true ->
  offline s ->
  current_conversation_id (session s) = None ->
  let s' := run (App.handle_user_input prompt) s in
  current_conversation_id (session s') = None
  /\ db s' = db s
  /\ (exists text,
        chat_history (session s')
        = chat_history (session s)
          ++ [mkMessage (lit "user") prompt; mkMessage (lit "assistant") text])
  /\ exists evs,
      trace s' = trace s ++ evs
      /\ all_events (fun e => negb (is_remote e) && negb (is_history_write e)) evs.
Proof.
  intros Hcfg Hoff Hcur s'. subst s'.
  set (h := chat_history (session s)).
  rewrite (handle_user_input_steps s prompt Hcfg).
  assert (H0 : in_memory (db s) h (session s) (db s)) by (repeat split; assumption).
  destruct (@maintains_offline_ensure (db s) h s H0) as (H1 & e1 & Ht1 & Ho1).
  set (s_a := run ensure_conversation s) in *.
  destruct (@maintains_offline_rename_step (db s) h prompt s_a H1) as (H2 & e2 & Ht2 & Ho2).
  set (s_b := run (name_from_first_message prompt) s_a) in *.
  destruct H2 as (Hoff2 & Hcur2 & Hh2 & Hd2).
  rewrite (add_message_to_history_no_current (lit "user") prompt s_b Hcur2), Hh2.
  set (u := mkMessage (lit "user") prompt).
  set (s_c := run (modify (set_chat_history (h ++ [u]))) s_b).
  set (s_d := run (App.display_chat_message (lit "user") prompt) s_c).
  destruct (respond_shape prompt s_d) as (text & s_x & e3 & Hr & Hsx & Hdx & Htx & Hox).
  assert (Hcx : current_conversation_id (session s_x) = None) by (rewrite Hsx; exact Hcur2).
  assert (Hhx : chat_history (session s_x) = h ++ [u]) by (rewrite Hsx; reflexivity).
  rewrite Hr, (add_message_to_history_no_current (lit "assistant") text s_x Hcx), Hhx.
  set (a := mkMessage (lit "assistant") text).
  split; [ exact Hcx | ].
  split; [ cbn; rewrite Hdx; exact Hd2 | ].
  split.
  - exists text. cbn. rewrite <- app_assoc. reflexivity.
  - exists (e1 ++ e2 ++ StChatMessage (lit "user") prompt
               :: Call (GenerateResponse prompt) :: e3).
    split.
    + change (trace (run (modify ?g) ?t)) with (trace t).
      rewrite Htx. subst s_d s_c. cbn [run App.display_chat_message emit snd trace modify].
      rewrite Ht2, Ht1. repeat (rewrite <- ?app_assoc; cbn [app]). reflexivity.
    + apply all_events_app; [ exact Ho1 | ].
      apply all_events_app; [ exact Ho2 | exact Hox ].
Qed.
End Degraded.

Lemma handle_user_input_in_memory_witness :
  let s := Scripted.start false true [] [inr (stream_of [lit "Hel"; lit "lo"])] in
  api_key_configured (gemini_manager (session s)) = true
  /\ offline s
  /\ current_conversation_id (session s) = None
  /\ current_conversation_id (session (run (App.handle_user_input (lit "hi")) s)) = None.
Proof.
  intros s. split; [ reflexivity | ]. split; [ reflexivity | ]. split; [ reflexivity | ].
  apply (@handle_user_input_in_memory _ s (lit "hi")); reflexivity.
Defined.

Section NormalStream.
Context {E : External}.

Lemma display_streaming_response_concat_aux (fragments : list str) (s : State E) :
  result (Gemini.display_streaming_response (Some (stream_of fragments))) s
  = List.concat fragments.
Proof.
  unfold Gemini.display_streaming_response. cbn [Gemini.iter].
  rewrite !result_bind, consume_stream_of. reflexivity.
Qed.

Lemma display_stream_of_trace (fragments : list str) (s : State E) :
  exists evs,
    trace (run (Gemini.display_streaming_response (Some (stream_of fragments))) s)
    = trace s ++ Call DisplayStreamingResponse :: evs
               ++ [StMarkdown (List.concat fragments)]
    /\ all_events (fun e => match e with StError _ => false | _ => true end) evs.
Proof.
  unfold Gemini.display_streaming_response. cbn [Gemini.iter].
  rewrite !run_bind, !consume_stream_of. cbn [fst snd app].
  assert (Hc : maintains (fun _ _ => True)
                 (fun e => match e with StError _ => false | _ => true end)
                 (Gemini.consume (stream_of fragments) []))
    by (apply maintains_consume; reflexivity).
  destruct (Hc (run (emit (Call DisplayStreamingResponse)) s) Logic.I)
    as (_ & evs & Ht & Ho).
  exists evs. split; [ | exact Ho ].
  rewrite !run_bind, run_ret, run_emit. cbn [trace].
  rewrite Ht, run_emit. cbn [trace]. rewrite <- !app_assoc. reflexivity.
Qed.
End NormalStream.

Section Reply.
Context {E : External}.

(** The assistant's block when the stream ends normally. *)
Lemma respond_stream_of (s : State E) (prompt : str) (fragments : list str) (a : Ai) :
  api_key_configured (gemini_manager (session s)) = true ->
  model (gemini_manager (session s)) <> None ->
  generate_content (ai s) prompt = (inr (stream_of fragments), a) ->
  chat_history (session (run (App.respond prompt) s))
  = chat_history (session s) ++ [mkMessage (lit "assistant") (List.concat fragments)]
  /\ exists evs evs',
      trace (run (App.respond prompt) s)
      = trace s ++ evs ++ StMarkdown (List.concat fragments) :: evs'
      /\ all_events (fun e => match e with StError _ => false | _ => true end) evs.
Proof.
  intros Hcfg Hm Hg.
  assert (Hgen : Gemini.generate_response prompt s
                 = ((Some (stream_of fragments), None),
                    mkState (session s) (db s) a (clock s)
                      (trace s ++ [Call (GenerateResponse prompt); Generate prompt]))).
  { unfold Gemini.generate_response, bind, emit, gets, run_generate, ret; cbn.
    rewrite Hcfg. destruct (model (gemini_manager (session s))); [ | congruence ].
    cbn. rewrite Hg. rewrite <- app_assoc. reflexivity. }
  set (s_e := mkState (session s) (db s) a (clock s)
                (trace s ++ [Call (GenerateResponse prompt); Generate prompt])) in *.
  set (s_f := run (Gemini.display_streaming_response (Some (stream_of fragments))) s_e).
  assert (Hrun : run (App.respond prompt) s
                 = run (App.add_message_to_history (lit "assistant")
                          (List.concat fragments)) s_f).
  { unfold App.respond. rewrite run_bind. unfold result, run at 2. rewrite Hgen.
    cbn [fst snd truthy_opt]. rewrite run_bind.
    rewrite display_streaming_response_concat_aux. reflexivity. }
  rewrite Hrun.
  destruct (display_stream_of_trace fragments s_e) as (e2 & Ht2 & Ho2).
  fold s_f in Ht2.
  split.
  - rewrite session_add. cbn [set_chat_history chat_history].
    subst s_f. rewrite (preserves_gm_display (fun x => x)). reflexivity.
  - destruct (extends_add (lit "assistant") (List.concat fragments) s_f) as [e3 H3].
    exists ([Call (GenerateResponse prompt); Generate prompt]
              ++ Call DisplayStreamingResponse :: e2), e3.
    split.
    + rewrite H3, Ht2. subst s_e. cbn [trace].
      repeat (rewrite <- ?app_assoc; cbn [app]). reflexivity.
    + cbn. exact Ho2.
Qed.
End Reply.

(** X9: with the key configured, when the model answers with a stream that
    yields a finite sequence of fragments and stops, [handle_user_input]
    ends with the user's message followed by an assistant message whose
    content is the concatenation of the fragments, and that text was shown
    without the cursor. *)
Theorem handle_user_input_streams_reply
    {E : External} (s : State E) (prompt : str) (fragments : list str) (a : Ai) :
  api_key_configured (gemini_manager (session s)) = true ->
  model (gemini_manager (session s)) <> None ->
  generate_content (ai s) prompt = (inr (stream_of fragments), a) ->
  (exists h,
     chat_history (session (run (App.handle_user_input prompt) s))
     = h ++ [mkMessage (lit "user") prompt;
             mkMessage (lit "assistant") (List.concat fragments)])
  /\ In (StMarkdown (List.concat fragments))
        (trace (run (App.handle_user_input prompt) s)).
Proof.
  intros Hcfg Hm Hg.
  destruct (handle_user_input_configured s prompt Hcfg)
    as (s_d & h & Hrun & Hgm & Hai & Hh & _ & _).
  rewrite Hrun. rewrite <- Hgm in Hcfg, Hm. rewrite <- Hai in Hg.
  destruct (respond_stream_of s_d prompt fragments Hcfg Hm Hg)
    as (Hc & evs & evs' & Ht & _).
  split.
  - exists h. rewrite Hc, Hh, <- app_assoc. reflexivity.
  - rewrite Ht. apply in_or_app. right. apply in_or_app. right. left. reflexivity.
Qed.

Lemma handle_user_input_streams_reply_witness :
  let s := Scripted.start true true [] [inr (stream_of [lit "Hel"; lit "lo"])] in
  api_key_configured (gemini_manager (session s)) = true
  /\ model (gemini_manager (session s)) <> None
  /\ generate_content (ai s) (lit "hi") = (inr (stream_of [lit "Hel"; lit "lo"]), [])
  /\ exists h,
      chat_history (session (run (App.handle_user_input (lit "hi")) s))
      = h ++ [mkMessage (lit "user") (lit "hi");
              mkMessage (lit "assistant") (List.concat [lit "Hel"; lit "lo"])].
Proof.
  intros s.
  assert (Hm : model (gemini_manager (session s)) <> None) by discriminate.
  split; [ reflexivity | ]. split; [ exact Hm | ]. split; [ reflexivity | ].
  destruct (handle_user_input_streams_reply s (lit "hi") [lit "Hel"; lit "lo"]
              eq_refl Hm eq_refl) as [Hh _].
  exact Hh.
Defined.

Section Flag.
Context {E : External}.

Lemma needs_name_update_add who text :
  preserves needs_name_update (App.add_message_to_history who text).
Proof. intros s. rewrite session_add. reflexivity. Qed.

Lemma needs_name_update_load id :
  preserves needs_name_update (App.load_conversation id).
Proof. unfold App.load_conversation. frame. Qed.

Lemma needs_name_update_delete id :
  preserves needs_name_update (App.delete_conversation id).
Proof. unfold App.delete_conversation. frame. Qed.

Lemma delete_conversation_active id (s : State E) :
  result (Supabase.delete_conversation id) s = true ->
  current_conversation_id (session s) = Some id ->
  current_conversation_id (session (run (App.delete_conversation id) s)) = None.
Proof.
  intros Hok Hcur. unfold App.delete_conversation.
  rewrite run_bind, Hok, !run_bind, result_gets, run_gets.
  rewrite (preserves_sb_delete (fun x => x)), Hcur, id_eqb_refl.
  rewrite session_app_load_conversations. reflexivity.
Qed.
End Flag.

(** X11: switching to another conversation, deleting one, clearing the
    history, saving and appending a message never change the name flag.  So
    a flag raised by [create_new_conversation] survives the deletion of that
    very conversation: afterwards the flag is up although no conversation is
    current. *)
Theorem needs_name_update_untouched {E : External} (s : State E) :
  (forall id, needs_name_update (session (run (App.load_conversation id) s))
              = needs_name_update (session s))
  /\ (forall id, needs_name_update (session (run (App.delete_conversation id) s))
                 = needs_name_update (session s))
  /\ needs_name_update (session (run App.clear_chat_history s))
     = needs_name_update (session s)
  /\ needs_name_update (session (run App.save_conversation s))
     = needs_name_update (session s)
  /\ needs_name_update (session (run App.load_conversations s))
     = needs_name_update (session s)
  /\ (forall who text,
        needs_name_update (session (run (App.add_message_to_history who text) s))
        = needs_name_update (session s))
  /\ (forall id,
        needs_name_update (session s) = true ->
        current_conversation_id (session s) = Some id ->
        result (Supabase.delete_conversation id) s = true ->
        needs_name_update (session (run (App.delete_conversation id) s)) = true
        /\ current_conversation_id (session (run (App.delete_conversation id) s)) = None).
Proof.
  split; [ intros id; apply needs_name_update_load | ].
  split; [ intros id; apply needs_name_update_delete | ].
  split; [ reflexivity | ].
  split; [ apply (preserves_save needs_name_update) | ].
  split; [ apply needs_name_update_load_conversations | ].
  split; [ intros who text; apply needs_name_update_add | ].
  intros id Hflag Hcur Hok. split.
  - rewrite needs_name_update_delete. exact Hflag.
  - apply delete_conversation_active; assumption.
Qed.

Lemma needs_name_update_untouched_witness :
  let s := run (App.create_new_conversation None) (Scripted.start true true [] []) in
  needs_name_update (session s) = true
  /\ current_conversation_id (session s) = Some (IntKey 1)
  /\ result (Supabase.delete_conversation (IntKey 1)) s = true
  /\ needs_name_update (session (run (App.delete_conversation (IntKey 1)) s)) = true
  /\ current_conversation_id (session (run (App.delete_conversation (IntKey 1)) s)) = None.
Proof.
  intros s. split; [ reflexivity | ]. split; [ reflexivity | ]. split; [ reflexivity | ].
  apply (needs_name_update_untouched s); reflexivity.
Defined.

Section StoredHistory.

(** On the in-memory table, a history update that goes through leaves
    every row of that key with the history sent. *)
Lemma table_update_history (d : Scripted.TableDb) id h u (r : Row) :
  Scripted.faults d = [] ->
  In r (Scripted.rows (snd (Scripted.table_execute d (UpdateHistory id h u)))) ->
  Scripted.has_id id r = true ->
  row_chat_history r = h.
Proof.
  intros Hf. unfold Scripted.table_execute. rewrite Hf.
  cbn [snd fst Scripted.perform Scripted.rows].
  intros Hin Hid. apply in_map_iff in Hin. destruct Hin as (r0 & <- & _).
  unfold Scripted.touch_history in *.
  destruct (Scripted.has_id id r0) eqn:H0; [ reflexivity | congruence ].
Qed.
End StoredHistory.

(** X18: [clear_chat_history] touches nothing but the history in memory.
    The next message appended while the current conversation has a truthy
    key makes the adapter write a history of that one message; with a client
    the request sent is the update of that conversation to this one-message
    history and the table afterwards is what that request leaves.  On the
    in-memory table every row of that key then stores the one message: the
    stored transcript is replaced, not extended. *)
Theorem clear_then_add_overwrites
    {E : External} (s : State E) (who text : str) (id : conv_id) :
  current_conversation_id (session s) = Some id ->
  id_truthy id = true ->
  let s1 := run App.clear_chat_history s in
  let s2 := run (App.add_message_to_history who text) s1 in
  db s1 = db s
  /\ trace s1 = trace s
  /\ session s1 = set_chat_history [] (session s)
  /\ chat_history (session s2) = [mkMessage who text]
  /\ (exists evs,
        trace s2 = trace s ++ Call (UpdateConversation id [mkMessage who text]) :: evs
        /\ all_events (fun e => negb (is_history_write e)) evs)
  /\ (client (supabase_manager (session s)) <> None ->
      db s2 = snd (execute (db s) (UpdateHistory id [mkMessage who text] (clock s)))
      /\ exists evs,
          trace s2 = trace s ++ Call (UpdateConversation id [mkMessage who text])
                             :: Remote (UpdateHistory id [mkMessage who text] (clock s))
                             :: evs)
  /\ (forall (t : State Scripted.services) (r : Row),
        current_conversation_id (session t) = Some id ->
        client (supabase_manager (session t)) <> None ->
        Scripted.faults (db t) = [] ->
        In r (Scripted.rows
                (db (run (App.add_message_to_history who text)
                       (run App.clear_chat_history t)))) ->
        Scripted.has_id id r = true ->
        row_chat_history r = [mkMessage who text]).
Proof.
  intros Hcur Htr s1 s2.
  assert (Hrun : forall (E' : External) (x : State E'),
             current_conversation_id (session x) = Some id ->
             run (App.add_message_to_history who text) (run App.clear_chat_history x)
             = run (Supabase.update_conversation id [mkMessage who text])
                   (run (modify (set_chat_history [mkMessage who text]))
                      (run App.clear_chat_history x))).
  { intros E' x Hx.
    assert (Hx1 : current_conversation_id (session (run App.clear_chat_history x)) = Some id)
      by exact Hx.
    rewrite (add_message_to_history_truthy who text (run App.clear_chat_history x) Hx1 Htr).
    reflexivity. }
  split; [ reflexivity | ]. split; [ reflexivity | ]. split; [ reflexivity | ].
  subst s2 s1. rewrite (Hrun E s Hcur).
  set (s_m := run (modify (set_chat_history [mkMessage who text]))
                (run App.clear_chat_history s)).
  destruct (update_conversation_events id [mkMessage who text] s_m)
    as (evs & Ht & Ho & Hs).
  split; [ rewrite Hs; reflexivity | ].
  split; [ exists evs; split; [ exact Ht | exact Ho ] | ].
  split.
  - intros Hc.
    destruct (update_conversation_db id [mkMessage who text] s_m) as [_ Hdb].
    destruct (update_conversation_trace id [mkMessage who text] s_m)
      as (evs1 & Ht1 & _ & Hsome).
    split; [ exact (Hdb Hc) | ].
    destruct (Hsome Hc) as (evs' & -> & _). exists evs'. exact Ht1.
  - intros t r Ht0 Hc Hf Hin Hid.
    rewrite (Hrun Scripted.services t Ht0) in Hin.
    destruct (update_conversation_db id [mkMessage who text]
                (run (modify (set_chat_history [mkMessage who text]))
                   (run App.clear_chat_history t))) as [_ Hdb].
    rewrite (Hdb Hc) in Hin.
    exact (table_update_history (db t) id [mkMessage who text] (clock t) r Hf Hin Hid).
Qed.

Lemma clear_then_add_overwrites_witness :
  let s := run (App.handle_user_input (lit "hi"))
             (Scripted.start true true [] [inr (stream_of [lit "Hel"; lit "lo"])]) in
  current_conversation_id (session s) = Some (IntKey 1)
  /\ id_truthy (IntKey 1) = true
  /\ map (fun r => List.length (row_chat_history r)) (Scripted.rows (db s)) = [2]
  /\ chat_history (session (run (App.add_message_to_history (lit "user") (lit "again"))
                              (run App.clear_chat_history s)))
     = [mkMessage (lit "user") (lit "again")]
  /\ map row_chat_history
         (Scripted.rows (db (run (App.add_message_to_history (lit "user") (lit "again"))
                               (run App.clear_chat_history s))))
     = [[mkMessage (lit "user") (lit "again")]].
Proof.
  intros s.
  assert (Hcur : current_conversation_id (session s) = Some (IntKey 1))
    by (vm_compute; reflexivity).
  split; [ exact Hcur | ]. split; [ reflexivity | ].
  split; [ vm_compute; reflexivity | ].
  destruct (clear_then_add_overwrites s (lit "user") (lit "again") (id := IntKey 1)
              Hcur eq_refl) as (_ & _ & _ & Hh & _).
  split; [ exact Hh | ].
  vm_compute. reflexivity.
Defined.

Section ModelCalls.
Context {E : External}.

Let no_generate : event -> bool := fun e => negb (is_generate e).

Lemma supabase_no_generate :
  (forall m, maintains (fun _ _ => True) no_generate (Supabase.generate_conversation_name m))
  /\ (forall n h, maintains (fun _ _ => True) no_generate (Supabase.create_conversation n h))
  /\ maintains (fun _ _ => True) no_generate Supabase.load_conversations
  /\ (forall id h, maintains (fun _ _ => True) no_generate (Supabase.update_conversation id h))
  /\ (forall id n, maintains (fun _ _ => True) no_generate
                     (Supabase.update_conversation_name id n)).
Proof.
  unfold Supabase.generate_conversation_name, Supabase.create_conversation,
    Supabase.load_conversations, Supabase.update_conversation,
    Supabase.update_conversation_name, Supabase.self_client.
  repeat match goal with |- _ /\ _ => split end; intros; maintain.
Qed.

Lemma add_message_no_generate who text :
  maintains (fun _ _ => True) no_generate (App.add_message_to_history who text).
Proof.
  unfold App.add_message_to_history, App.save_conversation.
  maintain. apply supabase_no_generate.
Qed.

Lemma before_respond_no_generate (prompt : str) :
  maintains (fun _ _ => True) no_generate
    (ensure_conversation ;;
     name_from_first_message prompt ;;
     App.add_message_to_history (lit "user") prompt ;;
     App.display_chat_message (lit "user") prompt).
Proof.
  destruct supabase_no_generate as (Hn & Hc & Hl & Hu & Hr).
  unfold ensure_conversation, name_from_first_message, App.create_new_conversation,
    App.load_conversations, App.display_chat_message.
  maintain; auto using add_message_no_generate.
Qed.

(** The assistant's block with a usable manager: the model is called
    first, with the prompt, and not again. *)
Lemma respond_generates_once (prompt : str) (s : State E) :
  api_key_configured (gemini_manager (session s)) = true ->
  model (gemini_manager (session s)) <> None ->
  exists post,
    trace (run (App.respond prompt) s)
    = trace s ++ Call (GenerateResponse prompt) :: Generate prompt :: post
    /\ all_events no_generate post.
Proof.
  intros Hcfg Hm.
  destruct (generate_content (ai s) prompt) as [res a] eqn:Hg.
  assert (Hgen : Gemini.generate_response prompt s
                 = (match res with
                    | inr response => (Some response, None)
                    | inl e => (None, Some (lit "Error generating response: " ++ e))
                    end,
                    mkState (session s) (db s) a (clock s)
                      (trace s ++ [Call (GenerateResponse prompt); Generate prompt]))).
  { unfold Gemini.generate_response, bind, emit, gets, run_generate, ret; cbn.
    rewrite Hcfg. destruct (model (gemini_manager (session s))); [ | congruence ].
    cbn. rewrite Hg. rewrite <- app_assoc. destruct res; reflexivity. }
  set (s_e := mkState (session s) (db s) a (clock s)
                (trace s ++ [Call (GenerateResponse prompt); Generate prompt])) in *.
  unfold App.respond. rewrite run_bind. unfold result, run at 2. rewrite Hgen.
  cbn [fst snd].
  match goal with
  | |- exists post, trace (run ?c s_e) = _ /\ _ =>
      assert (Hc : maintains (fun _ _ => True) no_generate c)
  end.
  { destruct res as [ e | g ]; cbn [fst snd truthy_opt truthy lit list_ascii_of_string map app].
    - maintain. apply add_message_no_generate.
    - unfold Gemini.display_streaming_response. maintain;
        first [ apply maintains_consume; reflexivity | apply add_message_no_generate ]. }
  destruct (Hc s_e Logic.I) as (_ & post & Ht & Ho).
  exists post. split; [ | exact Ho ].
  rewrite Ht. subst s_e. cbn [trace]. rewrite <- app_assoc. reflexivity.
Qed.

(** X13: with the key configured and a model at hand, [handle_user_input]
    calls the model exactly once, and what it sends is the text just
    submitted, nothing of the history. *)
Theorem handle_user_input_calls_model_once (s : State E) (prompt : str) :
  api_key_configured (gemini_manager (session s)) = true ->
  model (gemini_manager (session s)) <> None ->
  exists pre post,
    trace (run (App.handle_user_input prompt) s)
    = trace s ++ pre ++ Generate prompt :: post
    /\ all_events (fun e => negb (is_generate e)) pre
    /\ all_events (fun e => negb (is_generate e)) post.
Proof.
  intros Hcfg Hm.
  assert (Hrun : run (App.handle_user_input prompt) s
                 = run (App.respond prompt)
                     (run (ensure_conversation ;;
                           name_from_first_message prompt ;;
                           App.add_message_to_history (lit "user") prompt ;;
                           App.display_chat_message (lit "user") prompt) s)).
  { rewrite (handle_user_input_steps s prompt Hcfg), !run_bind. reflexivity. }
  rewrite Hrun.
  destruct (before_respond_no_generate prompt s Logic.I) as (_ & pre & Ht & Ho).
  match goal with
  | |- context [run (App.respond prompt) ?t] => set (s_p := t) in *
  end.
  assert (Hgm' : gemini_manager (session s_p) = gemini_manager (session s)).
  { assert (Hp : preserves gemini_manager
                   (ensure_conversation ;;
                    name_from_first_message prompt ;;
                    App.add_message_to_history (lit "user") prompt ;;
                    App.display_chat_message (lit "user") prompt)).
    { unfold ensure_conversation, name_from_first_message, App.display_chat_message.
      frame. intros x. rewrite session_add. reflexivity. }
    apply Hp. }
  rewrite <- Hgm' in Hcfg, Hm.
  destruct (respond_generates_once prompt s_p Hcfg Hm) as (post & Ht2 & Ho2).
  exists (pre ++ [Call (GenerateResponse prompt)]), post.
  split; [ | split ].
  - rewrite Ht2, Ht. repeat (rewrite <- ?app_assoc; cbn [app]). reflexivity.
  - apply all_events_app; [ exact Ho | reflexivity ].
  - exact Ho2.
Qed.
End ModelCalls.

Lemma handle_user_input_calls_model_once_witness :
  let s := Scripted.start true true [] [inr (stream_of [lit "Hel"; lit "lo"])] in
  api_key_configured (gemini_manager (session s)) = true
  /\ model (gemini_manager (session s)) <> None
  /\ exists pre post,
      trace (run (App.handle_user_input (lit "hi")) s)
      = trace s ++ pre ++ Generate (lit "hi") :: post.
Proof.
  intros s.
  assert (Hm : model (gemini_manager (session s)) <> None) by discriminate.
  split; [ reflexivity | ]. split; [ exact Hm | ].
  destruct (@handle_user_input_calls_model_once _ s (lit "hi") eq_refl Hm)
    as (pre & post & Ht & _).
  exists pre, post. exact Ht.
Defined.

Section Manager.
Context {E : External}.

Lemma gemini_manager_add who text :
  preserves gemini_manager (App.add_message_to_history who text).
Proof. intros s. rewrite session_add. reflexivity. Qed.

Lemma gemini_manager_respond prompt : preserves gemini_manager (App.respond prompt).
Proof.
  intros s. destruct (session_respond prompt s) as [text Hs]. rewrite Hs. reflexivity.
Qed.

Lemma gemini_manager_handle prompt :
  preserves gemini_manager (App.handle_user_input prompt).
Proof.
  unfold App.handle_user_input, App.display_chat_message.
  frame; auto using gemini_manager_add, gemini_manager_respond.
Qed.

Lemma update_conversation_name_events id n (s : State E) :
  exists evs,
    trace (run (Supabase.update_conversation_name id n) s)
    = trace s ++ Call (UpdateConversationName id n) :: evs.
Proof.
  unfold Supabase.update_conversation_name. rewrite run_bind.
  match goal with
  | |- exists evs, trace (run ?c ?t) = _ =>
      assert (Hc : extends c) by (unfold Supabase.self_client; frame);
      destruct (Hc t) as [evs Hevs]
  end.
  exists evs. rewrite Hevs, run_emit. cbn [trace]. rewrite <- app_assoc. reflexivity.
Qed.

Lemma extends_respond prompt : extends (App.respond prompt).
Proof.
  unfold App.respond, Gemini.generate_response, Gemini.display_streaming_response.
  frame.
Qed.
End Manager.

(** X12: [configure_api_key] answers [True] exactly when the library
    accepts the key.  Then the manager is configured and holds the
    gemini-2.0-flash model; otherwise it is marked unconfigured, keeps
    whatever model it had, and the message carries the library's error.
    Either way the manager never ends up configured without a model, and
    nothing else changes: the rest of the session, the table, the trace. *)
Theorem configure_api_key_outcomes
    {E : External} (genai_setup : Ai -> str -> option str * Ai)
    (api_key : str) (s : State E) :
  let r := result (Gemini.configure_api_key genai_setup api_key) s in
  let s' := run (Gemini.configure_api_key genai_setup api_key) s in
  (fst (genai_setup (ai s) api_key) = None ->
     r = (true, lit "API Key configured successfully!")
     /\ gemini_manager (session s')
        = mkGeminiManager (Some (Model (lit "gemini-2.0-flash"))) true)
  /\ (forall e,
        fst (genai_setup (ai s) api_key) = Some e ->
        r = (false, lit "Error configuring API key: " ++ e)
        /\ gemini_manager (session s')
           = mkGeminiManager (model (gemini_manager (session s))) false)
  /\ well_configured (gemini_manager (session s'))
  /\ session s' = Gemini.set_gemini_manager (gemini_manager (session s')) (session s)
  /\ db s' = db s
  /\ trace s' = trace s
  /\ ai s' = snd (genai_setup (ai s) api_key).
Proof.
  intros r s'. subst r s'.
  unfold result, run, Gemini.configure_api_key, Gemini.run_setup, bind, modify, ret,
    well_configured.
  destruct (genai_setup (ai s) api_key) as [[ e | ] a]; cbn.
  - split; [ discriminate | ].
    split; [ intros e' He'; injection He' as <-; split; reflexivity | ].
    split; [ discriminate | ]. repeat split.
  - split; [ intros _; split; reflexivity | ].
    split; [ discriminate | ].
    split; [ discriminate | ]. repeat split.
Qed.

Lemma configure_api_key_outcomes_witness :
  let s := Scripted.start true false [] [] in
  fst (Scripted.accept_setup (ai s) (lit "bad")) = Some (lit "API key not valid")
  /\ result (Gemini.configure_api_key Scripted.accept_setup (lit "bad")) s
     = (false, lit "Error configuring API key: API key not valid")
  /\ fst (Scripted.accept_setup (ai s) (lit "k-1")) = None
  /\ api_key_configured
       (gemini_manager
          (session (run (Gemini.configure_api_key Scripted.accept_setup (lit "k-1")) s)))
     = true.
Proof.
  intros s. split; [ reflexivity | ].
  destruct (configure_api_key_outcomes Scripted.accept_setup (lit "bad") s)
    as (_ & Hbad & _).
  destruct (configure_api_key_outcomes Scripted.accept_setup (lit "k-1") s)
    as (Hok & _).
  split; [ exact (proj1 (Hbad _ eq_refl)) | ].
  split; [ reflexivity | ].
  rewrite (proj2 (Hok eq_refl)). reflexivity.
Defined.

(** X14: no function of the controller changes the Gemini manager: once
    configured it stays so through messages, new conversations, switches,
    deletions and clears, and an unconfigured one stays unconfigured. *)
Theorem gemini_manager_untouched {E : External} (s : State E) :
  (forall prompt,
     gemini_manager (session (run (App.handle_user_input prompt) s))
     = gemini_manager (session s))
  /\ (forall m,
        gemini_manager (session (run (App.create_new_conversation m) s))
        = gemini_manager (session s))
  /\ (forall id,
        gemini_manager (session (run (App.load_conversation id) s))
        = gemini_manager (session s))
  /\ (forall id,
        gemini_manager (session (run (App.delete_conversation id) s))
        = gemini_manager (session s))
  /\ gemini_manager (session (run App.clear_chat_history s))
     = gemini_manager (session s)
  /\ gemini_manager (session (run App.load_conversations s))
     = gemini_manager (session s).
Proof.
  split; [ intros prompt; apply gemini_manager_handle | ].
  split; [ intros m; apply gemini_manager_create | ].
  split; [ intros id | ].
  { assert (H : preserves gemini_manager (App.load_conversation id))
      by (unfold App.load_conversation; frame).
    apply H. }
  split; [ intros id | ].
  { assert (H : preserves gemini_manager (App.delete_conversation id))
      by (unfold App.delete_conversation; frame).
    apply H. }
  split; [ reflexivity | apply gemini_manager_load_conversations ].
Qed.

(** X10: the renaming after the first message goes to whichever
    conversation is current when the message arrives.  If the flag is up
    and another conversation is then loaded, the next non-empty message
    names the loaded conversation: the first two events of
    [handle_user_input] are the derivation of the name from the message and
    the adapter's rename of the loaded id with that name. *)
Theorem first_message_renames_loaded_conversation
    {E : External} (s0 : State E) (id : conv_id) (r : Row) (prompt : str) :
  api_key_configured (gemini_manager (session s0)) = true ->
  needs_name_update (session s0) = true ->
  result (Supabase.load_conversation id) s0 = Some r ->
  prompt <> [] ->
  let s := run (App.load_conversation id) s0 in
  needs_name_update (session s) = true
  /\ current_conversation_id (session s) = Some id
  /\ exists evs,
      trace (run (App.handle_user_input prompt) s)
      = trace s ++ Call (GenerateConversationName (Some prompt))
                :: Call (UpdateConversationName (Some id) (derived_name prompt)) :: evs.
Proof.
  intros Hcfg Hflag Hload Hp s.
  assert (Hs : session s
               = set_chat_history (row_chat_history r)
                   (set_current_conversation_id (Some id) (session s0))).
  { subst s. unfold App.load_conversation.
    rewrite run_bind, Hload, run_bind. cbn [run modify snd session].
    fold (run (Supabase.load_conversation id) s0).
    rewrite (preserves_sb_load (fun x => x)). reflexivity. }
  assert (Hflag' : needs_name_update (session s) = true) by (rewrite Hs; exact Hflag).
  assert (Hcur : current_conversation_id (session s) = Some id) by (rewrite Hs; reflexivity).
  assert (Hcfg' : api_key_configured (gemini_manager (session s)) = true)
    by (rewrite Hs; exact Hcfg).
  split; [ exact Hflag' | ]. split; [ exact Hcur | ].
  rewrite (handle_user_input_steps s prompt Hcfg'), (ensure_conversation_current s Hcur).
  destruct prompt as [ | c cs ]; [ congruence | ].
  assert (Hname : exists e1,
             trace (run (name_from_first_message (c :: cs)) s)
             = trace s ++ Call (GenerateConversationName (Some (c :: cs)))
                       :: Call (UpdateConversationName (Some id) (derived_name (c :: cs)))
                       :: e1).
  { unfold name_from_first_message.
    rewrite run_bind, result_gets, run_gets, Hflag'. cbn [andb truthy].
    rewrite run_bind. unfold result at 1, run at 2.
    rewrite generate_conversation_name_given. cbn [fst snd].
    fold (derived_name (c :: cs)).
    rewrite run_bind, result_gets, run_gets.
    change (current_conversation_id (session (run (emit ?e) s)))
      with (current_conversation_id (session s)).
    rewrite Hcur. rewrite run_bind.
    change (if 30 <? len (c :: cs) then slice_to 30 (c :: cs) ++ lit "..." else c :: cs)
      with (derived_name (c :: cs)).
    set (s_1 := run (emit (Call (GenerateConversationName (Some (c :: cs))))) s).
    destruct (update_conversation_name_events (Some id) (derived_name (c :: cs)) s_1)
      as [e2 H2].
    assert (Hk : extends (modify (set_needs_name_update false) ;; App.load_conversations))
      by (unfold App.load_conversations; frame).
    destruct (Hk (run (Supabase.update_conversation_name (Some id)
                         (derived_name (c :: cs))) s_1)) as [e3 H3].
    exists (e2 ++ e3). rewrite H3, H2. subst s_1. rewrite run_emit. cbn [trace].
    repeat (rewrite <- ?app_assoc; cbn [app]). reflexivity. }
  destruct Hname as [e1 H1].
  set (s_b := run (name_from_first_message (c :: cs)) s) in *.
  destruct (extends_add (lit "user") (c :: cs) s_b) as [e2 H2].
  set (s_c := run (App.add_message_to_history (lit "user") (c :: cs)) s_b) in *.
  destruct (extends_respond (c :: cs)
              (run (App.display_chat_message (lit "user") (c :: cs)) s_c))
    as [e3 H3].
  exists (e1 ++ e2 ++ StChatMessage (lit "user") (c :: cs) :: e3).
  rewrite H3. cbn [run App.display_chat_message emit snd trace]. rewrite H2, H1.
  repeat (rewrite <- ?app_assoc; cbn [app]). reflexivity.
Qed.

Lemma first_message_renames_loaded_conversation_witness :
  let s1 := run (App.create_new_conversation None)
              (Scripted.start true true [] [inr (stream_of [lit "ok"])]) in
  let s0 := run (App.create_new_conversation None) s1 in
  api_key_configured (gemini_manager (session s0)) = true
  /\ needs_name_update (session s0) = true
  /\ current_conversation_id (session s0) = Some (IntKey 2)
  /\ result (Supabase.load_conversation (IntKey 1)) s0
     = Some (mkRow (IntKey 1) (lit "New Chat 1") [] 0 None)
  /\ lit "hi" <> []
  /\ current_conversation_id (session (run (App.load_conversation (IntKey 1)) s0))
     = Some (IntKey 1).
Proof.
  intros s1 s0.
  assert (Hcfg : api_key_configured (gemini_manager (session s0)) = true)
    by (vm_compute; reflexivity).
  assert (Hflag : needs_name_update (session s0) = true) by (vm_compute; reflexivity).
  assert (Hr : result (Supabase.load_conversation (IntKey 1)) s0
               = Some (mkRow (IntKey 1) (lit "New Chat 1") [] 0 None))
    by (vm_compute; reflexivity).
  assert (Hp : lit "hi" <> []) by discriminate.
  split; [ exact Hcfg | ]. split; [ exact Hflag | ].
  split; [ vm_compute; reflexivity | ]. split; [ exact Hr | ]. split; [ exact Hp | ].
  destruct (@first_message_renames_loaded_conversation _ s0 (IntKey 1) _ (lit "hi")
              Hcfg Hflag Hr Hp) as (_ & Hc & _).
  exact Hc.
Defined.

(** * The pages *)

Section Pages.
Context {E : External}.
Variable genai_setup : Ai -> str -> option str * Ai.

Lemma display_history_run (h : list Message) (s : State E) :
  App.display_history h s
  = (tt, mkState (session s) (db s) (ai s) (clock s)
           (trace s ++ map (fun m => StChatMessage (role m) (content m)) h)).
Proof.
  revert s. induction h as [ | m h IH ]; intros s; cbn [App.display_history map].
  - unfold ret. rewrite app_nil_r. destruct s; reflexivity.
  - unfold bind, App.display_chat_message, emit. rewrite IH. cbn.
    rewrite <- app_assoc. reflexivity.
Qed.

Lemma sidebar_rows_result (w : App.Widgets) (convs : list Row) (s : State E) :
  result (App.sidebar_rows w convs) s = existsb (clicked w) convs.
Proof.
  induction convs as [ | conv rest IH ]; cbn [App.sidebar_rows existsb]; [ reflexivity | ].
  unfold clicked at 1.
  destruct (App.conv_button w (row_id conv)); cbn [orb].
  - rewrite result_bind. reflexivity.
  - destruct (App.del_button w (row_id conv)); cbn [orb].
    + rewrite result_bind. reflexivity.
    + exact IH.
Qed.

Lemma sidebar_rows_idle (w : App.Widgets) (convs : list Row) (s : State E) :
  existsb (clicked w) convs = false -> run (App.sidebar_rows w convs) s = s.
Proof.
  induction convs as [ | conv rest IH ]; cbn [App.sidebar_rows existsb]; [ reflexivity | ].
  unfold clicked at 1. intros H. apply orb_false_elim in H. destruct H as [H1 H2].
  apply orb_false_elim in H1. destruct H1 as [Hc Hd]. rewrite Hc, Hd. apply IH, H2.
Qed.

Lemma render_chat_interface_continue (w : App.Widgets) (s : State E) :
  App.clear_chat w = false
  \/ api_key_configured (gemini_manager (session s)) = false
  \/ chat_history (session s) = [] ->
  result (App.render_chat_interface w) s = false
  /\ run (App.render_chat_interface w) s
     = run (if truthy_opt (App.chat_input w)
            then App.handle_user_input
                   (match App.chat_input w with Some p => p | None => [] end)
            else ret tt)
           (run (App.display_history (chat_history (session s))) s).
Proof.
  intros H. unfold App.render_chat_interface.
  rewrite !result_bind, !run_bind, !result_gets, !run_gets.
  match goal with
  | |- context [result ?c s] =>
      match c with
      | (if _ then _ else _) => set (R := c)
      end
  end.
  assert (HR : R s = (false, s)).
  { subst R. destruct H as [ H | [ H | H ] ]; rewrite H.
    - destruct (api_key_configured (gemini_manager (session s))
                && negb (List.length (chat_history (session s)) =? 0)); reflexivity.
    - reflexivity.
    - cbn. rewrite andb_false_r. reflexivity. }
  assert (Hres : result R s = false) by (unfold result; rewrite HR; reflexivity).
  assert (Hrun : run R s = s) by (unfold run; rewrite HR; reflexivity).
  rewrite Hres, Hrun.
  rewrite !result_bind, !run_bind, !result_gets, !run_gets.
  split; reflexivity.
Qed.
End Pages.

(** X15: a run of the chat page in which nothing is submitted (no input, or
    the empty text) and the Clear button is not used only redisplays the
    history, message by message and in order: the session, the table and the
    model are left alone and no adapter is called. *)
Theorem render_chat_interface_redisplays
    {E : External} (w : App.Widgets) (s : State E) :
  truthy_opt (App.chat_input w) = false ->
  App.clear_chat w = false
  \/ api_key_configured (gemini_manager (session s)) = false
  \/ chat_history (session s) = [] ->
  App.render_chat_interface w s
  = (false,
     mkState (session s) (db s) (ai s) (clock s)
       (trace s ++ map (fun m => StChatMessage (role m) (content m))
                       (chat_history (session s)))).
Proof.
  intros Hin Hclear.
  destruct (render_chat_interface_continue w s Hclear) as [Hres Hrun].
  rewrite Hin in Hrun. rewrite run_ret in Hrun.
  unfold run in Hrun at 2. rewrite display_history_run in Hrun. cbn [snd] in Hrun.
  unfold result in Hres. unfold run in Hrun.
  destruct (App.render_chat_interface w s) as [b s1]. cbn [fst snd] in *.
  rewrite Hres, Hrun. reflexivity.
Qed.

Lemma render_chat_interface_redisplays_witness :
  let s := run (App.handle_user_input (lit "hi"))
             (Scripted.start true true [] [inr (stream_of [lit "Hel"; lit "lo"])]) in
  truthy_opt (App.chat_input Scripted.idle) = false
  /\ App.clear_chat Scripted.idle = false
  /\ trace (run (App.render_chat_interface Scripted.idle) s)
     = trace s ++ [StChatMessage (lit "user") (lit "hi");
                   StChatMessage (lit "assistant") (lit "Hello")].
Proof.
  intros s. split; [ reflexivity | ]. split; [ reflexivity | ].
  unfold run at 1.
  rewrite (render_chat_interface_redisplays Scripted.idle s eq_refl (or_introl eq_refl)).
  vm_compute. reflexivity.
Defined.

(** X16: when the Clear button is shown (key configured, history not empty)
    and clicked, the run empties the history in memory and ends there: the
    current conversation, the stored record and the trace are untouched, and
    a text submitted in the same run is not handled. *)
Theorem render_chat_interface_clear
    {E : External} (w : App.Widgets) (s : State E) :
  api_key_configured (gemini_manager (session s)) = true ->
  chat_history (session s) <> [] ->
  App.clear_chat w = true ->
  App.render_chat_interface w s
  = (true, mkState (set_chat_history [] (session s)) (db s) (ai s) (clock s) (trace s)).
Proof.
  intros Hcfg Hh Hclick. unfold App.render_chat_interface, App.clear_chat_history.
  unfold bind, gets, modify, ret. cbn. rewrite Hcfg, Hclick.
  destruct (chat_history (session s)); [ congruence | reflexivity ].
Qed.

Lemma render_chat_interface_clear_witness :
  let s := run (App.handle_user_input (lit "hi"))
             (Scripted.start true true [] [inr (stream_of [lit "Hel"; lit "lo"])]) in
  let w := App.mkWidgets false (fun _ => false) (fun _ => false) [] true
             (Some (lit "more")) in
  api_key_configured (gemini_manager (session s)) = true
  /\ chat_history (session s) <> []
  /\ App.clear_chat w = true
  /\ chat_history (session (run (App.render_chat_interface w) s)) = [].
Proof.
  intros s w.
  assert (Hcfg : api_key_configured (gemini_manager (session s)) = true)
    by (vm_compute; reflexivity).
  assert (Hh : chat_history (session s) <> []) by (vm_compute; discriminate).
  split; [ exact Hcfg | ]. split; [ exact Hh | ]. split; [ reflexivity | ].
  unfold run at 1.
  rewrite (render_chat_interface_clear w s Hcfg Hh eq_refl). reflexivity.
Defined.

(** X17: a text submitted through the chat page is never empty when it
    reaches [handle_user_input], so with the key configured every submission
    leaves the name flag down and adds the user's message and one assistant
    message after whatever the history holds by then. *)
Theorem render_chat_interface_submission
    {E : External} (w : App.Widgets) (s : State E) (prompt : str) :
  api_key_configured (gemini_manager (session s)) = true ->
  App.chat_input w = Some prompt ->
  prompt <> [] ->
  App.clear_chat w = false \/ chat_history (session s) = [] ->
  let s' := run (App.render_chat_interface w) s in
  result (App.render_chat_interface w) s = false
  /\ needs_name_update (session s') = false
  /\ exists h text,
      chat_history (session s')
      = h ++ [mkMessage (lit "user") prompt; mkMessage (lit "assistant") text].
Proof.
  intros Hcfg Hin Hp Hclear s'. subst s'.
  assert (Hc : App.clear_chat w = false
               \/ api_key_configured (gemini_manager (session s)) = false
               \/ chat_history (session s) = []) by tauto.
  destruct (render_chat_interface_continue w s Hc) as [Hres Hrun].
  split; [ exact Hres | ].
  rewrite Hrun, Hin. cbn [truthy_opt].
  destruct prompt as [ | c cs ]; [ congruence | ]. cbn [truthy].
  set (s_h := run (App.display_history (chat_history (session s))) s).
  assert (Hs : session s_h = session s).
  { subst s_h. unfold run. rewrite display_history_run. reflexivity. }
  assert (Hcfg' : api_key_configured (gemini_manager (session s_h)) = true)
    by (rewrite Hs; exact Hcfg).
  destruct (handle_user_input_configured s_h (c :: cs) Hcfg')
    as (s_d & h & Hr & _ & _ & Hh & Hflag & _).
  rewrite Hr. destruct (session_respond (c :: cs) s_d) as [text Ht]. rewrite Ht.
  cbn [set_chat_history needs_name_update chat_history].
  split; [ apply Hflag; discriminate | ].
  exists h, text. rewrite Hh, <- app_assoc. reflexivity.
Qed.

Lemma render_chat_interface_submission_witness :
  let s := run (App.create_new_conversation None)
             (Scripted.start true true [] [inr (stream_of [lit "Hel"; lit "lo"])]) in
  let w := App.mkWidgets false (fun _ => false) (fun _ => false) [] false
             (Some (lit "hi")) in
  api_key_configured (gemini_manager (session s)) = true
  /\ needs_name_update (session s) = true
  /\ needs_name_update (session (run (App.render_chat_interface w) s)) = false.
Proof.
  intros s w.
  assert (Hcfg : api_key_configured (gemini_manager (session s)) = true)
    by (vm_compute; reflexivity).
  assert (Hp : lit "hi" <> []) by discriminate.
  split; [ exact Hcfg | ]. split; [ vm_compute; reflexivity | ].
  destruct (@render_chat_interface_submission _ w s (lit "hi") Hcfg eq_refl Hp
              (or_introl eq_refl)) as (_ & Hflag & _).
  exact Hflag.
Defined.

Section Sidebar.
Context {E : External}.
Variable genai_setup : Ai -> str -> option str * Ai.

Lemma render_sidebar_result (w : App.Widgets) (s : State E) :
  result (App.render_sidebar genai_setup w) s
  = App.new_conversation w || existsb (clicked w) (conversations (session s)).
Proof.
  unfold App.render_sidebar.
  destruct (App.new_conversation w); cbn [orb].
  - rewrite result_bind. reflexivity.
  - rewrite !result_bind, result_gets, run_gets, sidebar_rows_result.
    destruct (existsb (clicked w) (conversations (session s))); [ reflexivity | ].
    rewrite !result_bind. reflexivity.
Qed.

Lemma render_sidebar_idle (w : App.Widgets) (s : State E) :
  App.new_conversation w = false ->
  existsb (clicked w) (conversations (session s)) = false ->
  api_key_configured (gemini_manager (session s)) = true
  \/ App.api_key_input w = [] ->
  run (App.render_sidebar genai_setup w) s = s.
Proof.
  intros Hnew Hrows Hkey. unfold App.render_sidebar. rewrite Hnew.
  rewrite !run_bind, result_gets, run_gets.
  rewrite sidebar_rows_result, Hrows, (sidebar_rows_idle w _ s Hrows).
  rewrite !run_bind, result_gets, run_gets, run_ret.
  destruct Hkey as [ Hcfg | Hempty ].
  - rewrite Hcfg. reflexivity.
  - rewrite Hempty. cbn [truthy].
    destruct (negb (api_key_configured (gemini_manager (session s)))); reflexivity.
Qed.

Lemma sidebar_rows_trace (w : App.Widgets) (convs : list Row) :
  extends (App.sidebar_rows w convs).
Proof.
  induction convs as [ | conv rest IH ]; cbn [App.sidebar_rows]; [ frame | ].
  destruct (App.conv_button w (row_id conv)).
  - unfold App.load_conversation, Supabase.load_conversation, Supabase.self_client. frame.
  - destruct (App.del_button w (row_id conv)); [ | exact IH ].
    unfold App.delete_conversation, Supabase.delete_conversation, Supabase.self_client.
    frame.
Qed.

Lemma render_sidebar_trace (w : App.Widgets) : extends (App.render_sidebar genai_setup w).
Proof.
  unfold App.render_sidebar, Gemini.configure_api_key.
  assert (Hs : extends (Gemini.run_setup genai_setup (App.api_key_input w))).
  { intros s. exists []. unfold run, Gemini.run_setup.
    destruct (genai_setup (ai s) (App.api_key_input w)). cbn. symmetry; apply app_nil_r. }
  frame; auto using sidebar_rows_trace.
Qed.

Lemma render_chat_interface_trace (w : App.Widgets) : extends (App.render_chat_interface w).
Proof.
  unfold App.render_chat_interface, App.clear_chat_history.
  assert (Hd : forall h, extends (App.display_history h)).
  { intros h s. exists (map (fun m => StChatMessage (role m) (content m)) h).
    unfold run. rewrite display_history_run. reflexivity. }
  assert (Hh : forall p, extends (App.handle_user_input p)).
  { intros p. unfold App.handle_user_input, App.display_chat_message. frame;
      auto using extends_respond. }
  frame; auto.
Qed.
End Sidebar.

(** X20: the sidebar ends the run with a rerun exactly when the New
    Conversation button was clicked or one of the two buttons of a listed
    conversation was.  When none was and the key is already configured, or
    the key field is empty, the sidebar does nothing at all: the key field
    is only read while the manager is unconfigured. *)
Theorem render_sidebar_reruns
    {E : External} (genai_setup : Ai -> str -> option str * Ai)
    (w : App.Widgets) (s : State E) :
  result (App.render_sidebar genai_setup w) s
  = App.new_conversation w || existsb (clicked w) (conversations (session s))
  /\ (App.new_conversation w = false ->
      existsb (clicked w) (conversations (session s)) = false ->
      api_key_configured (gemini_manager (session s)) = true
      \/ App.api_key_input w = [] ->
      run (App.render_sidebar genai_setup w) s = s)
  /\ (App.new_conversation w = true ->
      run (App.render_sidebar genai_setup w) s
      = run (App.create_new_conversation None) s).
Proof.
  split; [ apply render_sidebar_result | ]. split.
  - apply render_sidebar_idle.
  - intros Hnew. unfold App.render_sidebar. rewrite Hnew, run_bind. reflexivity.
Qed.

Lemma render_sidebar_reruns_witness :
  let s := run (App.load_conversations (E := Scripted.services))
             (run (App.create_new_conversation None) (Scripted.start true true [] [])) in
  let w := App.mkWidgets false (fun _ => false) (fun id => id_eqb id (IntKey 1)) [] false None in
  App.new_conversation Scripted.idle = false
  /\ existsb (clicked Scripted.idle) (conversations (session s)) = false
  /\ api_key_configured (gemini_manager (session s)) = true
  /\ run (App.render_sidebar Scripted.accept_setup Scripted.idle) s = s
  /\ result (App.render_sidebar Scripted.accept_setup w) s = true.
Proof.
  intros s w.
  assert (Hrows : existsb (clicked Scripted.idle) (conversations (session s)) = false)
    by (vm_compute; reflexivity).
  assert (Hcfg : api_key_configured (gemini_manager (session s)) = true)
    by (vm_compute; reflexivity).
  split; [ reflexivity | ]. split; [ exact Hrows | ]. split; [ exact Hcfg | ].
  destruct (render_sidebar_reruns Scripted.accept_setup
              Scripted.idle s) as (_ & Hidle & _).
  destruct (render_sidebar_reruns Scripted.accept_setup w s)
    as (Hres & _).
  split; [ exact (Hidle eq_refl Hrows (or_introl Hcfg)) | ].
  rewrite Hres. vm_compute. reflexivity.
Defined.

(** X21: every run of [main] starts by asking the adapter for the list of
    conversations, whatever the widgets hold; so a list that a failed
    deletion left stale is reloaded by the rerun that follows the click.  A
    run in which no widget is used reloads the list, redisplays the history
    and changes nothing else. *)
Theorem main_reloads_conversations
    {E : External} (genai_setup : Ai -> str -> option str * Ai)
    (w : App.Widgets) (s : State E) :
  (exists evs,
     trace (run (App.main genai_setup w) s) = trace s ++ Call LoadConversations :: evs)
  /\ (forall id,
        App.conv_button w id = true \/ App.del_button w id = true ->
        In id (map row_id (conversations (session (run App.load_conversations s)))) ->
        result (App.main genai_setup w) s = true)
  /\ (App.new_conversation w = false ->
      (forall id, App.conv_button w id = false /\ App.del_button w id = false) ->
      App.api_key_input w = [] ->
      App.clear_chat w = false ->
      truthy_opt (App.chat_input w) = false ->
      session (run (App.main genai_setup w) s)
      = set_conversations (result Supabase.load_conversations s) (session s)).
Proof.
  split; [ | split ].
  - unfold App.main. rewrite run_bind.
    destruct (app_load_conversations_trace s) as [e1 H1].
    match goal with
    | |- exists evs, trace (run ?k ?t) = _ =>
        assert (Hk : extends k)
    end.
    { apply extends_bind; [ apply render_sidebar_trace | intros b ].
      destruct b; [ apply extends_ret | apply render_chat_interface_trace ]. }
    destruct (Hk (run App.load_conversations s)) as [e2 H2].
    exists (e1 ++ e2). rewrite H2, H1. rewrite <- app_assoc. reflexivity.
  - intros id Hclick Hin. unfold App.main.
    rewrite !result_bind, ?run_bind.
    set (s1 := run App.load_conversations s) in *.
    rewrite render_sidebar_result.
    assert (Hrows : existsb (clicked w) (conversations (session s1)) = true).
    { apply existsb_exists. apply in_map_iff in Hin. destruct Hin as (c & Hc & Hcin).
      exists c. split; [ exact Hcin | ]. unfold clicked. rewrite Hc.
      destruct Hclick as [ -> | -> ]; [ reflexivity | apply orb_true_r ]. }
    rewrite Hrows, orb_true_r. reflexivity.
  - intros Hnew Hnone Hkey Hclear Hin. unfold App.main.
    rewrite !run_bind.
    set (s1 := run App.load_conversations s).
    assert (Hrows : existsb (clicked w) (conversations (session s1)) = false).
    { induction (conversations (session s1)) as [ | c l IH ]; [ reflexivity | ].
      cbn [existsb]. unfold clicked at 1.
      destruct (Hnone (row_id c)) as [-> ->]. exact IH. }
    rewrite render_sidebar_result, Hnew, Hrows. cbn [orb].
    rewrite (render_sidebar_idle genai_setup w s1 Hnew Hrows (or_intror Hkey)).
    assert (Hc : run (App.render_chat_interface w) s1
                 = run (App.display_history (chat_history (session s1))) s1).
    { destruct (render_chat_interface_continue w s1 (or_introl Hclear)) as [_ Hrun].
      rewrite Hrun, Hin. reflexivity. }
    rewrite Hc. unfold run at 1. rewrite display_history_run. cbn [snd session].
    subst s1. apply session_app_load_conversations.
Qed.

Lemma main_reloads_conversations_witness :
  let s := run (App.create_new_conversation None)
             (Scripted.start true true [None; None; None; None; Some (lit "down")] []) in
  let w := App.mkWidgets false (fun _ => false) (fun id => id_eqb id (IntKey 1)) [] false None in
  App.del_button w (IntKey 1) = true
  /\ In (IntKey 1) (map row_id (conversations (session (run App.load_conversations s))))
  /\ result (App.main Scripted.accept_setup w) s = true
  /\ current_conversation_id (session (run (App.main Scripted.accept_setup w) s))
     = Some (IntKey 1).
Proof.
  intros s w.
  assert (Hin : In (IntKey 1)
                  (map row_id (conversations (session (run App.load_conversations s)))))
    by (vm_compute; left; reflexivity).
  split; [ reflexivity | ]. split; [ exact Hin | ].
  destruct (main_reloads_conversations Scripted.accept_setup w s) as (_ & Hrerun & _).
  split; [ exact (Hrerun (IntKey 1) (or_intror eq_refl) Hin) | ].
  vm_compute. reflexivity.
Defined.

(** X19: [initialize_session_state] leaves each of the six keys that is
    present as it is and gives each missing key its default (an empty
    history, a fresh Gemini manager, no current conversation, the Supabase
    manager built for the occasion, an empty list, the name flag down).  So
    afterwards the session is complete, a second call changes nothing and
    reports nothing, and the Supabase manager's notices are reported exactly
    when its key was missing. *)
Theorem initialize_session_state_defaults
    (built built' : SupabaseManager * list Supabase.notice) (d : App.SessionDict) :
  let d1 := fst (App.initialize_session_state built d) in
  App.complete d1 <> None
  /\ App.initialize_session_state built' d1 = (d1, [])
  /\ (forall x, App.complete d = Some x ->
                App.initialize_session_state built d = (d, []))
  /\ (forall h, App.key_chat_history d = Some h -> App.key_chat_history d1 = Some h)
  /\ (forall g, App.key_gemini_manager d = Some g -> App.key_gemini_manager d1 = Some g)
  /\ (forall c, App.key_current_conversation_id d = Some c ->
                App.key_current_conversation_id d1 = Some c)
  /\ (forall m, App.key_supabase_manager d = Some m ->
                App.key_supabase_manager d1 = Some m
                /\ snd (App.initialize_session_state built d) = [])
  /\ (forall l, App.key_conversations d = Some l -> App.key_conversations d1 = Some l)
  /\ (forall b, App.key_needs_name_update d = Some b ->
                App.key_needs_name_update d1 = Some b)
  /\ (App.key_chat_history d = None -> App.key_chat_history d1 = Some [])
  /\ (App.key_gemini_manager d = None -> App.key_gemini_manager d1 = Some Gemini.init)
  /\ (App.key_current_conversation_id d = None ->
      App.key_current_conversation_id d1 = Some None)
  /\ (App.key_supabase_manager d = None ->
      App.key_supabase_manager d1 = Some (fst built)
      /\ snd (App.initialize_session_state built d) = snd built)
  /\ (App.key_conversations d = None -> App.key_conversations d1 = Some [])
  /\ (App.key_needs_name_update d = None -> App.key_needs_name_update d1 = Some false)
  /\ App.complete (fst (App.initialize_session_state built App.empty_dict))
     = Some (mkSession [] Gemini.init None (fst built) [] false)
  /\ snd (App.initialize_session_state built App.empty_dict) = snd built.
Proof.
  intros d1. subst d1. destruct d as [h g c m l b].
  unfold App.initialize_session_state, App.complete, App.or_default; cbn.
  split.
  { destruct h, g, c, m, l, b; discriminate. }
  split.
  { destruct h, g, c, m, l, b; reflexivity. }
  split.
  { intros x Hx. destruct h, g, c, m, l, b; try discriminate. reflexivity. }
  split; [ intros h' ->; reflexivity | ].
  split; [ intros g' ->; reflexivity | ].
  split; [ intros c' ->; reflexivity | ].
  split; [ intros m' ->; split; reflexivity | ].
  split; [ intros l' ->; reflexivity | ].
  split; [ intros b' ->; reflexivity | ].
  split; [ intros ->; reflexivity | ].
  split; [ intros ->; reflexivity | ].
  split; [ intros ->; reflexivity | ].
  split; [ intros ->; split; reflexivity | ].
  split; [ intros ->; reflexivity | ].
  split; [ intros ->; reflexivity | ].
  split; reflexivity.
Qed.

Lemma initialize_session_state_defaults_witness :
  let built := Supabase.initialize_client None None (fun _ _ => inr SupabaseClient) in
  let d := App.mkSessionDict None None None None None (Some true) in
  App.key_needs_name_update d = Some true
  /\ App.key_chat_history d = None
  /\ App.key_needs_name_update (fst (App.initialize_session_state built d)) = Some true
  /\ App.key_chat_history (fst (App.initialize_session_state built d)) = Some [].
Proof.
  intros built d. split; [ reflexivity | ]. split; [ reflexivity | ].
  destruct (initialize_session_state_defaults built built d)
    as (_ & _ & _ & _ & _ & _ & _ & _ & Hb & Hh & _).
  split; [ exact (Hb _ eq_refl) | exact (Hh eq_refl) ].
Defined.

Section LazyCreation.
Context {E : External}.

(** The session after a creation that succeeded. *)
Lemma create_new_conversation_success (m : option str) (r : Row) (s : State E) :
  result (Supabase.create_conversation
            (result (Supabase.generate_conversation_name None) s) None)
         (run (Supabase.generate_conversation_name None) s) = Some r ->
  exists l,
    session (run (App.create_new_conversation m) s)
    = mkSession [] (gemini_manager (session s)) (Some (row_id r))
                (supabase_manager (session s)) l true.
Proof.
  intros Hr. unfold App.create_new_conversation.
  rewrite run_bind, run_bind, Hr, !run_bind, session_app_load_conversations.
  rewrite !session_modify.
  rewrite (preserves_sb_create (fun x => x)), (preserves_sb_name (fun x => x)).
  eexists. reflexivity.
Qed.

(** The user's message and the assistant's reply, from a state with a
    current conversation. *)
Lemma exchange_with_current (prompt : str) (id : conv_id) (s : State E) :
  current_conversation_id (session s) = Some id ->
  exists text,
    session (run (App.respond prompt)
               (run (App.display_chat_message (lit "user") prompt)
                  (run (App.add_message_to_history (lit "user") prompt) s)))
    = set_chat_history
        (chat_history (session s)
         ++ [mkMessage (lit "user") prompt; mkMessage (lit "assistant") text])
        (session s).
Proof.
  intros Hid.
  match goal with
  | |- exists text, session (run _ ?t) = _ => destruct (session_respond prompt t) as [text Ht]
  end.
  exists text. rewrite Ht.
  cbn [run App.display_chat_message emit snd session].
  fold (run (App.add_message_to_history (lit "user") prompt) s).
  rewrite session_add. cbn [set_chat_history chat_history gemini_manager
    current_conversation_id supabase_manager conversations needs_name_update].
  rewrite <- app_assoc. reflexivity.
Qed.
End LazyCreation.

Section Carried.
Context {E : External}.

Lemma all_events_Forall (ok : event -> bool) (P : event -> Prop) (l : list event) :
  (forall e, ok e = true -> P e) -> all_events ok l -> Forall P l.
Proof.
  unfold all_events. intros HP. induction l as [ | e l IH ]; cbn; [ constructor | ].
  intros H. apply andb_prop in H. destruct H as [He Hl].
  constructor; [ apply HP, He | apply IH, Hl ].
Qed.

(** Whatever [add_message_to_history] hands over or sends is the history
    with the new message at its end. *)
Lemma add_message_to_history_carries who text (s : State E) :
  exists evs,
    trace (run (App.add_message_to_history who text) s) = trace s ++ evs
    /\ Forall (fun e => forall h, carried_history e = Some h ->
                         h = chat_history (session s) ++ [mkMessage who text]) evs.
Proof.
  set (h := chat_history (session s) ++ [mkMessage who text]).
  destruct (truthy_id (current_conversation_id (session s))) eqn:Htr.
  - destruct (current_conversation_id (session s)) as [ id | ] eqn:Hid;
      [ | discriminate ].
    cbn [truthy_id] in Htr.
    rewrite (add_message_to_history_truthy who text s Hid Htr). fold h.
    set (s_m := run (modify (set_chat_history h)) s).
    destruct (update_conversation_trace id h s_m) as (evs & Ht & Hnone & Hsome).
    exists (Call (UpdateConversation id h) :: evs). split; [ exact Ht | ].
    constructor; [ intros h' Hh'; cbn in Hh'; congruence | ].
    destruct (client (supabase_manager (session s_m))) as [ c | ] eqn:Hc.
    + destruct Hsome as (evs' & -> & Herr); [ discriminate | ].
      constructor; [ intros h' Hh'; cbn in Hh'; congruence | ].
      apply Forall_forall. intros e He h' Hh'.
      destruct (Herr e He) as [m ->]. discriminate.
    + rewrite (Hnone eq_refl). constructor.
  - rewrite (add_message_to_history_falsy who text s Htr).
    exists []. split; [ symmetry; apply app_nil_r | constructor ].
Qed.

(** Creating a conversation and renaming it hand over and send no message. *)
Lemma before_exchange_carries_no_message (prompt : str) :
  maintains (fun _ _ => True) carries_no_message
    (App.create_new_conversation None ;; name_from_first_message prompt).
Proof.
  unfold App.create_new_conversation, name_from_first_message,
    Supabase.generate_conversation_name, Supabase.create_conversation,
    Supabase.update_conversation_name, App.load_conversations,
    Supabase.load_conversations, Supabase.self_client.
  maintain.
Qed.
End Carried.

(** X22: when a non-empty message arrives while no conversation is current
    and the creation succeeds, the conversation just created becomes current
    and is named after the message, and the history afterwards is exactly
    the user's message and the assistant's reply.  Whatever the history held
    in memory before is dropped without having been saved: every history
    that this run hands to the adapter or sends to the table is empty, or
    the user's message alone, or the two new messages. *)
Theorem handle_user_input_creates_conversation
    {E : External} (s : State E) (prompt : str) (r : Row) :
  api_key_configured (gemini_manager (session s)) = true ->
  current_conversation_id (session s) = None ->
  prompt <> [] ->
  result (Supabase.create_conversation
            (result (Supabase.generate_conversation_name None) s) None)
         (run (Supabase.generate_conversation_name None) s) = Some r ->
  let s' := run (App.handle_user_input prompt) s in
  let u := mkMessage (lit "user") prompt in
  current_conversation_id (session s') = Some (row_id r)
  /\ needs_name_update (session s') = false
  /\ exists text,
      chat_history (session s') = [u; mkMessage (lit "assistant") text]
      /\ exists e1 e2,
          trace s'
          = trace s ++ e1
            ++ Call (UpdateConversationName (Some (row_id r)) (derived_name prompt)) :: e2
          /\ Forall (fun e => forall h, carried_history e = Some h ->
                               h = [] \/ h = [u]
                               \/ h = [u; mkMessage (lit "assistant") text])
                    (e1 ++ Call (UpdateConversationName (Some (row_id r))
                                   (derived_name prompt)) :: e2).
Proof.
  intros Hcfg Hcur Hp Hr s' u. subst s'.
  rewrite (handle_user_input_steps s prompt Hcfg).
  assert (He : run ensure_conversation s = run (App.create_new_conversation None) s).
  { unfold ensure_conversation. rewrite run_bind, result_gets, run_gets, Hcur. reflexivity. }
  rewrite He.
  destruct (create_new_conversation_success None s Hr) as [l Hs1].
  destruct (extends_create None s) as [e1 Ht1].
  set (s_a := run (App.create_new_conversation None) s) in *.
  assert (Hflag : needs_name_update (session s_a) = true) by (rewrite Hs1; reflexivity).
  assert (Hcur1 : current_conversation_id (session s_a) = Some (row_id r))
    by (rewrite Hs1; reflexivity).
  assert (Hh1 : chat_history (session s_a) = []) by (rewrite Hs1; reflexivity).
  destruct (@name_from_first_message_keeps _ prompt [] (Some (row_id r)) s_a
              (conj Hh1 Hcur1)) as ((Hh2 & Hcur2) & _).
  assert (Hname : needs_name_update (session (run (name_from_first_message prompt) s_a))
                  = false
                  /\ exists e2 e3,
                      trace (run (name_from_first_message prompt) s_a)
                      = trace s_a ++ e2
                        ++ Call (UpdateConversationName (Some (row_id r))
                                   (derived_name prompt)) :: e3).
  { destruct prompt as [ | c cs ]; [ congruence | ].
    set (s_1 := run (emit (Call (GenerateConversationName (Some (c :: cs))))) s_a).
    assert (Hrun : run (name_from_first_message (c :: cs)) s_a
                   = run App.load_conversations
                       (run (modify (set_needs_name_update false))
                          (run (Supabase.update_conversation_name (Some (row_id r))
                                  (derived_name (c :: cs))) s_1))).
    { pose proof (generate_conversation_name_given c cs s_a) as Hg.
      unfold name_from_first_message.
      rewrite !run_bind, !result_gets, !run_gets, Hflag. cbn [andb truthy].
      rewrite !run_bind, !result_gets, !run_gets.
      match goal with
      | |- context [result ?g s_a] =>
          assert (Hg1 : result g s_a = derived_name (c :: cs))
            by exact (f_equal fst Hg);
          assert (Hg2 : run g s_a = s_1)
            by exact (f_equal snd Hg);
          rewrite Hg1, Hg2
      end.
      change (current_conversation_id (session s_1))
        with (current_conversation_id (session s_a)).
      rewrite Hcur1. reflexivity. }
    rewrite Hrun.
    destruct (update_conversation_name_events (Some (row_id r))
                (derived_name (c :: cs)) s_1) as [e2 H2].
    split.
    - rewrite needs_name_update_load_conversations. reflexivity.
    - destruct (extends_load_conversations
                  (run (modify (set_needs_name_update false))
                     (run (Supabase.update_conversation_name (Some (row_id r))
                             (derived_name (c :: cs))) s_1))) as [e3 H3].
      exists [Call (GenerateConversationName (Some (c :: cs)))], (e2 ++ e3).
      rewrite H3. change (trace (run (modify ?g) ?t)) with (trace t).
      rewrite H2. subst s_1. rewrite run_emit. cbn [trace].
      repeat (rewrite <- ?app_assoc; cbn [app]). reflexivity. }
  destruct Hname as (Hflag2 & e2 & e3 & Ht2).
  destruct (before_exchange_carries_no_message prompt s Logic.I) as (_ & eb & Htb & Hob).
  rewrite run_bind in Htb. fold s_a in Htb.
  set (s_b := run (name_from_first_message prompt) s_a) in *.
  destruct (add_message_to_history_carries (lit "user") prompt s_b) as (eu & Htu & Hou).
  rewrite Hh2 in Hou. cbn [app] in Hou. fold u in Hou.
  set (s_c := run (App.add_message_to_history (lit "user") prompt) s_b) in *.
  assert (Hsc : session s_c = set_chat_history [u] (session s_b)).
  { subst s_c. rewrite session_add, Hh2. reflexivity. }
  set (s_d := run (App.display_chat_message (lit "user") prompt) s_c).
  destruct (respond_shape prompt s_d) as (text & s_x & er & Hr' & Hsx & _ & Htx & Hox).
  assert (Hhx : chat_history (session s_x) = [u]) by (rewrite Hsx; subst s_d; cbn; rewrite Hsc; reflexivity).
  destruct (add_message_to_history_carries (lit "assistant") text s_x) as (ea & Hta & Hoa).
  rewrite Hhx in Hoa. cbn [app] in Hoa.
  rewrite Hr'.
  set (a := mkMessage (lit "assistant") text) in *.
  assert (Hfinal : session (run (App.add_message_to_history (lit "assistant") text) s_x)
                   = set_chat_history [u; a] (session s_b)).
  { rewrite session_add, Hhx, Hsx. subst s_d. cbn [run App.display_chat_message emit snd session].
    rewrite Hsc. reflexivity. }
  rewrite Hfinal.
  cbn [set_chat_history current_conversation_id needs_name_update chat_history].
  split; [ exact Hcur2 | ]. split; [ exact Hflag2 | ].
  exists text. split; [ reflexivity | ].
  assert (Hall : trace (run (App.add_message_to_history (lit "assistant") text) s_x)
                 = trace s ++ eb ++ eu ++ StChatMessage (lit "user") prompt
                              :: Call (GenerateResponse prompt) :: er ++ ea).
  { rewrite Hta, Htx. subst s_d. cbn [run App.display_chat_message emit snd trace].
    rewrite Htu, Htb. repeat (rewrite <- ?app_assoc; cbn [app]). reflexivity. }
  assert (Hshape : trace (run (App.add_message_to_history (lit "assistant") text) s_x)
                   = trace s ++ (e1 ++ e2)
                     ++ Call (UpdateConversationName (Some (row_id r))
                                (derived_name prompt))
                        :: e3 ++ eu ++ StChatMessage (lit "user") prompt
                           :: Call (GenerateResponse prompt) :: er ++ ea).
  { rewrite Hta, Htx. subst s_d. cbn [run App.display_chat_message emit snd trace].
    rewrite Htu, Ht2, Ht1. repeat (rewrite <- ?app_assoc; cbn [app]). reflexivity. }
  exists (e1 ++ e2),
    (e3 ++ eu ++ StChatMessage (lit "user") prompt
        :: Call (GenerateResponse prompt) :: er ++ ea).
  split; [ exact Hshape | ].
  rewrite Hall in Hshape. apply app_inv_head in Hshape. rewrite <- Hshape.
  apply Forall_app. split.
  - eapply all_events_Forall; [ | exact Hob ].
    intros e Hok h Hh. unfold carries_no_message in Hok. rewrite Hh in Hok.
    destruct h; [ left; reflexivity | discriminate ].
  - apply Forall_app. split.
    + eapply Forall_impl; [ | exact Hou ]. intros e Hc h Hh. right. left. exact (Hc h Hh).
    + constructor; [ intros h Hh; discriminate | ].
      constructor; [ intros h Hh; discriminate | ].
      apply Forall_app. split.
      * eapply all_events_Forall; [ | exact Hox ].
        intros e Hok h Hh. destruct e as [ | | | [ ] | | ]; cbn in Hok, Hh; discriminate.
      * eapply Forall_impl; [ | exact Hoa ]. intros e Hc h Hh. right. right. exact (Hc h Hh).
Qed.

Lemma handle_user_input_creates_conversation_witness :
  let s0 := run (App.handle_user_input (lit "first"))
              (Scripted.start true true
                 [Some (lit "down"); Some (lit "down"); Some (lit "down")]
                 [inr (stream_of [lit "one"]); inr (stream_of [lit "two"])]) in
  api_key_configured (gemini_manager (session s0)) = true
  /\ current_conversation_id (session s0) = None
  /\ List.length (chat_history (session s0)) = 2
  /\ lit "second" <> []
  /\ result (Supabase.create_conversation
               (result (Supabase.generate_conversation_name None) s0) None)
            (run (Supabase.generate_conversation_name None) s0)
     = Some (mkRow (IntKey 1) (lit "New Chat 1") [] 1 None)
  /\ exists text,
      chat_history (session (run (App.handle_user_input (lit "second")) s0))
      = [mkMessage (lit "user") (lit "second"); mkMessage (lit "assistant") text].
Proof.
  intros s0.
  assert (Hcfg : api_key_configured (gemini_manager (session s0)) = true)
    by (vm_compute; reflexivity).
  assert (Hcur : current_conversation_id (session s0) = None) by (vm_compute; reflexivity).
  assert (Hp : lit "second" <> []) by discriminate.
  assert (Hr : result (Supabase.create_conversation
                         (result (Supabase.generate_conversation_name None) s0) None)
                      (run (Supabase.generate_conversation_name None) s0)
               = Some (mkRow (IntKey 1) (lit "New Chat 1") [] 1 None))
    by (vm_compute; reflexivity).
  split; [ exact Hcfg | ]. split; [ exact Hcur | ].
  split; [ vm_compute; reflexivity | ]. split; [ exact Hp | ]. split; [ exact Hr | ].
  destruct (@handle_user_input_creates_conversation _ s0 (lit "second") _ Hcfg Hcur Hp Hr)
    as (_ & _ & text & Hh & _).
  exists text. exact Hh.
Defined.

(** C5: the name flag is up right after a successful
    [create_new_conversation].  With the key configured it is down after
    every [handle_user_input] of a text the chat page hands over, whatever
    the table answers to the rename: the page hands over a text only when it
    is not empty.  So a run of the chat page in which Clear is not used ends
    with the flag down when a text was submitted, and with the flag as it
    was when none was. *)
Theorem needs_name_update_lifecycle
    {E : External} (s : State E) (first_message : option str) (prompt : str) :
  let name := result (Supabase.generate_conversation_name None) s in
  let s1 := run (Supabase.generate_conversation_name None) s in
  (forall r,
     result (Supabase.create_conversation name None) s1 = Some r ->
     needs_name_update (session (run (App.create_new_conversation first_message) s)) = true
     /\ current_conversation_id (session (run (App.create_new_conversation first_message) s))
        = Some (row_id r)
     /\ chat_history (session (run (App.create_new_conversation first_message) s)) = [])
  /\ (api_key_configured (gemini_manager (session s)) = true ->
      prompt <> [] ->
      needs_name_update (session (run (App.handle_user_input prompt) s)) = false)
  /\ (forall w,
        api_key_configured (gemini_manager (session s)) = true ->
        App.clear_chat w = false \/ chat_history (session s) = [] ->
        result (App.render_chat_interface w) s = false
        /\ needs_name_update (session (run (App.render_chat_interface w) s))
           = if truthy_opt (App.chat_input w) then false
             else needs_name_update (session s)).
Proof.
  intros name s1.
  assert (Hsubmit : forall (t : State E) (p : str),
             api_key_configured (gemini_manager (session t)) = true ->
             p <> [] ->
             needs_name_update (session (run (App.handle_user_input p) t)) = false).
  { intros t p Hcfg Hp.
    destruct (handle_user_input_configured t p Hcfg)
      as (s_d & h & Hrun & _ & _ & _ & Hflag & _).
    rewrite Hrun.
    destruct (session_respond p s_d) as [text Hs]. rewrite Hs.
    cbn [set_chat_history needs_name_update]. apply Hflag, Hp. }
  split; [ | split ].
  - intros r Hr. unfold App.create_new_conversation.
    rewrite run_bind, run_bind. fold name. fold s1. rewrite Hr.
    rewrite !run_bind, session_app_load_conversations.
    repeat split.
  - apply Hsubmit.
  - intros w Hcfg Hclear.
    assert (Hc : App.clear_chat w = false
                 \/ api_key_configured (gemini_manager (session s)) = false
                 \/ chat_history (session s) = []) by tauto.
    destruct (render_chat_interface_continue w s Hc) as [Hres Hrun].
    split; [ exact Hres | ].
    rewrite Hrun.
    set (s_h := run (App.display_history (chat_history (session s))) s).
    assert (Hs : session s_h = session s).
    { subst s_h. unfold run. rewrite display_history_run. reflexivity. }
    destruct (App.chat_input w) as [ [ | c cs ] | ]; cbn [truthy_opt truthy].
    + rewrite run_ret, Hs. reflexivity.
    + apply Hsubmit; [ rewrite Hs; exact Hcfg | discriminate ].
    + rewrite run_ret, Hs. reflexivity.
Qed.

Lemma needs_name_update_lifecycle_witness :
  let s := run (App.create_new_conversation None)
               (Scripted.start true true [None; None; None; Some (lit "down")] []) in
  let w := App.mkWidgets false (fun _ => false) (fun _ => false) [] false
             (Some (lit "hi")) in
  api_key_configured (gemini_manager (session s)) = true
  /\ lit "hi" <> []
  /\ needs_name_update (session s) = true
  /\ result (Supabase.update_conversation_name (Some (IntKey 1)) (lit "hi")) s = false
  /\ needs_name_update (session (run (App.handle_user_input (lit "hi")) s)) = false
  /\ needs_name_update (session (run (App.render_chat_interface w) s)) = false.
Proof.
  intros s w.
  assert (Hcfg : api_key_configured (gemini_manager (session s)) = true)
    by (vm_compute; reflexivity).
  assert (Hp : lit "hi" <> []) by discriminate.
  split; [ exact Hcfg | ]. split; [ exact Hp | ].
  split; [ vm_compute; reflexivity | ]. split; [ vm_compute; reflexivity | ].
  destruct (needs_name_update_lifecycle s None (lit "hi")) as (_ & Hhandler & Hpage).
  split; [ exact (Hhandler Hcfg Hp) | ].
  exact (proj2 (Hpage w Hcfg (or_introl eq_refl))).
Defined.
